(** * Fresh-air processing core: a shallow embedding and its properties

    The Python sources ([gain.py], [compressor.py], [filter.py] and the
    composite in [test.py]) compute on Python floats.  The embedding reads
    every float as a real number: the arithmetic is exact, rounding, NaN and
    infinities are not modelled, and a float comparison becomes the decidable
    comparison of [R]; a float literal with an integer value is written as
    the integer ([1] for [1.0]).  Python exceptions are explicit: a function that can
    raise returns a [result]; [math.exp] and [math.pow] raise [OverflowError]
    when their result leaves the range of the doubles.  Lists that the source mutates in place are
    returned as the new content of the buffer. *)

From Stdlib Require Import Reals Lra Lia List ZArith Bool.
From Stdlib Require Import Sorted.
From Stdlib Require String Ascii.
Import ListNotations.
Import String.StringSyntax.
Delimit Scope string_scope with string.
Open Scope R_scope.

(** ** Exceptions *)

Inductive exn : Set :=
| ZeroDivisionError
| IndexError
| ValueError
| KeyError
| OverflowError.

Inductive result (A : Type) : Type :=
| Ok (a : A)
| Raise (e : exn).

Arguments Ok {A} a.
Arguments Raise {A} e.

Definition bind {A B : Type} (m : result A) (k : A -> result B) : result B :=
  match m with
  | Ok a => k a
  | Raise e => Raise e
  end.

Notation "x <- m ;; k" := (bind m (fun x => k))
  (at level 61, m at next level, right associativity).
Notation "' p <- m ;; k" := (bind m (fun x => match x with p => k end))
  (at level 61, p pattern, m at next level, right associativity).

(** ** Python float primitives *)

Module Py.

(** [a / b] on floats: raises on a zero divisor. *)
Definition truediv (a b : R) : result R :=
  if Req_dec_T b 0 then Raise ZeroDivisionError else Ok (a / b).

(** [math.sqrt]: raises on a negative argument. *)
Definition math_sqrt (x : R) : result R :=
  if Rlt_dec x 0 then Raise ValueError else Ok (sqrt x).

(** The largest finite double, [(2 - 2 ** -52) * 2 ** 1023]. *)
Definition max_float : R := IZR (2 ^ 1024 - 2 ^ 971).

(** The bound from which a real result rounds to an infinity: the midpoint
    between the largest double and [2 ** 1024]. *)
Definition overflow_bound : R := IZR (2 ^ 1024 - 2 ^ 970).

(** The "math range error" of the [math] module: a function called on
    finite operands [x], [y] whose result [v] is beyond the doubles raises
    [OverflowError].  An operand beyond the largest double is no finite
    float (Python holds an infinity there, on which the functions return
    without raising): the result is then kept as it is. *)
Definition range_checked (x y v : R) : result R :=
  if Rle_dec (Rabs x) max_float then
    if Rle_dec (Rabs y) max_float then
      if Rle_dec overflow_bound (Rabs v) then Raise OverflowError else Ok v
    else Ok v
  else Ok v.

(** [math.exp] *)
Definition math_exp (x : R) : result R := range_checked x 0 (exp x).

(** [y] is an integer-valued float. *)
Definition is_integer (y : R) : bool :=
  if Req_dec_T y (IZR (Int_part y)) then true else false.

(** [math.pow x y]: [x ** 0 = 1] for every [x]; a positive base uses
    [exp (y * ln x)]; a zero base gives 0 for a positive exponent and raises
    for a negative one; a negative base raises unless [y] is an integer; a
    result beyond the doubles raises [OverflowError]. *)
Definition math_pow (x y : R) : result R :=
  if Req_dec_T y 0 then Ok 1
  else if Rlt_dec 0 x then range_checked x y (exp (y * ln x))
  else if Req_dec_T x 0 then
    (if Rlt_dec 0 y then Ok 0 else Raise ValueError)
  else if is_integer y then range_checked x y (powerRZ x (Int_part y))
  else Raise ValueError.

(** [l[i]] for [0 <= i]. *)
Definition getitem (l : list R) (i : nat) : result R :=
  match nth_error l i with
  | Some v => Ok v
  | None => Raise IndexError
  end.

End Py.

(** ** gain.py: [StereoGainMeter] (the ramped gain stage) *)

Module StereoGainMeter.

Record t : Type := mk {
  _initialized : bool;
  _stored_target_gain : R;
  _start_gain : R;
  _current_gain : R;
  _ramp_step : R;
  _meter_coeff_l : R;
  _meter_coeff_r : R;
  _meter_state_l : R;
  _meter_state_r : R
}.

(** [__init__] *)
Definition init (meter_coeff_l meter_coeff_r : R) : t :=
  {| _initialized := false;
     _stored_target_gain := 0;
     _start_gain := 0;
     _current_gain := 0;
     _ramp_step := 0;
     _meter_coeff_l := meter_coeff_l;
     _meter_coeff_r := meter_coeff_r;
     _meter_state_l := 0;
     _meter_state_r := 0 |}.

(** The default arguments of [__init__]. *)
Definition init_default : t := init 0.1 0.1.

(** Attribute assignments [self._x = v]. *)
Definition set_initialized (v : bool) (s : t) : t :=
  mk v (_stored_target_gain s) (_start_gain s) (_current_gain s)
     (_ramp_step s) (_meter_coeff_l s) (_meter_coeff_r s)
     (_meter_state_l s) (_meter_state_r s).

Definition set_stored_target_gain (v : R) (s : t) : t :=
  mk (_initialized s) v (_start_gain s) (_current_gain s)
     (_ramp_step s) (_meter_coeff_l s) (_meter_coeff_r s)
     (_meter_state_l s) (_meter_state_r s).

Definition set_start_gain (v : R) (s : t) : t :=
  mk (_initialized s) (_stored_target_gain s) v (_current_gain s)
     (_ramp_step s) (_meter_coeff_l s) (_meter_coeff_r s)
     (_meter_state_l s) (_meter_state_r s).

Definition set_current_gain (v : R) (s : t) : t :=
  mk (_initialized s) (_stored_target_gain s) (_start_gain s) v
     (_ramp_step s) (_meter_coeff_l s) (_meter_coeff_r s)
     (_meter_state_l s) (_meter_state_r s).

Definition set_ramp_step (v : R) (s : t) : t :=
  mk (_initialized s) (_stored_target_gain s) (_start_gain s)
     (_current_gain s) v (_meter_coeff_l s) (_meter_coeff_r s)
     (_meter_state_l s) (_meter_state_r s).

Definition set_meter_state_l (v : R) (s : t) : t :=
  mk (_initialized s) (_stored_target_gain s) (_start_gain s)
     (_current_gain s) (_ramp_step s) (_meter_coeff_l s) (_meter_coeff_r s)
     v (_meter_state_r s).

Definition set_meter_state_r (v : R) (s : t) : t :=
  mk (_initialized s) (_stored_target_gain s) (_start_gain s)
     (_current_gain s) (_ramp_step s) (_meter_coeff_l s) (_meter_coeff_r s)
     (_meter_state_l s) v.

(** Section 1 of [process_block]: the target gain from the configuration. *)
Definition target_gain_of (config_mode : Z)
    (config_val_normal config_val_boost : R) : R :=
  if (config_mode =? 1)%Z then config_val_boost * 2 else config_val_normal.

(** Section 2 of [process_block]: the ramp set-up, up to and including the
    assignment of the stored target. *)
Definition setup_ramp (self : t) (target_gain : R) (block_size : nat)
  : result t :=
  self <-
    (if negb (_initialized self) then
       Ok (set_current_gain target_gain
            (set_ramp_step 0
              (set_stored_target_gain target_gain
                (set_start_gain target_gain
                  (set_initialized true self)))))
     else
       let diff := target_gain - _stored_target_gain self in
       if Rle_dec 1e-15 (Rabs diff) then
         ramp_step <- Py.truediv 1 (INR block_size) ;;
         Ok (set_start_gain (_stored_target_gain self)
              (set_ramp_step ramp_step self))
       else
         Ok (set_start_gain target_gain (set_ramp_step 0 self))) ;;
  Ok (set_stored_target_gain target_gain self).

(** The gain of one sample: the interpolation of lines 92-101. *)
Definition calculated_gain_at (self : t) (target_gain ramp_counter : R) : R :=
  let t := ramp_counter * _ramp_step self in
  if Rlt_dec 0 (_ramp_step self) then
    (1 - t) * _start_gain self + (t * target_gain)
  else target_gain.

(** Section 3 of [process_block]: the sample loop.  [left_samples] and
    [right_samples] are the not yet visited parts of the two buffers (two
    distinct list objects, as at every call site); the result holds their
    new content.  The loop runs over the left buffer; a shorter right buffer
    makes [right_samples[i]] raise, a longer one keeps its tail. *)
Fixpoint sample_loop (self : t) (target_gain ramp_counter : R)
    (left_samples right_samples : list R)
  : result (t * list R * list R) :=
  match left_samples with
  | [] => Ok (self, [], right_samples)
  | samp_l :: left_rest =>
      let ramp_counter := ramp_counter + 1 in
      let calculated_gain := calculated_gain_at self target_gain ramp_counter in
      let self := set_current_gain calculated_gain self in
      let out_l := samp_l * calculated_gain in
      let energy_l := out_l * out_l in
      let self :=
        set_meter_state_l
          ((energy_l - _meter_state_l self) * _meter_coeff_l self
           + _meter_state_l self) self in
      match right_samples with
      | [] => Raise IndexError
      | samp_r :: right_rest =>
          let out_r := samp_r * _current_gain self in
          let energy_r := out_r * out_r in
          let self :=
            set_meter_state_r
              ((energy_r - _meter_state_r self) * _meter_coeff_r self
               + _meter_state_r self) self in
          '(self, out_left, out_right) <-
            sample_loop self target_gain ramp_counter left_rest right_rest ;;
          Ok (self, out_l :: out_left, out_r :: out_right)
      end
  end.

Definition process_block (self : t) (left_samples right_samples : list R)
    (config_mode : Z) (config_val_normal config_val_boost : R)
  : result (t * list R * list R) :=
  let target_gain :=
    target_gain_of config_mode config_val_normal config_val_boost in
  let block_size := length left_samples in
  self <- setup_ramp self target_gain block_size ;;
  let ramp_counter := 0 in
  sample_loop self target_gain ramp_counter left_samples right_samples.

(** [get_meter_levels] *)
Definition get_meter_levels (self : t) : R * R :=
  (_meter_state_l self, _meter_state_r self).

End StereoGainMeter.

(** ** compressor.py: [UnknownCompressor] (the dynamics unit) *)

Module UnknownCompressor.

Record t : Type := mk {
  sample_rate : R;
  mode : Z;               (* 0 = RMS, anything else = Peak *)
  threshold : R;
  ratio : R;
  attack_time : R;
  release_time : R;
  rms_state : R;
  peak_state : R;
  gain_state : R;
  EPSILON : R
}.

(** [__init__] *)
Definition init (sample_rate : R) : t :=
  {| sample_rate := sample_rate;
     mode := 2;
     threshold := 1;
     ratio := 4;
     attack_time := 0.002;
     release_time := 0.100;
     rms_state := 0;
     peak_state := 0;
     gain_state := 1;
     EPSILON := 9.536743e-07 |}.

(** Attribute assignments. *)
Definition set_mode (v : Z) (s : t) : t :=
  mk (sample_rate s) v (threshold s) (ratio s) (attack_time s)
     (release_time s) (rms_state s) (peak_state s) (gain_state s) (EPSILON s).

Definition set_threshold (v : R) (s : t) : t :=
  mk (sample_rate s) (mode s) v (ratio s) (attack_time s)
     (release_time s) (rms_state s) (peak_state s) (gain_state s) (EPSILON s).

Definition set_ratio (v : R) (s : t) : t :=
  mk (sample_rate s) (mode s) (threshold s) v (attack_time s)
     (release_time s) (rms_state s) (peak_state s) (gain_state s) (EPSILON s).

Definition set_rms_state (v : R) (s : t) : t :=
  mk (sample_rate s) (mode s) (threshold s) (ratio s) (attack_time s)
     (release_time s) v (peak_state s) (gain_state s) (EPSILON s).

Definition set_peak_state (v : R) (s : t) : t :=
  mk (sample_rate s) (mode s) (threshold s) (ratio s) (attack_time s)
     (release_time s) (rms_state s) v (gain_state s) (EPSILON s).

Definition set_gain_state (v : R) (s : t) : t :=
  mk (sample_rate s) (mode s) (threshold s) (ratio s) (attack_time s)
     (release_time s) (rms_state s) (peak_state s) v (EPSILON s).

(** [_calc_coeff] *)
Definition _calc_coeff (self : t) (time_seconds : R) : result R :=
  if Rle_dec time_seconds 0 then Ok 1
  else
    q <- Py.truediv (-1) (time_seconds * sample_rate self) ;;
    e <- Py.math_exp q ;;
    Ok (1 - e).

(** The four one-pole coefficients of a block. *)
Record coeffs : Type := mk_coeffs {
  attack_coeff : R;
  release_coeff : R;
  rms_coeff : R;
  gain_smooth_coeff : R
}.

Definition block_coeffs (self : t) : result coeffs :=
  attack_coeff <- _calc_coeff self (attack_time self) ;;
  release_coeff <- _calc_coeff self (release_time self) ;;
  rms_coeff <- _calc_coeff self 0.050 ;;
  gain_smooth_coeff <- _calc_coeff self 0.005 ;;
  Ok (mk_coeffs attack_coeff release_coeff rms_coeff gain_smooth_coeff).

(** [slope = 1.0 - (1.0 / self.ratio) if self.ratio > 1.0 else 0.0] *)
Definition block_slope (self : t) : result R :=
  if Rlt_dec 1 (ratio self) then
    q <- Py.truediv 1 (ratio self) ;; Ok (1 - q)
  else Ok 0.

(** [max(0, x)] of the RMS detector. *)
Definition max0 (x : R) : R := if Rlt_dec 0 x then x else 0.

(** [input_level] of the Peak detector (lines 103-107): the larger of the
    two absolute samples. *)
Definition input_level_of (samp_l samp_r : R) : R :=
  let abs_l := Rabs samp_l in
  let abs_r := Rabs samp_r in
  if Rlt_dec abs_r abs_l then abs_l else abs_r.

(** The detector stage of one loop iteration (lines 86-115): the new state
    and [current_env]. *)
Definition detector (self : t) (k : coeffs) (samp_l samp_r : R)
  : result (t * R) :=
  if (mode self =? 0)%Z then
    let power := (samp_l * samp_l + samp_r * samp_r) * 0.5 in
    let power := if Rle_dec power (EPSILON self) then EPSILON self else power in
    let self :=
      set_rms_state (rms_state self + (power - rms_state self) * rms_coeff k)
        self in
    current_env <- Py.math_sqrt (max0 (rms_state self)) ;;
    Ok (self, current_env)
  else
    let input_level := input_level_of samp_l samp_r in
    let coeff :=
      if Rlt_dec (peak_state self) input_level then attack_coeff k
      else release_coeff k in
    let self :=
      set_peak_state (peak_state self + (input_level - peak_state self) * coeff)
        self in
    Ok (self, peak_state self).

(** The gain computer stage (lines 117-131): [target_gain_linear]. *)
Definition gain_computer (self : t) (slope current_env : R) : result R :=
  if Rlt_dec (threshold self) current_env then
    let safe_env :=
      if Rlt_dec (EPSILON self) current_env then current_env
      else EPSILON self in
    ratio_calc <- Py.truediv (threshold self) safe_env ;;
    Py.math_pow ratio_calc slope
  else Ok 1.

(** One iteration of the loop body after the two samples were loaded:
    detector, gain computer, ballistics, gain applied. *)
Definition process_sample (self : t) (k : coeffs) (slope samp_l samp_r : R)
  : result (t * R * R) :=
  '(self, current_env) <- detector self k samp_l samp_r ;;
  target_gain_linear <- gain_computer self slope current_env ;;
  let self :=
    set_gain_state
      (gain_state self
       + (target_gain_linear - gain_state self) * gain_smooth_coeff k) self in
  let applied_gain := gain_state self in
  Ok (self, samp_l * applied_gain, samp_r * applied_gain).

(** The loop over [range(len(left_channel))].  [output_r] was allocated with
    the length of the right channel: the entries the loop does not reach
    stay 0.0. *)
Fixpoint sample_loop (self : t) (k : coeffs) (slope : R)
    (left_channel right_channel : list R) : result (t * list R * list R) :=
  match left_channel with
  | [] => Ok (self, [], map (fun _ => 0) right_channel)
  | samp_l :: left_rest =>
      match right_channel with
      | [] => Raise IndexError
      | samp_r :: right_rest =>
          '(self, out_l, out_r) <- process_sample self k slope samp_l samp_r ;;
          '(self, output_l, output_r) <-
            sample_loop self k slope left_rest right_rest ;;
          Ok (self, out_l :: output_l, out_r :: output_r)
      end
  end.

Definition process_block (self : t) (left_channel right_channel : list R)
  : result (t * list R * list R) :=
  k <- block_coeffs self ;;
  slope <- block_slope self ;;
  sample_loop self k slope left_channel right_channel.

(** Two states of a unit with the same configuration fields. *)
Definition same_config (s s' : t) : Prop :=
  sample_rate s' = sample_rate s /\ mode s' = mode s
  /\ threshold s' = threshold s /\ ratio s' = ratio s
  /\ attack_time s' = attack_time s /\ release_time s' = release_time s
  /\ EPSILON s' = EPSILON s.

(** A caller that feeds a sequence of stereo blocks to one unit. *)
Fixpoint process_blocks (self : t) (blocks : list (list R * list R))
  : result t :=
  match blocks with
  | [] => Ok self
  | (left_channel, right_channel) :: rest =>
      '(self, _, _) <- process_block self left_channel right_channel ;;
      process_blocks self rest
  end.

(** The peak state after [n] samples of the constant input
    [(samp_l, samp_r)] (0 if the call raised). *)
Definition peak_after (self : t) (samp_l samp_r : R) (n : nat) : R :=
  match process_block self (repeat samp_l n) (repeat samp_r n) with
  | Ok (self, _, _) => peak_state self
  | Raise _ => 0
  end.

End UnknownCompressor.

(** ** test.py: [UnknownFilter] (the zero-delay-feedback filter of the
    composite) *)

Module UnknownFilter.

(** [self.C]: the list of the five runtime coefficients. *)
Record coeffs : Type := mk_coeffs { c0 : R; c1 : R; c2 : R; c3 : R; c4 : R }.

(** [self.state]: the list [S0, S1, S2, S3]. *)
Record integrators : Type := mk_state { s0 : R; s1 : R; s2 : R; s3 : R }.

Record t : Type := mk { state : integrators; C : coeffs }.

(** [__init__] without hex strings: the default pass-through set. *)
Definition init : t :=
  {| state := mk_state 0 0 0 0;
     C := mk_coeffs 1 0 0 0 0 |}.

(** [set_params] *)
Definition set_params (self : t) (c0 c1 c2 c3 c4 : R) : t :=
  {| state := state self; C := mk_coeffs c0 c1 c2 c3 c4 |}.

(** The guarded reciprocal of lines 197-201:
    [inv = 1.0 / denom if abs(denom) > 1e-20 else 0.0]. *)
Definition inv_term (c0 c1 : R) : result R :=
  let two_c1 := c1 * 2 in
  let mix := two_c1 + c0 in
  let denom := mix * c0 + 1 in
  if Rlt_dec 1e-20 (Rabs denom) then Py.truediv 1 denom else Ok 0.

(** One loop iteration on the samples [inp_l], [inp_r] with the reciprocal
    [inv]: the two outputs and the new integrators. *)
Definition tick (c : coeffs) (s : integrators) (inv inp_l inp_r : R)
  : R * R * integrators :=
  let two_c0 := c0 c * 2 in
  let two_c1 := c1 c * 2 in
  let mix := two_c1 + c0 c in
  let acc_l := inp_l * c0 c + s0 s in
  let acc_r := inp_r * c0 c + s1 s in
  let hp_l := inp_l - (mix * acc_l + s2 s) * inv in
  let hp_r := inp_r - (mix * acc_r + s3 s) * inv in
  let s2_temp := (acc_l - s2 s * c0 c) * inv * c0 c + s2 s in
  let s3_temp := (acc_r - s3 s * c0 c) * inv * c0 c + s3 s in
  let bp_l := hp_l * c0 c + s0 s in
  let bp_r := hp_r * c0 c + s1 s in
  let out_l := c3 c * bp_l + c4 c * s2_temp + c2 c * hp_l in
  let out_r := c3 c * bp_r + c4 c * s3_temp + c2 c * hp_r in
  let s0' := ((inp_l - two_c1 * bp_l) - s2_temp) * two_c0 + s0 s in
  let s1' := ((inp_r - two_c1 * bp_r) - s3_temp) * two_c0 + s1 s in
  let s2' := bp_l * two_c0 + s2 s in
  let s3' := bp_r * two_c0 + s3 s in
  (out_l, out_r, mk_state s0' s1' s2' s3').

(** The loop over [range(block_len)], [block_len = len(left_samples)]; [dc]
    holds the per-sample coefficient deltas. *)
Fixpoint sample_loop (c dc : coeffs) (s : integrators)
    (left_samples right_samples : list R)
  : result (coeffs * integrators * list R * list R) :=
  match left_samples with
  | [] => Ok (c, s, [], [])
  | inp_l :: left_rest =>
      inv <- inv_term (c0 c) (c1 c) ;;
      match right_samples with
      | [] => Raise IndexError
      | inp_r :: right_rest =>
          let '(out_l, out_r, s) := tick c s inv inp_l inp_r in
          let c := mk_coeffs (c0 c + c0 dc) (c1 c + c1 dc) (c2 c + c2 dc)
                             (c3 c + c3 dc) (c4 c + c4 dc) in
          '(c, s, output_l, output_r) <-
            sample_loop c dc s left_rest right_rest ;;
          Ok (c, s, out_l :: output_l, out_r :: output_r)
      end
  end.

Definition process (self : t) (left_samples right_samples : list R)
  : result (t * list R * list R) :=
  let dc := mk_coeffs 0 0 0 0 0 in
  '(c, s, output_l, output_r) <-
    sample_loop (C self) dc (state self) left_samples right_samples ;;
  Ok ({| state := s; C := c |}, output_l, output_r).

End UnknownFilter.

(** ** filter.py: the stand-alone [UnknownFilter] with its design step *)

Module FilterPy.

Record coeffs : Type := mk_coeffs { C0 : R; C1 : R; C2 : R; C3 : R; C4 : R }.

Record integrators : Type := mk_state { S0 : R; S1 : R; S2 : R; S3 : R }.

Record t : Type := mk { P : R * R * R * R * R; C : coeffs; state : integrators }.

(** [_calculate_coefficients] *)
Definition _calculate_coefficients (P : R * R * R * R * R) : result coeffs :=
  let '(P0, P1, P2, P3, P4) := P in
  let val_A := (-1 - P3) - P4 in
  '(root1_re, root1_im) <-
    (if Rle_dec val_A 0 then r <- Py.math_sqrt (- val_A) ;; Ok (0, r)
     else r <- Py.math_sqrt val_A ;; Ok (r, 0)) ;;
  let val_B := (P3 - 1) - P4 in
  '(root2_re, root2_im) <-
    (if Rle_dec val_B 0 then r <- Py.math_sqrt (- val_B) ;; Ok (0, r)
     else r <- Py.math_sqrt val_B ;; Ok (r, 0)) ;;
  dVar9 <-
    (if Rle_dec (Rabs root2_re) (Rabs root2_im) then
       q <- Py.truediv root2_im root2_im ;;
       let dVar24 := root2_im * q + root2_re in
       q' <- Py.truediv root2_im root2_im ;;
       Py.truediv (root1_im * q' + root1_re) dVar24
     else
       q <- Py.truediv root2_re root2_im ;;
       let dVar24 := root2_re * q + root2_im in
       q' <- Py.truediv root2_re root2_im ;;
       Py.truediv (root1_im + root1_re * q') dVar24) ;;
  inv_den <- Py.truediv 1 (root1_re * root2_re - root2_im * root1_im) ;;
  let C0 := dVar9 in
  let C1 := (P4 - 1) * inv_den in
  C2 <- Py.truediv ((P0 - P1) + P2) ((1 - P3) + P4) ;;
  let C3 := (P0 - P2) * -2 * inv_den in
  C4 <- Py.truediv (P0 + P1 + P2) (P3 + 1 + P4) ;;
  Ok (mk_coeffs C0 C1 C2 C3 C4).

(** The design parameters written in [__init__]. *)
Definition P_dump : R * R * R * R * R :=
  (0.21702805830713853, 0.7929947002337122, 0.9999999999999999, 0, 0).

(** [__init__] *)
Definition init : result t :=
  C <- _calculate_coefficients P_dump ;;
  Ok {| P := P_dump; C := C; state := mk_state 0 0 0 0 |}.

(** One loop iteration given the loop constants. *)
Definition tick (c : coeffs) (s : integrators) (dVar5 dVar3 dVar26 dVar28 : R)
    (L_in R_in : R) : R * R * integrators :=
  let u_L := L_in * C0 c + S0 s in
  let val_L := L_in - (dVar26 * u_L + S2 s) * dVar28 in
  let S2_temp_L := (u_L - S2 s * C0 c) * dVar28 * C0 c + S2 s in
  let v1_L := val_L * C0 c + S0 s in
  let out_L := C3 c * v1_L + C4 c * S2_temp_L + C2 c * val_L in
  let u_R := R_in * C0 c + S1 s in
  let val_R := R_in - (dVar26 * u_R + S3 s) * dVar28 in
  let S3_temp_R := (u_R - S3 s * C0 c) * dVar28 * C0 c + S3 s in
  let v1_R := val_R * C0 c + S1 s in
  let out_R := C3 c * v1_R + C4 c * S3_temp_R + C2 c * val_R in
  let S0' := ((L_in - dVar3 * v1_L) - S2_temp_L) * dVar5 + S0 s in
  let S1' := ((R_in - dVar3 * v1_R) - S3_temp_R) * dVar5 + S1 s in
  let S2' := v1_L * dVar5 + S2 s in
  let S3' := v1_R * dVar5 + S3 s in
  (out_L, out_R, mk_state S0' S1' S2' S3').

Fixpoint sample_loop (c : coeffs) (s : integrators)
    (dVar5 dVar3 dVar26 dVar28 : R) (left_samples right_samples : list R)
  : result (integrators * list R * list R) :=
  match left_samples with
  | [] => Ok (s, [], [])
  | L_in :: left_rest =>
      match right_samples with
      | [] => Raise IndexError
      | R_in :: right_rest =>
          let '(out_L, out_R, s) := tick c s dVar5 dVar3 dVar26 dVar28 L_in R_in in
          '(s, output_l, output_r) <-
            sample_loop c s dVar5 dVar3 dVar26 dVar28 left_rest right_rest ;;
          Ok (s, out_L :: output_l, out_R :: output_r)
      end
  end.

(** [process]: the reciprocal [dVar28] is computed once, before the loop,
    with no guard. *)
Definition process (self : t) (left_samples right_samples : list R)
  : result (t * list R * list R) :=
  let c := C self in
  let dVar5 := C0 c * 2 in
  let dVar3 := C1 c * 2 in
  let dVar26 := dVar3 + C0 c in
  dVar28 <- Py.truediv 1 (dVar26 * C0 c + 1) ;;
  '(s, output_l, output_r) <-
    sample_loop c (state self) dVar5 dVar3 dVar26 dVar28
      left_samples right_samples ;;
  Ok ({| P := P self; C := c; state := s |}, output_l, output_r).

(** The stand-alone filter seen as an object of the class of test.py: the
    same five coefficients and the same four integrators. *)
Definition as_test_filter (f : t) : UnknownFilter.t :=
  {| UnknownFilter.state :=
       UnknownFilter.mk_state (S0 (state f)) (S1 (state f))
                              (S2 (state f)) (S3 (state f));
     UnknownFilter.C :=
       UnknownFilter.mk_coeffs (C0 (C f)) (C1 (C f)) (C2 (C f))
                               (C3 (C f)) (C4 (C f)) |}.

End FilterPy.

(** ** test.py: data extraction and helpers *)

Module Hex.

Import Ascii String.

(** The value of a hexadecimal digit. *)
Definition hex_value (c : ascii) : option Z :=
  let n := Z.of_nat (nat_of_ascii c) in
  if ((48 <=? n) && (n <=? 57))%bool%Z then Some (n - 48)%Z
  else if ((65 <=? n) && (n <=? 70))%bool%Z then Some (n - 55)%Z
  else if ((97 <=? n) && (n <=? 102))%bool%Z then Some (n - 87)%Z
  else None.

(** The digits of [hex_str.replace(" ", "")]; the literals of this file hold
    hexadecimal digits and spaces only, so the errors of [bytes.fromhex] are
    not modelled: a character that is no digit is dropped. *)
Fixpoint digits (s : string) : list Z :=
  match s with
  | EmptyString => []
  | String c rest =>
      match hex_value c with
      | Some d => d :: digits rest
      | None => digits rest
      end
  end.

(** [bytes.fromhex]: two digits make a byte. *)
Fixpoint bytes_of (ds : list Z) : list Z :=
  match ds with
  | hi :: lo :: rest => (16 * hi + lo)%Z :: bytes_of rest
  | _ => []
  end.

(** The integer of a byte string, least significant byte first. *)
Fixpoint little_endian (bs : list Z) : Z :=
  match bs with
  | [] => 0%Z
  | b :: rest => (b + 256 * little_endian rest)%Z
  end.

(** The real value of an IEEE-754 word with [mbits] mantissa bits and
    [ebits] exponent bits (infinities and NaN have no real value and do not
    occur in the tables). *)
Definition ieee_value (mbits ebits : Z) (w : Z) : R :=
  let m := (w mod 2 ^ mbits)%Z in
  let e := ((w / 2 ^ mbits) mod 2 ^ ebits)%Z in
  let s := (w / 2 ^ (mbits + ebits))%Z in
  let bias := (2 ^ (ebits - 1) - 1)%Z in
  let mag :=
    if (e =? 0)%Z then IZR m * powerRZ 2 (1 - bias - mbits)
    else IZR (2 ^ mbits + m) * powerRZ 2 (e - bias - mbits) in
  if (s =? 0)%Z then mag else - mag.

(** [struct.unpack("<d", ...)] *)
Definition hex_to_double (hex_str : string) : R :=
  ieee_value 52 11 (little_endian (bytes_of (digits hex_str))).

(** [struct.unpack(">d", ...)] *)
Definition hex_to_double_be (hex_str : string) : R :=
  ieee_value 52 11 (little_endian (rev (bytes_of (digits hex_str)))).

(** [struct.unpack("<f", ...)] *)
Definition hex_to_float (hex_str : string) : R :=
  ieee_value 23 8 (little_endian (bytes_of (digits hex_str))).

End Hex.

Definition lerp (a b t : R) : R := a + t * (b - a).

(** A Python dict with float keys, in insertion order (keys distinct). *)
Definition dict : Type := list (R * R).

(** [points[k]] *)
Fixpoint dict_get (points : dict) (k : R) : result R :=
  match points with
  | [] => Raise KeyError
  | (k', v) :: rest => if Req_dec_T k k' then Ok v else dict_get rest k
  end.

(** [sorted] on floats. *)
Fixpoint insert_sorted (x : R) (l : list R) : list R :=
  match l with
  | [] => [x]
  | y :: rest => if Rle_dec x y then x :: l else y :: insert_sorted x rest
  end.

Definition sorted (l : list R) : list R := fold_right insert_sorted [] l.

(** The [for] loop of [interpolate_curve] over consecutive keys. *)
Fixpoint interpolate_segments (knob_val : R) (points : dict)
    (sorted_keys : list R) : result R :=
  match sorted_keys with
  | k1 :: ((k2 :: _) as rest) =>
      if Rle_dec k1 knob_val then
        if Rle_dec knob_val k2 then
          t <- Py.truediv (knob_val - k1) (k2 - k1) ;;
          v1 <- dict_get points k1 ;;
          v2 <- dict_get points k2 ;;
          Ok (lerp v1 v2 t)
        else interpolate_segments knob_val points rest
      else interpolate_segments knob_val points rest
  | _ => Ok 0
  end.

(** [interpolate_curve] *)
Definition interpolate_curve (knob_val : R) (points : dict) : result R :=
  let sorted_keys := sorted (map fst points) in
  match sorted_keys with
  | [] => Raise IndexError
  | first :: _ =>
      if Rle_dec knob_val first then dict_get points first
      else
        let last := List.last sorted_keys 0 in
        if Rle_dec last knob_val then dict_get points last
        else interpolate_segments knob_val points sorted_keys
  end.

(** Band 0 (Mid Air) *)
Definition MID_FILTER_COEFFS : R * R * R * R * R :=
  (Hex.hex_to_double "5B 2C 5F 4E 93 C7 CB 3F"%string,
   Hex.hex_to_double "B9 F6 EC 6B 36 60 E9 3F"%string,
   Hex.hex_to_double "FF FF FF FF FF FF EF 3F"%string,
   0, 0).

(** Band 1 (High Air) *)
Definition HIGH_FILTER_COEFFS : R * R * R * R * R :=
  (Hex.hex_to_double "B5 C9 7F 88 D8 E1 E7 3F"%string,
   Hex.hex_to_double "10 51 A6 55 7E A1 E6 3F"%string,
   Hex.hex_to_double "00 00 00 00 00 00 F0 3F"%string,
   0, 0).

Definition MID_GAIN_CURVE : dict :=
  [ (0.00, Hex.hex_to_double_be "3FE51AED3F1C0A9C"%string);
    (0.25, Hex.hex_to_double_be "3FF088C83F7BBFBB"%string);
    (0.50, Hex.hex_to_double_be "3FF50ACE3FA1F00A"%string);
    (0.75, Hex.hex_to_double_be "3FF9A1693FC6A4EA"%string);
    (1.00, Hex.hex_to_double_be "3FFE7ACA3FED6FEC"%string) ].

Definition HIGH_LIMITER_THRESH_CURVE : dict :=
  [ (0.00, Hex.hex_to_float "9D 41 00 3F"%string);
    (0.25, Hex.hex_to_float "2F 7C 95 3E"%string);
    (0.50, Hex.hex_to_float "F2 BA 5F 3E"%string);
    (0.75, Hex.hex_to_float "EA 7C 30 3E"%string);
    (1.00, Hex.hex_to_float "37 4B 0F 3E"%string) ].

Definition HIGH_LIMITER_SHAPE_CURVE : dict :=
  [ (0.00, Hex.hex_to_float "11 33 3D 3F"%string);
    (0.25, Hex.hex_to_float "EF 18 23 3F"%string);
    (0.50, Hex.hex_to_float "76 15 15 3F"%string);
    (0.75, Hex.hex_to_float "50 9E 09 3F"%string);
    (1.00, Hex.hex_to_float "EE 17 FF 3E"%string) ].

(** ** test.py: [FreshAirClone] (the composite) *)

Module FreshAirClone.

Record t : Type := mk {
  sample_rate : R;
  mid_filter : UnknownFilter.t;
  mid_compressor : UnknownCompressor.t;
  high_filter : UnknownFilter.t;
  high_gate : UnknownCompressor.t;
  high_gain : StereoGainMeter.t;
  high_limiter : UnknownCompressor.t;
  trim_gain : StereoGainMeter.t;
  static_pad : StereoGainMeter.t;
  knob_mid : R;
  knob_high : R;
  knob_trim : R
}.

(** [filter.set_params( *COEFFS )] *)
Definition with_params (f : UnknownFilter.t) (p : R * R * R * R * R)
  : UnknownFilter.t :=
  let '(p0, p1, p2, p3, p4) := p in UnknownFilter.set_params f p0 p1 p2 p3 p4.

(** [__init__] *)
Definition init (sample_rate : R) : t :=
  {| sample_rate := sample_rate;
     mid_filter := with_params UnknownFilter.init MID_FILTER_COEFFS;
     mid_compressor :=
       UnknownCompressor.set_ratio 2
         (UnknownCompressor.set_mode 0
           (UnknownCompressor.set_threshold 0.0316
             (UnknownCompressor.init sample_rate)));
     high_filter := with_params UnknownFilter.init HIGH_FILTER_COEFFS;
     high_gate :=
       UnknownCompressor.set_threshold 0 (UnknownCompressor.init sample_rate);
     high_gain := StereoGainMeter.init_default;
     high_limiter :=
       UnknownCompressor.set_mode 2 (UnknownCompressor.init sample_rate);
     trim_gain := StereoGainMeter.init_default;
     static_pad := StereoGainMeter.init_default;
     knob_mid := 0;
     knob_high := 0;
     knob_trim := 0 |}.

(** [set_parameters] *)
Definition set_parameters (self : t) (mid_air high_air trim_db : R)
  : result t :=
  slope <- interpolate_curve high_air HIGH_LIMITER_SHAPE_CURVE ;;
  ratio <-
    (if Rlt_dec slope 1 then Py.truediv 1 (1 - slope) else Ok 20) ;;
  thresh <- interpolate_curve high_air HIGH_LIMITER_THRESH_CURVE ;;
  Ok {| sample_rate := sample_rate self;
        mid_filter := mid_filter self;
        mid_compressor := mid_compressor self;
        high_filter := high_filter self;
        high_gate := high_gate self;
        high_gain := high_gain self;
        high_limiter :=
          UnknownCompressor.set_ratio ratio
            (UnknownCompressor.set_threshold thresh (high_limiter self));
        trim_gain := trim_gain self;
        static_pad := static_pad self;
        knob_mid := mid_air;
        knob_high := high_air;
        knob_trim := trim_db |}.

(** The summing loop of [process] over [range(block_len)]:
    [left_in[i] + mid_l[i] + high_l[i]] and the same on the right. *)
Fixpoint sum_loop (left_in mid_l high_l right_in mid_r high_r : list R)
    (i n : nat) : result (list R * list R) :=
  match n with
  | O => Ok ([], [])
  | S n' =>
      dl <- Py.getitem left_in i ;;
      ml <- Py.getitem mid_l i ;;
      hl <- Py.getitem high_l i ;;
      let sum_l := dl + ml + hl in
      dr <- Py.getitem right_in i ;;
      mr <- Py.getitem mid_r i ;;
      hr <- Py.getitem high_r i ;;
      let sum_r := dr + mr + hr in
      '(out_l, out_r) <-
        sum_loop left_in mid_l high_l right_in mid_r high_r (S i) n' ;;
      Ok (sum_l :: out_l, sum_r :: out_r)
  end.

(** The sample-wise sum [dry + mid + high] of three channels, as the
    specification words it. *)
Fixpoint samplewise_sum (dry mid high : list R) : list R :=
  match dry, mid, high with
  | d :: dry', m :: mid', h :: high' =>
      d + m + h :: samplewise_sum dry' mid' high'
  | _, _, _ => []
  end.

(** Lane 0 of [process]: filter, drive, compressor. *)
Definition mid_lane (self : t) (left_in right_in : list R)
  : result (UnknownFilter.t * UnknownCompressor.t * list R * list R) :=
  '(mid_filter, mid_l, mid_r) <-
    UnknownFilter.process (mid_filter self) left_in right_in ;;
  mid_drive_raw <- interpolate_curve (knob_mid self) MID_GAIN_CURVE ;;
  let mid_drive := mid_drive_raw - 0.05 in
  let mid_l := map (fun s => s * mid_drive) mid_l in
  let mid_r := map (fun s => s * mid_drive) mid_r in
  '(mid_compressor, mid_l, mid_r) <-
    UnknownCompressor.process_block (mid_compressor self) mid_l mid_r ;;
  Ok (mid_filter, mid_compressor, mid_l, mid_r).

(** Lane 1 of [process]: filter, gate, ramped boost, limiter. *)
Definition high_lane (self : t) (left_in right_in : list R)
  : result (UnknownFilter.t * UnknownCompressor.t * StereoGainMeter.t
            * UnknownCompressor.t * list R * list R) :=
  '(high_filter, high_l, high_r) <-
    UnknownFilter.process (high_filter self) left_in right_in ;;
  '(high_gate, high_l, high_r) <-
    UnknownCompressor.process_block (high_gate self) high_l high_r ;;
  p <- Py.math_pow (knob_high self) 0.8 ;;
  let high_boost := 1 + 0.8962 * p in
  '(high_gain, high_l, high_r) <-
    StereoGainMeter.process_block (high_gain self) high_l high_r
      0 high_boost 0 ;;
  '(high_limiter, high_l, high_r) <-
    UnknownCompressor.process_block (high_limiter self) high_l high_r ;;
  Ok (high_filter, high_gate, high_gain, high_limiter, high_l, high_r).

(** The static pad found in the analysis. *)
Definition pad_val : R := 0.822.

(** [process] *)
Definition process (self : t) (left_in right_in : list R)
  : result (t * list R * list R) :=
  let block_len := length left_in in
  '(mid_filter, mid_compressor, mid_l, mid_r) <-
    mid_lane self left_in right_in ;;
  '(high_filter, high_gate, high_gain, high_limiter, high_l, high_r) <-
    high_lane self left_in right_in ;;
  '(out_l, out_r) <-
    sum_loop left_in mid_l high_l right_in mid_r high_r 0 block_len ;;
  q <- Py.truediv (knob_trim self) 20 ;;
  trim_lin <- Py.math_pow 10 q ;;
  '(trim_gain, out_l, out_r) <-
    StereoGainMeter.process_block (trim_gain self) out_l out_r 0 trim_lin 0 ;;
  '(static_pad, out_l, out_r) <-
    StereoGainMeter.process_block (static_pad self) out_l out_r 0 pad_val 0 ;;
  Ok ({| sample_rate := sample_rate self;
         mid_filter := mid_filter;
         mid_compressor := mid_compressor;
         high_filter := high_filter;
         high_gate := high_gate;
         high_gain := high_gain;
         high_limiter := high_limiter;
         trim_gain := trim_gain;
         static_pad := static_pad;
         knob_mid := knob_mid self;
         knob_high := knob_high self;
         knob_trim := knob_trim self |},
      out_l, out_r).

(** A composite whose units are configured as the specification asks:
    positive sample rates, non-negative thresholds, a non-negative High
    knob. *)
Definition well_configured (self : t) : Prop :=
  0 < UnknownCompressor.sample_rate (mid_compressor self)
  /\ 0 <= UnknownCompressor.threshold (mid_compressor self)
  /\ 0 < UnknownCompressor.sample_rate (high_gate self)
  /\ 0 <= UnknownCompressor.threshold (high_gate self)
  /\ 0 < UnknownCompressor.sample_rate (high_limiter self)
  /\ 0 <= UnknownCompressor.threshold (high_limiter self)
  /\ 0 <= knob_high self.

(** A caller of the composite, as the script at the end of test.py is one:
    a session is a sequence of knob updates and block calls on one
    object. *)
Inductive call : Type :=
| SetParameters (mid_air high_air trim_db : R)
| Process (left_in right_in : list R).

Fixpoint run (self : t) (calls : list call) : result t :=
  match calls with
  | [] => Ok self
  | SetParameters mid_air high_air trim_db :: rest =>
      self <- set_parameters self mid_air high_air trim_db ;;
      run self rest
  | Process left_in right_in :: rest =>
      '(self, _, _) <- process self left_in right_in ;;
      run self rest
  end.

(** The calls of a session that respects the ranges of the interface: a
    non-negative High knob, a trim of at most 6000 dB (the trim gain
    [10 ** (trim / 20)] then stays within the doubles), non-empty blocks
    with channels of equal length. *)
Definition in_range (c : call) : Prop :=
  match c with
  | SetParameters _ high_air trim_db => 0 <= high_air /\ trim_db <= 6000
  | Process left_in right_in =>
      (1 <= length left_in)%nat /\ length right_in = length left_in
  end.

End FreshAirClone.

(** * Properties *)

(** ** Generic facts on the error monad and the float primitives *)

Lemma bind_Ok_inv {A B : Type} (m : result A) (k : A -> result B) (b : B) :
  bind m k = Ok b -> exists a, m = Ok a /\ k a = Ok b.
Proof.
  destruct m as [a | e]; simpl; intros H.
  - exists a; split; [reflexivity | exact H].
  - discriminate H.
Qed.

Lemma truediv_ok (a b : R) : b <> 0 -> Py.truediv a b = Ok (a / b).
Proof.
  intros Hb. unfold Py.truediv.
  destruct (Req_dec_T b 0) as [E | _]; [contradiction | reflexivity].
Qed.

(** The range check of the [math] functions. *)
Lemma one_lt_overflow_bound : 1 < Py.overflow_bound.
Proof. unfold Py.overflow_bound. apply IZR_lt. reflexivity. Qed.

Lemma max_float_lt_overflow_bound : Py.max_float < Py.overflow_bound.
Proof.
  unfold Py.max_float, Py.overflow_bound. apply IZR_lt. reflexivity.
Qed.

Lemma range_checked_ok (x y v : R) :
  Rabs v < Py.overflow_bound -> Py.range_checked x y v = Ok v.
Proof.
  intros Hv. unfold Py.range_checked.
  destruct (Rle_dec (Rabs x) Py.max_float); [| reflexivity].
  destruct (Rle_dec (Rabs y) Py.max_float); [| reflexivity].
  destruct (Rle_dec Py.overflow_bound (Rabs v)) as [N | _];
    [lra | reflexivity].
Qed.

Lemma range_checked_overflow (x y v : R) :
  Rabs x <= Py.max_float -> Rabs y <= Py.max_float ->
  Py.overflow_bound <= Rabs v ->
  Py.range_checked x y v = Raise OverflowError.
Proof.
  intros Hx Hy Hv. unfold Py.range_checked.
  destruct (Rle_dec (Rabs x) Py.max_float) as [_ | N]; [| contradiction].
  destruct (Rle_dec (Rabs y) Py.max_float) as [_ | N]; [| contradiction].
  destruct (Rle_dec Py.overflow_bound (Rabs v)) as [_ | N];
    [reflexivity | contradiction].
Qed.

(** [math.exp] of a number that is not positive is at most 1. *)
Lemma math_exp_nonpos (x : R) : x <= 0 -> Py.math_exp x = Ok (exp x).
Proof.
  intros Hx. unfold Py.math_exp. apply range_checked_ok.
  pose proof (exp_pos x) as H0. rewrite Rabs_right by lra.
  assert (H1 : exp x <= 1).
  { destruct Hx as [Hlt | E]; [| rewrite E, exp_0; lra].
    pose proof (exp_increasing _ _ Hlt) as H. rewrite exp_0 in H. lra. }
  pose proof one_lt_overflow_bound. lra.
Qed.

Lemma truediv_zero (a : R) : Py.truediv a 0 = Raise ZeroDivisionError.
Proof.
  unfold Py.truediv.
  destruct (Req_dec_T 0 0) as [_ | N]; [reflexivity | contradiction N; reflexivity].
Qed.

Module GainFacts.
Import StereoGainMeter.

(** The sample loop leaves the block-level ramp fields alone. *)
Lemma gain_sample_loop_frame (ls : list R) :
  forall rs s target c s' ol or,
    sample_loop s target c ls rs = Ok (s', ol, or) ->
    _initialized s' = _initialized s
    /\ _stored_target_gain s' = _stored_target_gain s
    /\ _start_gain s' = _start_gain s
    /\ _ramp_step s' = _ramp_step s
    /\ _meter_coeff_l s' = _meter_coeff_l s
    /\ _meter_coeff_r s' = _meter_coeff_r s.
Proof.
  induction ls as [| x ls IH]; intros rs s target c s' ol or H.
  - simpl in H. inversion H; subst. repeat split.
  - destruct rs as [| y rs]; simpl in H; [discriminate H |].
    apply bind_Ok_inv in H. destruct H as [[[s1 ol1] or1] [Hrec Hret]].
    inversion Hret; subst; clear Hret.
    apply IH in Hrec. simpl in Hrec. exact Hrec.
Qed.

(** On buffers of equal length the loop returns. *)
Lemma gain_sample_loop_ok (ls : list R) :
  forall rs s target c,
    length rs = length ls ->
    exists s' ol or, sample_loop s target c ls rs = Ok (s', ol, or).
Proof.
  induction ls as [| x ls IH]; intros rs s target c Hlen.
  - simpl. eauto.
  - destruct rs as [| y rs]; simpl in Hlen; [discriminate Hlen |].
    injection Hlen as Hlen. simpl.
    match goal with
    | |- context [sample_loop ?s1 target ?c1 ls rs] =>
        destruct (IH rs s1 target c1 Hlen) as (s' & ol & or & E); rewrite E
    end.
    simpl. eauto.
Qed.

(** The gain left in [_current_gain] by a non-empty block is the one of
    the last ramp counter. *)
Lemma gain_sample_loop_current_gain (ls : list R) :
  forall rs s target c s' ol or,
    ls <> [] ->
    sample_loop s target c ls rs = Ok (s', ol, or) ->
    _current_gain s' = calculated_gain_at s target (c + INR (length ls)).
Proof.
  induction ls as [| x ls IH]; intros rs s target c s' ol or Hne H.
  - contradiction Hne; reflexivity.
  - destruct rs as [| y rs]; simpl in H; [discriminate H |].
    apply bind_Ok_inv in H. destruct H as [[[s1 ol1] or1] [Hrec Hret]].
    inversion Hret; subst; clear Hret.
    destruct ls as [| x' ls'].
    + simpl in Hrec. inversion Hrec; subst. simpl.
      reflexivity.
    + apply IH in Hrec; [| discriminate].
      rewrite Hrec. unfold calculated_gain_at. simpl _ramp_step. simpl _start_gain.
      replace (c + 1 + INR (length (x' :: ls'))) with (c + INR (length (x :: x' :: ls'))).
      * reflexivity.
      * change (length (x :: x' :: ls')) with (S (length (x' :: ls'))).
        rewrite S_INR. ring.
Qed.

(** Without a ramp every sample is scaled by the target. *)
Lemma gain_sample_loop_no_ramp (ls : list R) :
  forall rs s target c,
    ~ 0 < _ramp_step s ->
    length rs = length ls ->
    exists s',
      sample_loop s target c ls rs
      = Ok (s', map (fun x => x * target) ls, map (fun x => x * target) rs).
Proof.
  induction ls as [| x ls IH]; intros rs s target c Hramp Hlen.
  - destruct rs; [| discriminate Hlen]. simpl. eauto.
  - destruct rs as [| y rs]; simpl in Hlen; [discriminate Hlen |].
    injection Hlen as Hlen. simpl.
    assert (G : calculated_gain_at s target (c + 1) = target).
    { unfold calculated_gain_at.
      destruct (Rlt_dec 0 (_ramp_step s)); [contradiction | reflexivity]. }
    rewrite G.
    match goal with
    | |- context [sample_loop ?s1 target ?c1 ls rs] =>
        destruct (IH rs s1 target c1) as (s' & E); [exact Hramp | exact Hlen |];
        rewrite E
    end.
    simpl. eauto.
Qed.

Lemma INR_length_nonzero {A : Type} (l : list A) :
  (1 <= length l)%nat -> INR (length l) <> 0.
Proof. intros H. apply not_0_INR. lia. Qed.

(** The first call ever snaps to the target. *)
Lemma process_block_first_call (s : t) (ls rs : list R) (mode : Z) (vn vb : R) :
  _initialized s = false ->
  length rs = length ls ->
  exists s' ol or,
    process_block s ls rs mode vn vb = Ok (s', ol, or)
    /\ _initialized s' = true
    /\ _stored_target_gain s' = target_gain_of mode vn vb
    /\ _start_gain s' = target_gain_of mode vn vb
    /\ _ramp_step s' = 0.
Proof.
  intros Hinit Hlen.
  unfold process_block, setup_ramp. rewrite Hinit. simpl negb. cbv iota.
  simpl bind.
  match goal with
  | |- context [sample_loop ?s0 ?tg ?c ls rs] =>
      destruct (gain_sample_loop_ok ls rs s0 tg c Hlen) as (s' & ol & or & E)
  end.
  exists s', ol, or. split; [exact E |].
  apply gain_sample_loop_frame in E.
  destruct E as (Hi & Hst & Hsg & Hrs & _).
  rewrite Hi, Hst, Hsg, Hrs. simpl. repeat split.
Qed.

(** A call whose target is the stored one (up to 1e-15) sets up no ramp. *)
Lemma process_block_unchanged_target
    (s : t) (ls rs : list R) (mode : Z) (vn vb : R) :
  _initialized s = true ->
  length rs = length ls ->
  Rabs (target_gain_of mode vn vb - _stored_target_gain s) < 1e-15 ->
  exists s',
    process_block s ls rs mode vn vb
    = Ok (s', map (fun x => x * target_gain_of mode vn vb) ls,
              map (fun x => x * target_gain_of mode vn vb) rs)
    /\ _initialized s' = true
    /\ _stored_target_gain s' = target_gain_of mode vn vb
    /\ _start_gain s' = target_gain_of mode vn vb
    /\ _ramp_step s' = 0.
Proof.
  intros Hinit Hlen Hdiff.
  unfold process_block, setup_ramp. rewrite Hinit. simpl negb. cbv iota.
  destruct (Rle_dec 1e-15 _) as [Hge | _]; [lra |].
  simpl bind.
  match goal with
  | |- context [sample_loop ?s0 ?tg ?c ls rs] =>
      destruct (gain_sample_loop_no_ramp ls rs s0 tg c) as (s' & E);
      [simpl; lra | exact Hlen |]
  end.
  exists s'. split; [exact E |].
  apply gain_sample_loop_frame in E.
  destruct E as (Hi & Hst & Hsg & Hrs & _).
  rewrite Hi, Hst, Hsg, Hrs. simpl. repeat split. exact Hinit.
Qed.

(** A call on a non-empty block whose target moved ramps from the stored
    target and ends on the new one. *)
Lemma process_block_changed_target
    (s : t) (ls rs : list R) (mode : Z) (vn vb : R) :
  _initialized s = true ->
  (1 <= length ls)%nat ->
  length rs = length ls ->
  1e-15 <= Rabs (target_gain_of mode vn vb - _stored_target_gain s) ->
  exists s' ol or,
    process_block s ls rs mode vn vb = Ok (s', ol, or)
    /\ _initialized s' = true
    /\ _stored_target_gain s' = target_gain_of mode vn vb
    /\ _start_gain s' = _stored_target_gain s
    /\ _ramp_step s' = 1 / INR (length ls)
    /\ _current_gain s' = target_gain_of mode vn vb.
Proof.
  intros Hinit HN Hlen Hdiff.
  pose proof (INR_length_nonzero ls HN) as HNR.
  set (G1 := target_gain_of mode vn vb) in *.
  unfold process_block, setup_ramp. fold G1. rewrite Hinit. simpl negb. cbv iota.
  destruct (Rle_dec 1e-15 _) as [_ | Hn]; [| contradiction].
  rewrite (truediv_ok 1 _ HNR). simpl bind.
  match goal with
  | |- context [sample_loop ?s0 G1 0 ls rs] =>
      set (s0' := s0);
      destruct (gain_sample_loop_ok ls rs s0' G1 0 Hlen) as (s1 & ol & or & E)
  end.
  exists s1, ol, or. split; [exact E |].
  assert (Hcur : _current_gain s1 = G1).
  { rewrite (gain_sample_loop_current_gain ls rs s0' G1 0 s1 ol or);
      [| destruct ls; [simpl in HN; lia | discriminate] | exact E].
    unfold calculated_gain_at, s0'. simpl _ramp_step. simpl _start_gain.
    assert (Hpos : 0 < 1 / INR (length ls)).
    { apply Rdiv_lt_0_compat; [lra |]. apply lt_0_INR. lia. }
    destruct (Rlt_dec 0 (1 / INR (length ls))) as [_ | Hn]; [| contradiction].
    field. exact HNR. }
  apply gain_sample_loop_frame in E.
  destruct E as (Hi & Hst & Hsg & Hrs & _).
  rewrite Hi, Hst, Hsg, Hrs. unfold s0'. simpl. repeat split; assumption.
Qed.

(** The three cases of a call on an empty block. *)
Lemma process_block_empty_raises (s : t) (mode : Z) (vn vb : R) :
  _initialized s = true ->
  1e-15 <= Rabs (target_gain_of mode vn vb - _stored_target_gain s) ->
  process_block s [] [] mode vn vb = Raise ZeroDivisionError.
Proof.
  intros Hinit Hdiff.
  unfold process_block, setup_ramp. rewrite Hinit. simpl negb. cbv iota.
  destruct (Rle_dec 1e-15 _) as [_ | Hn]; [| contradiction].
  simpl length. simpl INR. rewrite truediv_zero. reflexivity.
Qed.

Lemma process_block_empty_unchanged (s : t) (mode : Z) (vn vb : R) :
  _initialized s = true ->
  Rabs (target_gain_of mode vn vb - _stored_target_gain s) < 1e-15 ->
  process_block s [] [] mode vn vb
  = Ok (set_stored_target_gain (target_gain_of mode vn vb)
          (set_start_gain (target_gain_of mode vn vb) (set_ramp_step 0 s)),
        [], []).
Proof.
  intros Hinit Hdiff.
  unfold process_block, setup_ramp. rewrite Hinit. simpl negb. cbv iota.
  destruct (Rle_dec 1e-15 _) as [Hge | _]; [lra |].
  reflexivity.
Qed.

Lemma process_block_empty_first (s : t) (mode : Z) (vn vb : R) :
  _initialized s = false ->
  process_block s [] [] mode vn vb
  = Ok (mk true (target_gain_of mode vn vb) (target_gain_of mode vn vb)
           (target_gain_of mode vn vb) 0 (_meter_coeff_l s) (_meter_coeff_r s)
           (_meter_state_l s) (_meter_state_r s),
        [], []).
Proof.
  intros Hinit.
  unfold process_block, setup_ramp. rewrite Hinit. reflexivity.
Qed.

(** The loop scales the visited samples: the buffers keep their lengths. *)
Lemma gain_sample_loop_lengths (ls : list R) :
  forall rs s target c s' ol or,
    sample_loop s target c ls rs = Ok (s', ol, or) ->
    length ol = length ls /\ length or = length rs.
Proof.
  induction ls as [| x ls IH]; intros rs s target c s' ol or H.
  - simpl in H. inversion H; subst. split; reflexivity.
  - destruct rs as [| y rs]; simpl in H; [discriminate H |].
    apply bind_Ok_inv in H. destruct H as [[[s1 ol1] or1] [Hrec Hret]].
    inversion Hret; subst; clear Hret.
    apply IH in Hrec. destruct Hrec as [L1 L2]. simpl.
    rewrite L1, L2. split; reflexivity.
Qed.

(** On a non-empty block with channels of equal length a call returns,
    whatever the history of the stage. *)
Lemma gain_process_block_ok (s : t) (ls rs : list R) (mode : Z) (vn vb : R) :
  (1 <= length ls)%nat ->
  length rs = length ls ->
  exists s' ol or,
    process_block s ls rs mode vn vb = Ok (s', ol, or)
    /\ length ol = length ls /\ length or = length ls
    /\ _initialized s' = true
    /\ _stored_target_gain s' = target_gain_of mode vn vb.
Proof.
  intros HN Hlen.
  assert (Hsetup : exists s0,
             setup_ramp s (target_gain_of mode vn vb) (length ls) = Ok s0
             /\ _initialized s0 = true
             /\ _stored_target_gain s0 = target_gain_of mode vn vb).
  { unfold setup_ramp. destruct (_initialized s) eqn:Hinit; simpl negb; cbv iota.
    - destruct (Rle_dec 1e-15 _) as [_ | _].
      + rewrite (truediv_ok 1 _ (INR_length_nonzero ls HN)). simpl bind.
        eexists. split; [reflexivity |]. simpl. split; [exact Hinit | reflexivity].
      + simpl bind. eexists. split; [reflexivity |]. simpl.
        split; [exact Hinit | reflexivity].
    - simpl bind. eexists. split; [reflexivity |]. simpl. split; reflexivity. }
  destruct Hsetup as (s0 & E0 & Hi0 & Hst0).
  unfold process_block. rewrite E0. simpl bind.
  destruct (gain_sample_loop_ok ls rs s0 (target_gain_of mode vn vb) 0 Hlen)
    as (s' & ol & or & E).
  exists s', ol, or. split; [exact E |].
  pose proof (gain_sample_loop_lengths _ _ _ _ _ _ _ _ E) as [L1 L2].
  pose proof (gain_sample_loop_frame _ _ _ _ _ _ _ _ E) as (Hi & Hst & _).
  rewrite Hi, Hst, L1, L2, Hlen. repeat split; assumption.
Qed.

(** A stage that was never called, or whose stored target is the target of
    the call, scales every sample by the target, on empty buffers too. *)
Lemma gain_process_block_settled
    (s : t) (ls rs : list R) (mode : Z) (vn vb : R) :
  _initialized s = false
  \/ Rabs (target_gain_of mode vn vb - _stored_target_gain s) < 1e-15 ->
  length rs = length ls ->
  exists s',
    process_block s ls rs mode vn vb
    = Ok (s', map (fun x => x * target_gain_of mode vn vb) ls,
              map (fun x => x * target_gain_of mode vn vb) rs)
    /\ _initialized s' = true
    /\ _stored_target_gain s' = target_gain_of mode vn vb.
Proof.
  intros Hset Hlen.
  destruct (_initialized s) eqn:Hinit.
  - destruct Hset as [Hf | Hd]; [discriminate Hf |].
    destruct (process_block_unchanged_target s ls rs mode vn vb
                Hinit Hlen Hd) as (s' & E & Hi & Hst & _).
    exists s'. split; [exact E |]. split; assumption.
  - unfold process_block, setup_ramp.
    rewrite Hinit. simpl negb. cbv iota. cbn [bind].
    match goal with
    | |- context [sample_loop ?s0 ?tg ?c ls rs] =>
        destruct (gain_sample_loop_no_ramp ls rs s0 tg c)
          as (s' & E); [simpl; lra | exact Hlen |]
    end.
    exists s'. split; [exact E |].
    apply gain_sample_loop_frame in E.
    destruct E as (Hi & Hst & _). rewrite Hi, Hst. split; reflexivity.
Qed.

(** A call returns on channels of equal length as soon as the block is not
    empty or the stage has no ramp to start. *)
Lemma gain_process_block_returns
    (s : t) (ls rs : list R) (mode : Z) (vn vb : R) :
  (1 <= length ls)%nat
  \/ (_initialized s = false
      \/ Rabs (target_gain_of mode vn vb - _stored_target_gain s) < 1e-15) ->
  length rs = length ls ->
  exists s' ol or,
    process_block s ls rs mode vn vb = Ok (s', ol, or)
    /\ length ol = length ls /\ length or = length ls
    /\ _initialized s' = true
    /\ _stored_target_gain s' = target_gain_of mode vn vb.
Proof.
  intros [HN | Hset] Hlen.
  - apply gain_process_block_ok; assumption.
  - destruct (gain_process_block_settled s ls rs mode vn vb Hset Hlen)
      as (s' & E & Hi & Hst).
    eexists s', _, _. split; [exact E |].
    rewrite !length_map. repeat split; assumption.
Qed.

End GainFacts.

Module CompressorFacts.
Import UnknownCompressor.

(** A one-pole coefficient of a unit with a positive sample rate lies in
    (0, 1]. *)
Lemma calc_coeff_range (s : t) (time_seconds : R) :
  0 < sample_rate s ->
  exists c, _calc_coeff s time_seconds = Ok c /\ 0 < c <= 1.
Proof.
  intros Hsr. unfold _calc_coeff.
  destruct (Rle_dec time_seconds 0) as [Hle | Hgt].
  - exists 1. split; [reflexivity | lra].
  - assert (Hpos : 0 < time_seconds * sample_rate s) by nra.
    assert (Hneg : -1 / (time_seconds * sample_rate s) < 0).
    { unfold Rdiv. apply Rinv_0_lt_compat in Hpos. nra. }
    rewrite truediv_ok by lra. simpl bind.
    rewrite math_exp_nonpos by lra. simpl bind.
    eexists. split; [reflexivity |].
    pose proof (exp_pos (-1 / (time_seconds * sample_rate s))) as H0.
    pose proof (exp_increasing _ _ Hneg) as H1. rewrite exp_0 in H1.
    lra.
Qed.

Lemma calc_coeff_value (s : t) (time_seconds : R) :
  0 < sample_rate s -> 0 < time_seconds ->
  _calc_coeff s time_seconds
  = Ok (1 - exp (-1 / (time_seconds * sample_rate s))).
Proof.
  intros Hsr Ht. unfold _calc_coeff.
  destruct (Rle_dec time_seconds 0) as [Hle | _]; [lra |].
  assert (Hpos : 0 < time_seconds * sample_rate s) by nra.
  assert (Hneg : -1 / (time_seconds * sample_rate s) < 0).
  { unfold Rdiv. apply Rinv_0_lt_compat in Hpos. nra. }
  rewrite truediv_ok by lra. simpl bind.
  rewrite math_exp_nonpos by lra. reflexivity.
Qed.

(** The coefficients of a block exist and are the four [_calc_coeff]
    values. *)
Lemma block_coeffs_ok (s : t) :
  0 < sample_rate s ->
  exists k,
    block_coeffs s = Ok k
    /\ _calc_coeff s (attack_time s) = Ok (attack_coeff k)
    /\ _calc_coeff s (release_time s) = Ok (release_coeff k)
    /\ _calc_coeff s 0.050 = Ok (rms_coeff k)
    /\ _calc_coeff s 0.005 = Ok (gain_smooth_coeff k)
    /\ 0 < attack_coeff k <= 1
    /\ 0 < release_coeff k <= 1
    /\ 0 < rms_coeff k <= 1
    /\ 0 < gain_smooth_coeff k <= 1.
Proof.
  intros Hsr. unfold block_coeffs.
  destruct (calc_coeff_range s (attack_time s) Hsr) as (a & Ea & Ha).
  destruct (calc_coeff_range s (release_time s) Hsr) as (r & Er & Hr).
  destruct (calc_coeff_range s 0.050 Hsr) as (m & Em & Hm).
  destruct (calc_coeff_range s 0.005 Hsr) as (g & Eg & Hg).
  rewrite Ea, Er, Em, Eg. simpl bind.
  eexists. split; [reflexivity |]. simpl. repeat split; lra.
Qed.

Lemma block_slope_ok (s : t) :
  exists slope, block_slope s = Ok slope /\ 0 <= slope < 1.
Proof.
  unfold block_slope.
  destruct (Rlt_dec 1 (ratio s)) as [Hr | Hr].
  - rewrite truediv_ok by lra. simpl bind. eexists. split; [reflexivity |].
    assert (H0 : 0 < / ratio s) by (apply Rinv_0_lt_compat; lra).
    assert (H1 : / ratio s < 1).
    { rewrite <- Rinv_1. apply Rinv_lt_contravar; lra. }
    unfold Rdiv. lra.
  - exists 0. split; [reflexivity | lra].
Qed.

(** [math.pow] of a base in [0, 1] to a non-negative exponent lies in
    [0, 1]. *)
Lemma math_pow_unit (x y : R) :
  0 <= x <= 1 -> 0 <= y ->
  exists v, Py.math_pow x y = Ok v /\ 0 <= v <= 1.
Proof.
  intros Hx Hy. unfold Py.math_pow.
  destruct (Req_dec_T y 0) as [_ | Hy0].
  - exists 1. split; [reflexivity | lra].
  - destruct (Rlt_dec 0 x) as [Hx0 | Hx0].
    + assert (Hle : exp (y * ln x) <= 1).
      { assert (Hln : ln x <= 0).
        { destruct (proj2 Hx) as [Hlt | E]; [| rewrite E, ln_1; lra].
          pose proof (ln_increasing x 1 Hx0 Hlt) as H. rewrite ln_1 in H.
          lra. }
        assert (Hm : y * ln x <= 0) by nra.
        destruct Hm as [Hlt | E]; [| rewrite E, exp_0; lra].
        pose proof (exp_increasing _ _ Hlt) as H. rewrite exp_0 in H. lra. }
      pose proof (exp_pos (y * ln x)) as Hp.
      rewrite range_checked_ok.
      * eexists. split; [reflexivity |]. lra.
      * rewrite Rabs_right by lra. pose proof one_lt_overflow_bound. lra.
    + destruct (Req_dec_T x 0) as [_ | Hxn]; [| lra].
      destruct (Rlt_dec 0 y) as [_ | Hyn]; [| lra].
      exists 0. split; [reflexivity | lra].
Qed.

(** [math.pow] of a non-negative base to an exponent in [0, 1]: the result
    is at most the larger of 1 and the base. *)
Lemma math_pow_nonneg (x y : R) :
  0 <= x -> 0 <= y <= 1 -> exists v, Py.math_pow x y = Ok v /\ 0 <= v.
Proof.
  intros Hx Hy.
  destruct (Rle_dec x 1) as [Hx1 | Hx1].
  - destruct (math_pow_unit x y) as (v & E & Hv); [lra | lra |].
    exists v. split; [exact E | lra].
  - unfold Py.math_pow.
    destruct (Req_dec_T y 0) as [_ | Hy0]; [exists 1; split; [reflexivity | lra] |].
    destruct (Rlt_dec 0 x) as [Hx0 | Hx0]; [| lra].
    pose proof (exp_pos (y * ln x)) as Hp.
    assert (Hle : exp (y * ln x) <= x).
    { assert (Hln : 0 < ln x).
      { rewrite <- ln_1. apply ln_increasing; lra. }
      assert (Hm : y * ln x <= ln x) by nra.
      rewrite <- (exp_ln x Hx0) at 2.
      destruct Hm as [Hlt | E]; [| rewrite E; lra].
      left. apply exp_increasing. exact Hlt. }
    unfold Py.range_checked.
    destruct (Rle_dec (Rabs x) Py.max_float) as [Hf | _];
      [| eexists; split; [reflexivity | lra]].
    destruct (Rle_dec (Rabs y) Py.max_float) as [_ | _];
      [| eexists; split; [reflexivity | lra]].
    destruct (Rle_dec Py.overflow_bound (Rabs (exp (y * ln x)))) as [N | _];
      [| eexists; split; [reflexivity | lra]].
    exfalso. rewrite Rabs_right in Hf, N by lra.
    pose proof max_float_lt_overflow_bound. lra.
Qed.

Lemma math_pow_zero_base (y : R) : 0 < y -> Py.math_pow 0 y = Ok 0.
Proof.
  intros Hy. unfold Py.math_pow.
  destruct (Req_dec_T y 0) as [E | _]; [lra |].
  destruct (Rlt_dec 0 0) as [H | _]; [lra |].
  destruct (Req_dec_T 0 0) as [_ | N]; [| contradiction N; reflexivity].
  destruct (Rlt_dec 0 y) as [_ | N]; [reflexivity | contradiction].
Qed.

Lemma math_sqrt_nonneg (x : R) : 0 <= x -> Py.math_sqrt x = Ok (sqrt x).
Proof.
  intros Hx. unfold Py.math_sqrt.
  destruct (Rlt_dec x 0) as [H | _]; [lra | reflexivity].
Qed.

Lemma max0_nonneg (x : R) : 0 <= max0 x.
Proof. unfold max0. destruct (Rlt_dec 0 x); lra. Qed.

Lemma input_level_nonneg (l r : R) : 0 <= input_level_of l r.
Proof.
  unfold input_level_of. destruct (Rlt_dec _ _); apply Rabs_pos.
Qed.

(** With a non-negative threshold the gain computer returns. *)
Lemma gain_computer_ok (s : t) (slope env : R) :
  0 <= threshold s -> 0 <= slope ->
  exists g, gain_computer s slope env = Ok g /\ 0 <= g.
Proof.
  intros Hth Hsl. unfold gain_computer.
  destruct (Rlt_dec (threshold s) env) as [Hlt | _].
  - set (safe := if Rlt_dec (EPSILON s) env then env else EPSILON s).
    assert (Hsafe : 0 < safe).
    { unfold safe. destruct (Rlt_dec (EPSILON s) env); lra. }
    rewrite truediv_ok by lra. simpl bind.
    assert (Hbase : 0 <= threshold s / safe <= 1).
    { assert (Hle : threshold s <= safe).
      { unfold safe. destruct (Rlt_dec (EPSILON s) env); lra. }
      pose proof (Rinv_0_lt_compat _ Hsafe) as Hi. unfold Rdiv. split.
      - nra.
      - apply (Rmult_le_reg_r safe); [exact Hsafe |].
        rewrite Rmult_assoc, Rinv_l by lra. lra. }
    destruct (math_pow_unit _ slope Hbase Hsl) as (v & E & Hv).
    exists v. split; [exact E | lra].
  - exists 1. split; [reflexivity | lra].
Qed.

Lemma same_config_refl (s : t) : same_config s s.
Proof. repeat split. Qed.

Lemma same_config_trans (s1 s2 s3 : t) :
  same_config s1 s2 -> same_config s2 s3 -> same_config s1 s3.
Proof.
  unfold same_config. intros (A1 & A2 & A3 & A4 & A5 & A6 & A7)
    (B1 & B2 & B3 & B4 & B5 & B6 & B7).
  repeat split; congruence.
Qed.

(** The detector in the two modes. *)
Lemma detector_rms (s : t) (k : coeffs) (l r : R) :
  mode s = 0%Z ->
  detector s k l r
  = let power := (l * l + r * r) * 0.5 in
    let power := if Rle_dec power (EPSILON s) then EPSILON s else power in
    let rms := rms_state s + (power - rms_state s) * rms_coeff k in
    Ok (set_rms_state rms s, sqrt (max0 rms)).
Proof.
  intros Hm. unfold detector. rewrite Hm. simpl Z.eqb. cbv iota.
  cbv zeta. simpl rms_state.
  rewrite math_sqrt_nonneg by apply max0_nonneg. reflexivity.
Qed.

Lemma detector_peak (s : t) (k : coeffs) (l r : R) :
  mode s <> 0%Z ->
  detector s k l r
  = let level := input_level_of l r in
    let coeff :=
      if Rlt_dec (peak_state s) level then attack_coeff k
      else release_coeff k in
    let peak := peak_state s + (level - peak_state s) * coeff in
    Ok (set_peak_state peak s, peak).
Proof.
  intros Hm. unfold detector.
  destruct (Z.eqb_spec (mode s) 0) as [E | _]; [contradiction | reflexivity].
Qed.

Lemma detector_ok (s : t) (k : coeffs) (l r : R) :
  exists s1 env, detector s k l r = Ok (s1, env) /\ same_config s s1
                 /\ gain_state s1 = gain_state s.
Proof.
  destruct (Z.eq_dec (mode s) 0) as [Hm | Hm].
  - rewrite (detector_rms s k l r Hm). cbv zeta.
    eexists _, _. split; [reflexivity |]. split; [| reflexivity]. repeat split.
  - rewrite (detector_peak s k l r Hm). cbv zeta.
    eexists _, _. split; [reflexivity |]. split; [| reflexivity]. repeat split.
Qed.

(** One sample: totality and frame. *)
Lemma process_sample_ok (s : t) (k : coeffs) (slope l r : R) :
  0 <= threshold s -> 0 <= slope ->
  exists s1 ol or,
    process_sample s k slope l r = Ok (s1, ol, or) /\ same_config s s1.
Proof.
  intros Hth Hsl. unfold process_sample.
  destruct (detector_ok s k l r) as (s1 & env & E & Hc & _).
  rewrite E. simpl bind.
  pose proof Hc as (_ & _ & Hth1 & _).
  destruct (gain_computer_ok s1 slope env) as (g & Eg & _);
    [rewrite Hth1; exact Hth | exact Hsl |].
  rewrite Eg. simpl bind.
  eexists _, _, _. split; [reflexivity |].
  destruct Hc as (A1 & A2 & A3 & A4 & A5 & A6 & A7).
  repeat split; assumption.
Qed.

Lemma process_sample_frame (s : t) (k : coeffs) (slope l r : R) s1 ol or :
  process_sample s k slope l r = Ok (s1, ol, or) -> same_config s s1.
Proof.
  unfold process_sample. intros H.
  apply bind_Ok_inv in H. destruct H as ((s0 & env) & E & H).
  apply bind_Ok_inv in H. destruct H as (g & Eg & H).
  inversion H; subst; clear H.
  destruct (detector_ok s k l r) as (s0' & env' & E' & Hc & _).
  rewrite E in E'. inversion E'; subst.
  destruct Hc as (A1 & A2 & A3 & A4 & A5 & A6 & A7).
  repeat split; assumption.
Qed.

(** The loop: totality on channels of equal length, and frame. *)
Lemma comp_sample_loop_ok (ls : list R) :
  forall rs s k slope,
    0 <= threshold s -> 0 <= slope ->
    length rs = length ls ->
    exists s' ol or,
      sample_loop s k slope ls rs = Ok (s', ol, or)
      /\ length ol = length ls /\ length or = length ls.
Proof.
  induction ls as [| x ls IH]; intros rs s k slope Hth Hsl Hlen.
  - destruct rs; [| discriminate Hlen]. simpl. eexists _, _, _.
    split; [reflexivity | split; reflexivity].
  - destruct rs as [| y rs]; simpl in Hlen; [discriminate Hlen |].
    injection Hlen as Hlen. simpl.
    destruct (process_sample_ok s k slope x y Hth Hsl)
      as (s1 & ol & or & E & Hc).
    rewrite E. simpl bind.
    pose proof Hc as (_ & _ & Hth1 & _).
    destruct (IH rs s1 k slope) as (s' & ol' & or' & E' & L1 & L2);
      [rewrite Hth1; exact Hth | exact Hsl | exact Hlen |].
    rewrite E'. simpl bind. eexists _, _, _.
    split; [reflexivity |]. simpl. rewrite L1, L2. split; reflexivity.
Qed.

Lemma comp_sample_loop_frame (ls : list R) :
  forall rs s k slope s' ol or,
    sample_loop s k slope ls rs = Ok (s', ol, or) -> same_config s s'.
Proof.
  induction ls as [| x ls IH]; intros rs s k slope s' ol or H.
  - simpl in H. inversion H; subst. apply same_config_refl.
  - destruct rs as [| y rs]; simpl in H; [discriminate H |].
    apply bind_Ok_inv in H. destruct H as (((s1 & o1) & o2) & E & H).
    apply bind_Ok_inv in H. destruct H as (((s2 & o3) & o4) & E2 & H).
    inversion H; subst; clear H.
    eapply same_config_trans.
    + eapply process_sample_frame; exact E.
    + eapply IH; exact E2.
Qed.

Lemma comp_process_block_ok (s : t) (ls rs : list R) :
  0 < sample_rate s -> 0 <= threshold s -> length rs = length ls ->
  exists s' ol or,
    process_block s ls rs = Ok (s', ol, or)
    /\ same_config s s'
    /\ length ol = length ls /\ length or = length ls.
Proof.
  intros Hsr Hth Hlen. unfold process_block.
  destruct (block_coeffs_ok s Hsr) as (k & Ek & _).
  destruct (block_slope_ok s) as (slope & Es & Hs0 & _).
  rewrite Ek, Es. simpl bind.
  destruct (comp_sample_loop_ok ls rs s k slope Hth Hs0 Hlen)
    as (s' & ol & or & E & L1 & L2).
  exists s', ol, or. split; [exact E |]. split; [| split; assumption].
  eapply comp_sample_loop_frame; exact E.
Qed.

Lemma comp_process_block_frame (s : t) (ls rs : list R) s' ol or :
  process_block s ls rs = Ok (s', ol, or) -> same_config s s'.
Proof.
  unfold process_block. intros H.
  apply bind_Ok_inv in H. destruct H as (k & _ & H).
  apply bind_Ok_inv in H. destruct H as (slope & _ & H).
  eapply comp_sample_loop_frame; exact H.
Qed.

End CompressorFacts.

Module EnvelopeFacts.
Import UnknownCompressor CompressorFacts.

(** The floored power of the RMS detector is never negative. *)
Lemma floored_power_nonneg (eps l r : R) :
  0 <= (if Rle_dec ((l * l + r * r) * 0.5) eps then eps
        else (l * l + r * r) * 0.5).
Proof.
  assert (H : 0 <= (l * l + r * r) * 0.5) by nra.
  destruct (Rle_dec _ eps); lra.
Qed.

(** One-pole smoothing with a coefficient in [0, 1] keeps a non-negative
    state non-negative when the input is non-negative. *)
Lemma one_pole_nonneg (state input c : R) :
  0 <= state -> 0 <= input -> 0 <= c <= 1 ->
  0 <= state + (input - state) * c.
Proof. intros. nra. Qed.

(** The detector keeps both envelope states non-negative and yields a
    non-negative envelope. *)
Lemma detector_nonneg (s : t) (k : coeffs) (l r : R) s1 env :
  0 <= attack_coeff k <= 1 -> 0 <= release_coeff k <= 1 ->
  0 <= rms_coeff k <= 1 ->
  0 <= rms_state s -> 0 <= peak_state s ->
  detector s k l r = Ok (s1, env) ->
  0 <= env /\ 0 <= rms_state s1 /\ 0 <= peak_state s1.
Proof.
  intros Ha Hr Hm Hrms Hpeak E.
  destruct (Z.eq_dec (mode s) 0) as [Hmode | Hmode].
  - rewrite (detector_rms s k l r Hmode) in E. cbv zeta in E.
    inversion E; subst; clear E. simpl.
    split; [apply sqrt_pos |]. split; [| exact Hpeak].
    apply one_pole_nonneg; [exact Hrms | apply floored_power_nonneg | exact Hm].
  - rewrite (detector_peak s k l r Hmode) in E. cbv zeta in E.
    inversion E; subst; clear E. simpl.
    assert (Hp : 0 <= peak_state s
                      + (input_level_of l r - peak_state s)
                        * (if Rlt_dec (peak_state s) (input_level_of l r)
                           then attack_coeff k else release_coeff k)).
    { apply one_pole_nonneg; [exact Hpeak | apply input_level_nonneg |].
      destruct (Rlt_dec _ _); assumption. }
    repeat split; assumption.
Qed.

Lemma process_sample_nonneg (s : t) (k : coeffs) (slope l r : R) s1 ol or :
  0 <= attack_coeff k <= 1 -> 0 <= release_coeff k <= 1 ->
  0 <= rms_coeff k <= 1 ->
  0 <= rms_state s -> 0 <= peak_state s ->
  process_sample s k slope l r = Ok (s1, ol, or) ->
  0 <= rms_state s1 /\ 0 <= peak_state s1.
Proof.
  intros Ha Hr Hm Hrms Hpeak H. unfold process_sample in H.
  apply bind_Ok_inv in H. destruct H as ((s0 & env) & E & H).
  apply bind_Ok_inv in H. destruct H as (g & _ & H).
  inversion H; subst; clear H. simpl.
  destruct (detector_nonneg s k l r s0 env Ha Hr Hm Hrms Hpeak E)
    as (_ & H1 & H2).
  split; assumption.
Qed.

Lemma sample_loop_nonneg (ls : list R) :
  forall rs s k slope s' ol or,
    0 <= attack_coeff k <= 1 -> 0 <= release_coeff k <= 1 ->
    0 <= rms_coeff k <= 1 ->
    0 <= rms_state s -> 0 <= peak_state s ->
    sample_loop s k slope ls rs = Ok (s', ol, or) ->
    0 <= rms_state s' /\ 0 <= peak_state s'.
Proof.
  induction ls as [| x ls IH]; intros rs s k slope s' ol or Ha Hr Hm Hrms Hpeak H.
  - simpl in H. inversion H; subst. split; assumption.
  - destruct rs as [| y rs]; simpl in H; [discriminate H |].
    apply bind_Ok_inv in H. destruct H as (((s1 & o1) & o2) & E & H).
    apply bind_Ok_inv in H. destruct H as (((s2 & o3) & o4) & E2 & H).
    inversion H; subst; clear H.
    destruct (process_sample_nonneg s k slope x y s1 o1 o2 Ha Hr Hm Hrms Hpeak E)
      as (H1 & H2).
    exact (IH rs s1 k slope s' o3 o4 Ha Hr Hm H1 H2 E2).
Qed.

Lemma process_block_nonneg (s : t) (ls rs : list R) s' ol or :
  0 < sample_rate s ->
  0 <= rms_state s -> 0 <= peak_state s ->
  process_block s ls rs = Ok (s', ol, or) ->
  0 <= rms_state s' /\ 0 <= peak_state s' /\ same_config s s'.
Proof.
  intros Hsr Hrms Hpeak H. unfold process_block in H.
  destruct (block_coeffs_ok s Hsr)
    as (k & Ek & _ & _ & _ & _ & Ha & Hr & Hm & _).
  rewrite Ek in H. simpl bind in H.
  apply bind_Ok_inv in H. destruct H as (slope & _ & H).
  destruct (sample_loop_nonneg ls rs s k slope s' ol or) as (H1 & H2);
    try assumption; try lra.
  repeat split; try assumption; eapply comp_sample_loop_frame; exact H.
Qed.

Lemma process_blocks_nonneg (blocks : list (list R * list R)) :
  forall s s',
    0 < sample_rate s ->
    0 <= rms_state s -> 0 <= peak_state s ->
    process_blocks s blocks = Ok s' ->
    0 <= rms_state s' /\ 0 <= peak_state s'.
Proof.
  induction blocks as [| [ls rs] blocks IH]; intros s s' Hsr Hrms Hpeak H.
  - simpl in H. inversion H; subst. split; assumption.
  - simpl in H.
    apply bind_Ok_inv in H. destruct H as (((s1 & o1) & o2) & E & H).
    destruct (process_block_nonneg s ls rs s1 o1 o2 Hsr Hrms Hpeak E)
      as (H1 & H2 & (Hc & _)).
    apply (IH s1 s'); try assumption. rewrite Hc. exact Hsr.
Qed.

Lemma process_blocks_ok (blocks : list (list R * list R)) :
  forall s,
    0 < sample_rate s -> 0 <= threshold s ->
    Forall (fun b => length (snd b) = length (fst b)) blocks ->
    exists s', process_blocks s blocks = Ok s'.
Proof.
  induction blocks as [| [ls rs] blocks IH]; intros s Hsr Hth Hall.
  - exists s. reflexivity.
  - inversion Hall as [| b bs Hb Hbs]; subst. simpl in Hb. simpl.
    destruct (comp_process_block_ok s ls rs Hsr Hth Hb)
      as (s1 & ol & or & E & (Hc1 & _ & Hc3 & _) & _).
    rewrite E. simpl bind.
    apply IH; [rewrite Hc1; exact Hsr | rewrite Hc3; exact Hth | exact Hbs].
Qed.

(** *** Peak detector on a constant input *)

(** One Peak-mode sample from a state below (or at) the input level: the
    step is the attack step. *)
Lemma detector_peak_rising (s : t) (k : coeffs) (l r : R) :
  mode s <> 0%Z ->
  peak_state s <= input_level_of l r ->
  exists s1,
    detector s k l r = Ok (s1, peak_state s1)
    /\ same_config s s1 /\ gain_state s1 = gain_state s
    /\ peak_state s1
       = input_level_of l r
         - (input_level_of l r - peak_state s) * (1 - attack_coeff k).
Proof.
  intros Hm Hle. rewrite (detector_peak s k l r Hm). cbv zeta.
  match goal with |- context [Ok (?x, _)] => exists x end.
  split; [reflexivity |]. split; [repeat split |].
  split; [reflexivity |]. simpl.
  destruct (Rlt_dec (peak_state s) (input_level_of l r)) as [_ | Hn].
  - ring.
  - assert (E : peak_state s = input_level_of l r) by lra.
    rewrite E. ring.
Qed.

(** One Peak-mode sample from a state above (or at) the input level: the
    step is the release step. *)
Lemma detector_peak_falling (s : t) (k : coeffs) (l r : R) :
  mode s <> 0%Z ->
  input_level_of l r <= peak_state s ->
  exists s1,
    detector s k l r = Ok (s1, peak_state s1)
    /\ same_config s s1 /\ gain_state s1 = gain_state s
    /\ peak_state s1
       = input_level_of l r
         + (peak_state s - input_level_of l r) * (1 - release_coeff k).
Proof.
  intros Hm Hle. rewrite (detector_peak s k l r Hm). cbv zeta.
  match goal with |- context [Ok (?x, _)] => exists x end.
  split; [reflexivity |]. split; [repeat split |].
  split; [reflexivity |]. simpl.
  destruct (Rlt_dec (peak_state s) (input_level_of l r)) as [Hn | _].
  - lra.
  - ring.
Qed.

Lemma process_sample_peak (s : t) (k : coeffs) (slope l r : R) s0 :
  0 <= threshold s -> 0 <= slope ->
  detector s k l r = Ok (s0, peak_state s0) ->
  same_config s s0 ->
  exists s1 ol or,
    process_sample s k slope l r = Ok (s1, ol, or)
    /\ same_config s s1 /\ peak_state s1 = peak_state s0.
Proof.
  intros Hth Hsl E Hc. unfold process_sample. rewrite E. simpl bind.
  pose proof Hc as (_ & _ & Hth0 & _).
  destruct (gain_computer_ok s0 slope (peak_state s0)) as (g & Eg & _);
    [rewrite Hth0; exact Hth | exact Hsl |].
  rewrite Eg. simpl bind. eexists _, _, _.
  split; [reflexivity |]. split; [| reflexivity].
  destruct Hc as (A1 & A2 & A3 & A4 & A5 & A6 & A7).
  repeat split; assumption.
Qed.

Lemma sample_loop_rising (n : nat) :
  forall s k slope l r,
    mode s <> 0%Z -> 0 <= threshold s -> 0 <= slope ->
    0 <= attack_coeff k <= 1 ->
    peak_state s <= input_level_of l r ->
    exists s' ol or,
      sample_loop s k slope (repeat l n) (repeat r n) = Ok (s', ol, or)
      /\ peak_state s'
         = input_level_of l r
           - (input_level_of l r - peak_state s) * (1 - attack_coeff k) ^ n.
Proof.
  induction n as [| n IH]; intros s k slope l r Hm Hth Hsl Ha Hle.
  - simpl. eexists _, _, _. split; [reflexivity |]. ring.
  - simpl repeat. simpl sample_loop.
    destruct (detector_peak_rising s k l r Hm Hle) as (s0 & E0 & Hc0 & _ & Hp0).
    destruct (process_sample_peak s k slope l r s0 Hth Hsl E0 Hc0)
      as (s1 & ol & or & E1 & Hc1 & Hp1).
    rewrite E1. simpl bind.
    pose proof Hc1 as (_ & Hm1 & Hth1 & _).
    destruct (IH s1 k slope l r) as (s' & ol' & or' & E' & Hp');
      [rewrite Hm1; exact Hm | rewrite Hth1; exact Hth | exact Hsl | exact Ha
      | rewrite Hp1, Hp0; nra |].
    rewrite E'. simpl bind. eexists _, _, _. split; [reflexivity |].
    rewrite Hp', Hp1, Hp0. simpl pow. ring.
Qed.

Lemma sample_loop_falling (n : nat) :
  forall s k slope l r,
    mode s <> 0%Z -> 0 <= threshold s -> 0 <= slope ->
    0 <= release_coeff k <= 1 ->
    input_level_of l r <= peak_state s ->
    exists s' ol or,
      sample_loop s k slope (repeat l n) (repeat r n) = Ok (s', ol, or)
      /\ peak_state s'
         = input_level_of l r
           + (peak_state s - input_level_of l r) * (1 - release_coeff k) ^ n.
Proof.
  induction n as [| n IH]; intros s k slope l r Hm Hth Hsl Ha Hle.
  - simpl. eexists _, _, _. split; [reflexivity |]. ring.
  - simpl repeat. simpl sample_loop.
    destruct (detector_peak_falling s k l r Hm Hle) as (s0 & E0 & Hc0 & _ & Hp0).
    destruct (process_sample_peak s k slope l r s0 Hth Hsl E0 Hc0)
      as (s1 & ol & or & E1 & Hc1 & Hp1).
    rewrite E1. simpl bind.
    pose proof Hc1 as (_ & Hm1 & Hth1 & _).
    destruct (IH s1 k slope l r) as (s' & ol' & or' & E' & Hp');
      [rewrite Hm1; exact Hm | rewrite Hth1; exact Hth | exact Hsl | exact Ha
      | rewrite Hp1, Hp0; nra |].
    rewrite E'. simpl bind. eexists _, _, _. split; [reflexivity |].
    rewrite Hp', Hp1, Hp0. simpl pow. ring.
Qed.

(** A geometric sequence with ratio in [0, 1) tends to 0. *)
Lemma geometric_vanishes (d q : R) :
  0 <= q < 1 ->
  forall eps, 0 < eps ->
    exists N, forall n, (N <= n)%nat -> Rabs (d * q ^ n) < eps.
Proof.
  intros Hq eps Heps.
  destruct (Req_dec d 0) as [Hd | Hd].
  - exists 0%nat. intros n _. rewrite Hd, Rmult_0_l, Rabs_R0. exact Heps.
  - assert (Hda : 0 < Rabs d) by (apply Rabs_pos_lt; exact Hd).
    destruct (pow_lt_1_zero q) with (y := eps / Rabs d) as (N & HN).
    + rewrite Rabs_right; lra.
    + apply Rdiv_lt_0_compat; assumption.
    + exists N. intros n Hn. rewrite Rabs_mult.
      specialize (HN n Hn).
      apply (Rmult_lt_compat_l (Rabs d)) in HN; [| exact Hda].
      replace (Rabs d * (eps / Rabs d)) with eps in HN by (field; lra).
      exact HN.
Qed.

End EnvelopeFacts.

Module CutFacts.
Import UnknownCompressor CompressorFacts.

Lemma block_coeffs_same_config (s s' : t) :
  same_config s s' -> block_coeffs s' = block_coeffs s.
Proof.
  intros (H1 & _ & _ & _ & H5 & H6 & _).
  unfold block_coeffs, _calc_coeff. rewrite H1, H5, H6. reflexivity.
Qed.

Lemma block_slope_same_config (s s' : t) :
  same_config s s' -> block_slope s' = block_slope s.
Proof.
  intros (_ & _ & _ & H4 & _). unfold block_slope. rewrite H4. reflexivity.
Qed.

(** The loop on a block cut in two is the loop on the first part followed
    by the loop on the second part from the state reached. *)
Lemma comp_sample_loop_app (l1 : list R) :
  forall r1 l2 r2 s k slope,
    length r1 = length l1 ->
    sample_loop s k slope (l1 ++ l2) (r1 ++ r2)
    = ('(s1, o1, o1') <- sample_loop s k slope l1 r1 ;;
       '(s2, o2, o2') <- sample_loop s1 k slope l2 r2 ;;
       Ok (s2, o1 ++ o2, o1' ++ o2')).
Proof.
  induction l1 as [| x l1 IH]; intros r1 l2 r2 s k slope Hlen.
  - destruct r1; [| discriminate Hlen]. simpl.
    destruct (sample_loop s k slope l2 r2) as [[[s2 o2] o2'] | e]; reflexivity.
  - destruct r1 as [| y r1]; simpl in Hlen; [discriminate Hlen |].
    injection Hlen as Hlen. simpl.
    destruct (process_sample s k slope x y) as [[[s1 a] b] | e];
      [| reflexivity].
    simpl bind. rewrite (IH r1 l2 r2 s1 k slope Hlen).
    destruct (sample_loop s1 k slope l1 r1) as [[[s2 o1] o1'] | e];
      [| reflexivity].
    simpl bind.
    destruct (sample_loop s2 k slope l2 r2) as [[[s3 o2] o2'] | e];
      reflexivity.
Qed.

(** A block may be cut after any sample: processing [l1 ++ l2] is processing
    [l1] and then [l2].  The state in the middle of a block is therefore the
    state after a (shorter) block. *)
Lemma process_block_cut (s : t) (l1 r1 l2 r2 : list R) :
  length r1 = length l1 ->
  process_block s (l1 ++ l2) (r1 ++ r2)
  = ('(s1, o1, o1') <- process_block s l1 r1 ;;
     '(s2, o2, o2') <- process_block s1 l2 r2 ;;
     Ok (s2, o1 ++ o2, o1' ++ o2')).
Proof.
  intros Hlen. unfold process_block.
  destruct (block_coeffs s) as [k | e] eqn:Ek; [| reflexivity].
  simpl bind.
  destruct (block_slope s) as [slope | e] eqn:Es; [| reflexivity].
  simpl bind. rewrite (comp_sample_loop_app l1 r1 l2 r2 s k slope Hlen).
  destruct (sample_loop s k slope l1 r1) as [[[s1 o1] o1'] | e] eqn:E;
    [| reflexivity].
  simpl bind.
  pose proof (comp_sample_loop_frame _ _ _ _ _ _ _ _ E) as Hc.
  rewrite (block_coeffs_same_config s s1 Hc), Ek. simpl bind.
  rewrite (block_slope_same_config s s1 Hc), Es. reflexivity.
Qed.

End CutFacts.

Module GateFacts.
Import UnknownCompressor CompressorFacts EnvelopeFacts.

(** With a zero threshold every positive envelope is "above threshold" and
    the gain computer asks for the gain [pow(0 / env, slope) = 0]. *)
Lemma gain_computer_zero_threshold (s : t) (slope env : R) :
  threshold s = 0 -> 0 < EPSILON s -> 0 < slope -> 0 < env ->
  gain_computer s slope env = Ok 0.
Proof.
  intros Hth Heps Hsl Henv. unfold gain_computer. rewrite Hth.
  destruct (Rlt_dec 0 env) as [_ | N]; [| contradiction].
  set (safe := if Rlt_dec (EPSILON s) env then env else EPSILON s).
  assert (Hsafe : 0 < safe).
  { unfold safe. destruct (Rlt_dec (EPSILON s) env); lra. }
  rewrite truediv_ok by lra. simpl bind.
  replace (0 / safe) with 0 by (unfold Rdiv; ring).
  apply math_pow_zero_base. exact Hsl.
Qed.

(** A Peak-mode unit with threshold 0 and ratio above 1 turns the gain down
    on every sample that is not silent: the smoothed gain is multiplied by
    [exp (-1 / (0.005 * sample_rate))]. *)
Lemma zero_threshold_attenuates (s : t) (l r : R) :
  0 < sample_rate s -> mode s <> 0%Z -> threshold s = 0 -> 1 < ratio s ->
  0 < EPSILON s -> 0 <= peak_state s ->
  0 < input_level_of l r ->
  exists s',
    process_block s [l] [r]
    = Ok (s', [l * (gain_state s * exp (-1 / (0.005 * sample_rate s)))],
              [r * (gain_state s * exp (-1 / (0.005 * sample_rate s)))]).
Proof.
  intros Hsr Hm Hth Hratio Heps Hpeak Hlev.
  unfold process_block.
  destruct (block_coeffs_ok s Hsr)
    as (k & Ek & _ & _ & _ & Eg & Ha & Hr & _ & _).
  rewrite Ek. simpl bind.
  unfold block_slope.
  destruct (Rlt_dec 1 (ratio s)) as [_ | N]; [| contradiction].
  rewrite truediv_ok by lra. simpl bind.
  assert (Hslope : 0 < 1 - 1 / ratio s).
  { assert (H1 : / ratio s < 1).
    { rewrite <- Rinv_1. apply Rinv_lt_contravar; lra. }
    unfold Rdiv. lra. }
  simpl sample_loop. unfold process_sample.
  rewrite (detector_peak s k l r Hm). cbv zeta. simpl bind.
  set (peak := peak_state s + _).
  assert (Hp : 0 < peak).
  { unfold peak. destruct (Rlt_dec (peak_state s) (input_level_of l r)); nra. }
  rewrite (gain_computer_zero_threshold _ _ peak); try assumption.
  simpl bind. simpl gain_state.
  rewrite (calc_coeff_value s 0.005 Hsr) in Eg by lra.
  inversion Eg as [Eg'].
  replace (gain_state s
           + (0 - gain_state s) * (1 - exp (-1 / (0.005 * sample_rate s))))
    with (gain_state s * exp (-1 / (0.005 * sample_rate s))) by ring.
  eexists. reflexivity.
Qed.

End GateFacts.

Module PeakFacts.
Import UnknownCompressor CompressorFacts EnvelopeFacts.

(** The peak state after [n] constant samples at or above the state: the
    closed form with the attack coefficient only. *)
Lemma peak_after_rising (s : t) (l r : R) (n : nat) :
  0 < sample_rate s -> mode s <> 0%Z -> 0 <= threshold s ->
  peak_state s <= input_level_of l r ->
  exists a s' ol or,
    _calc_coeff s (attack_time s) = Ok a /\ 0 < a <= 1
    /\ process_block s (repeat l n) (repeat r n) = Ok (s', ol, or)
    /\ peak_after s l r n
       = input_level_of l r - (input_level_of l r - peak_state s) * (1 - a) ^ n.
Proof.
  intros Hsr Hm Hth Hle. unfold peak_after, process_block.
  destruct (block_coeffs_ok s Hsr) as (k & Ek & Ea & _ & _ & _ & Ha & _).
  destruct (block_slope_ok s) as (slope & Es & Hs0 & _).
  rewrite Ek, Es. simpl bind.
  destruct (sample_loop_rising n s k slope l r) as (s' & ol & or & E & Hp);
    try assumption; try lra.
  rewrite E. exists (attack_coeff k), s', ol, or.
  repeat split; try assumption; lra.
Qed.

Lemma peak_after_falling (s : t) (l r : R) (n : nat) :
  0 < sample_rate s -> mode s <> 0%Z -> 0 <= threshold s ->
  input_level_of l r <= peak_state s ->
  exists rl s' ol or,
    _calc_coeff s (release_time s) = Ok rl /\ 0 < rl <= 1
    /\ process_block s (repeat l n) (repeat r n) = Ok (s', ol, or)
    /\ peak_after s l r n
       = input_level_of l r + (peak_state s - input_level_of l r) * (1 - rl) ^ n.
Proof.
  intros Hsr Hm Hth Hle. unfold peak_after, process_block.
  destruct (block_coeffs_ok s Hsr) as (k & Ek & _ & Er & _ & _ & _ & Hr & _).
  destruct (block_slope_ok s) as (slope & Es & Hs0 & _).
  rewrite Ek, Es. simpl bind.
  destruct (sample_loop_falling n s k slope l r) as (s' & ol & or & E & Hp);
    try assumption; try lra.
  rewrite E. exists (release_coeff k), s', ol, or.
  repeat split; try assumption; lra.
Qed.

Lemma Ok_inj {A : Type} (a b : A) : Ok a = Ok b -> a = b.
Proof. intros H. inversion H. reflexivity. Qed.

End PeakFacts.

Module FilterFacts.
Import UnknownFilter.

(** The guarded reciprocal always returns. *)
Lemma inv_term_value (c0 c1 : R) :
  inv_term c0 c1
  = Ok (if Rlt_dec 1e-20 (Rabs ((c1 * 2 + c0) * c0 + 1))
        then 1 / ((c1 * 2 + c0) * c0 + 1) else 0).
Proof.
  unfold inv_term. cbv zeta.
  destruct (Rlt_dec 1e-20 (Rabs ((c1 * 2 + c0) * c0 + 1))) as [H | H].
  - apply truediv_ok. intros E. rewrite E, Rabs_R0 in H. lra.
  - reflexivity.
Qed.

(** The loop raises nothing but [IndexError]. *)
Lemma filt_sample_loop_result (ls : list R) :
  forall rs c dc s,
    (exists r, sample_loop c dc s ls rs = Ok r)
    \/ sample_loop c dc s ls rs = Raise IndexError.
Proof.
  induction ls as [| x ls IH]; intros rs c dc s.
  - left. simpl. eauto.
  - simpl. rewrite inv_term_value. simpl bind.
    destruct rs as [| y rs]; [right; reflexivity |].
    try match goal with
    | |- context [tick c s ?i x y] =>
        destruct (tick c s i x y) as [[out_l out_r] s1]
    end.
    match goal with
    | |- context [sample_loop ?c1 dc ?s1 ls rs] =>
        destruct (IH rs c1 dc s1) as [([[[c' s'] ol] or] & E) | E];
        rewrite E; simpl bind
    end.
    + left. eauto.
    + right. reflexivity.
Qed.

Lemma filt_sample_loop_ok (ls : list R) :
  forall rs c dc s,
    length rs = length ls ->
    exists c' s' ol or,
      sample_loop c dc s ls rs = Ok (c', s', ol, or)
      /\ length ol = length ls /\ length or = length ls.
Proof.
  induction ls as [| x ls IH]; intros rs c dc s Hlen.
  - simpl. eexists _, _, _, _. split; [reflexivity | split; reflexivity].
  - destruct rs as [| y rs]; simpl in Hlen; [discriminate Hlen |].
    injection Hlen as Hlen.
    simpl. rewrite inv_term_value. simpl bind.
    try match goal with
    | |- context [tick c s ?i x y] =>
        destruct (tick c s i x y) as [[out_l out_r] s1]
    end.
    match goal with
    | |- context [sample_loop ?c1 dc ?s1 ls rs] =>
        destruct (IH rs c1 dc s1 Hlen) as (c' & s' & ol & or & E & L1 & L2);
        rewrite E; simpl bind
    end.
    eexists _, _, _, _. split; [reflexivity |]. simpl.
    rewrite L1, L2. split; reflexivity.
Qed.

Lemma filt_process_ok (self : t) (ls rs : list R) :
  length rs = length ls ->
  exists self' ol or,
    process self ls rs = Ok (self', ol, or)
    /\ length ol = length ls /\ length or = length ls.
Proof.
  intros Hlen. unfold process.
  destruct (filt_sample_loop_ok ls rs (C self) (mk_coeffs 0 0 0 0 0)
              (state self) Hlen) as (c' & s' & ol & or & E & L1 & L2).
  rewrite E. simpl bind. eexists _, _, _.
  split; [reflexivity | split; assumption].
Qed.

Lemma filt_process_no_zero_division (self : t) (ls rs : list R) :
  process self ls rs <> Raise ZeroDivisionError.
Proof.
  unfold process.
  destruct (filt_sample_loop_result ls rs (C self) (mk_coeffs 0 0 0 0 0)
              (state self)) as [([[[c' s'] ol] or] & E) | E];
    rewrite E; simpl bind; discriminate.
Qed.

End FilterFacts.

Module FilterPyFacts.
Import FilterPy.

(** The design step on the parameters of the dump ([P3 = P4 = 0]): both
    roots are [i], so [C0 = 1] and [C1 = 1]. *)
Lemma calculate_coefficients_dump :
  exists c, _calculate_coefficients P_dump = Ok c /\ C0 c = 1 /\ C1 c = 1.
Proof.
  unfold _calculate_coefficients, P_dump. cbv zeta.
  destruct (Rle_dec (-1 - 0 - 0) 0) as [_ | N]; [| lra].
  destruct (Rle_dec (0 - 1 - 0) 0) as [_ | N]; [| lra].
  replace (- (-1 - 0 - 0)) with 1 by lra.
  replace (- (0 - 1 - 0)) with 1 by lra.
  unfold Py.math_sqrt.
  destruct (Rlt_dec 1 0) as [N | _]; [lra |].
  rewrite sqrt_1. simpl bind.
  destruct (Rle_dec (Rabs 0) (Rabs 1)) as [_ | N];
    [| rewrite Rabs_R0, Rabs_R1 in N; lra].
  rewrite !truediv_ok by lra. simpl bind.
  rewrite !truediv_ok by lra. simpl bind.
  eexists. split; [reflexivity |]. simpl. split; field.
Qed.

Lemma filterpy_sample_loop_result (ls : list R) :
  forall rs c s d5 d3 d26 d28,
    (exists r, sample_loop c s d5 d3 d26 d28 ls rs = Ok r)
    \/ sample_loop c s d5 d3 d26 d28 ls rs = Raise IndexError.
Proof.
  induction ls as [| x ls IH]; intros rs c s d5 d3 d26 d28.
  - left. simpl. eauto.
  - simpl. destruct rs as [| y rs]; [right; reflexivity |].
    match goal with
    | |- context [sample_loop c ?s1 d5 d3 d26 d28 ls rs] =>
        destruct (IH rs c s1 d5 d3 d26 d28) as [([[s' ol] or] & E) | E];
        rewrite E; simpl bind
    end.
    + left. eauto.
    + right. reflexivity.
Qed.

(** With the coefficients of its constructor the stand-alone filter divides
    by [(2 * 1 + 1) * 1 + 1 = 4]. *)
Lemma filterpy_process_no_zero_division (f : t) (ls rs : list R) :
  C0 (C f) = 1 -> C1 (C f) = 1 ->
  process f ls rs <> Raise ZeroDivisionError.
Proof.
  intros H0 H1. unfold process. cbv zeta. rewrite H0, H1.
  rewrite truediv_ok by lra. simpl bind.
  match goal with
  | |- context [sample_loop ?c ?s ?d5 ?d3 ?d26 ?d28 ls rs] =>
      destruct (filterpy_sample_loop_result ls rs c s d5 d3 d26 d28)
        as [([[s' ol] or] & E) | E]; rewrite E; simpl bind; discriminate
  end.
Qed.

(** Without the guard, other coefficients make [process] raise. *)
Lemma filterpy_process_unguarded (f : t) (ls rs : list R) :
  C0 (C f) = 1 -> C1 (C f) = -1 ->
  process f ls rs = Raise ZeroDivisionError.
Proof.
  intros H0 H1. unfold process. cbv zeta. rewrite H0, H1.
  replace ((-1 * 2 + 1) * 1 + 1) with 0 by lra.
  rewrite truediv_zero. reflexivity.
Qed.

End FilterPyFacts.

Module DesignFacts.
Import FilterPy.

(** Whenever the design step returns, both roots are imaginary and not
    zero (every other case divides by zero in the step itself), and the per-sample denominator [(2 * C1 + C0) * C0 + 1] is
    [4 / (1 - P3 + P4)], a positive number. *)
Lemma design_denominator (P0 P1 P2 P3 P4 : R) (c : coeffs) :
  _calculate_coefficients (P0, P1, P2, P3, P4) = Ok c ->
  0 < 1 - P3 + P4
  /\ (C1 c * 2 + C0 c) * C0 c + 1 = 4 / (1 - P3 + P4).
Proof.
  unfold _calculate_coefficients. cbv zeta.
  destruct (Rle_dec (-1 - P3 - P4) 0) as [HA | HA];
    destruct (Rle_dec (P3 - 1 - P4) 0) as [HB | HB];
    unfold Py.math_sqrt;
    repeat match goal with
    | |- context [Rlt_dec ?a 0] => destruct (Rlt_dec a 0) as [N | _]; [lra |]
    end; simpl bind.
  - (* both roots imaginary *)
    set (a := sqrt (- (-1 - P3 - P4))). set (b := sqrt (- (P3 - 1 - P4))).
    assert (Ha2 : a * a = 1 + P3 + P4).
    { unfold a. rewrite sqrt_sqrt; lra. }
    assert (Hb2 : b * b = 1 - P3 + P4).
    { unfold b. rewrite sqrt_sqrt; lra. }
    assert (Ha0 : 0 <= a) by apply sqrt_pos.
    assert (Hb0 : 0 <= b) by apply sqrt_pos.
    destruct (Rle_dec (Rabs 0) (Rabs b)) as [_ | N];
      [| rewrite Rabs_R0 in N; pose proof (Rabs_pos b); lra].
    unfold Py.truediv at 1.
    destruct (Req_dec_T b 0) as [Eb | Nb]; [discriminate |].
    simpl bind. rewrite (truediv_ok b b Nb). simpl bind.
    assert (Hbb : b * (b / b) + 0 <> 0).
    { replace (b * (b / b) + 0) with b by (field; exact Nb). exact Nb. }
    rewrite (truediv_ok _ _ Hbb). simpl bind.
    unfold Py.truediv at 1.
    destruct (Req_dec_T (0 * 0 - b * a) 0) as [E | Nab]; [discriminate |].
    simpl bind.
    assert (Na : a <> 0).
    { intros E. apply Nab. rewrite E. ring. }
    unfold Py.truediv.
    destruct (Req_dec_T (1 - P3 + P4) 0) as [E | _]; [discriminate |].
    destruct (Req_dec_T (P3 + 1 + P4) 0) as [E | _]; [discriminate |].
    simpl bind. intros E. inversion E; subst c; clear E. simpl.
    assert (Hbpos : 0 < b * b) by nra.
    split; [lra |].
    transitivity ((2 * (1 - P4) + a * a + b * b) / (b * b)).
    { field. split; assumption. }
    rewrite Ha2, Hb2. f_equal. ring.
  - (* second root real: the else branch divides by [root2_im = 0] *)
    set (b := sqrt (P3 - 1 - P4)).
    assert (Hb : 0 < b).
    { unfold b. apply sqrt_lt_R0. lra. }
    destruct (Rle_dec (Rabs b) (Rabs 0)) as [N | _].
    + rewrite Rabs_R0, Rabs_right in N by lra. lra.
    + rewrite truediv_zero. simpl bind. discriminate.
  - (* first root real: the normalisation divides by 0 *)
    set (a := sqrt (-1 - P3 - P4)). set (b := sqrt (- (P3 - 1 - P4))).
    destruct (Rle_dec (Rabs 0) (Rabs b)) as [_ | N];
      [| rewrite Rabs_R0 in N; pose proof (Rabs_pos b); lra].
    unfold Py.truediv at 1.
    destruct (Req_dec_T b 0) as [Eb | Nb]; [discriminate |].
    simpl bind. rewrite (truediv_ok b b Nb). simpl bind.
    assert (Hbb : b * (b / b) + 0 <> 0).
    { replace (b * (b / b) + 0) with b by (field; exact Nb). exact Nb. }
    rewrite (truediv_ok _ _ Hbb). simpl bind.
    replace (a * 0 - b * 0) with 0 by ring.
    rewrite truediv_zero. simpl bind. discriminate.
  - (* both roots real: the else branch divides by [root2_im = 0] *)
    set (b := sqrt (P3 - 1 - P4)).
    assert (Hb : 0 < b).
    { unfold b. apply sqrt_lt_R0. lra. }
    destruct (Rle_dec (Rabs b) (Rabs 0)) as [N | _].
    + rewrite Rabs_R0, Rabs_right in N by lra. lra.
    + rewrite truediv_zero. simpl bind. discriminate.
Qed.

(** A stand-alone filter whose coefficients come from its design step never
    raises [ZeroDivisionError] in [process]. *)
Lemma designed_filter_no_zero_division (f : t) (ls rs : list R) :
  _calculate_coefficients (P f) = Ok (C f) ->
  process f ls rs <> Raise ZeroDivisionError.
Proof.
  destruct f as [[[[[P0 P1] P2] P3] P4] c st]. simpl P. simpl C.
  intros Hd. apply design_denominator in Hd. destruct Hd as (Hpos & Hden).
  unfold process. cbv zeta. simpl C. simpl state.
  assert (Hnz : (C1 c * 2 + C0 c) * C0 c + 1 <> 0).
  { rewrite Hden. apply Rgt_not_eq. apply Rdiv_lt_0_compat; lra. }
  rewrite (truediv_ok _ _ Hnz). simpl bind.
  match goal with
  | |- context [sample_loop ?c0 ?s ?d5 ?d3 ?d26 ?d28 ls rs] =>
      destruct (FilterPyFacts.filterpy_sample_loop_result ls rs c0 s d5 d3 d26 d28)
        as [([[s' ol] or] & E) | E]; rewrite E; simpl bind; discriminate
  end.
Qed.

(** The constructor establishes the design relation, and [process] keeps
    it. *)
Lemma init_designed :
  exists f, init = Ok f /\ _calculate_coefficients (P f) = Ok (C f).
Proof.
  destruct FilterPyFacts.calculate_coefficients_dump as (c & Ec & _).
  unfold init. rewrite Ec. simpl bind. eexists. split; [reflexivity |].
  exact Ec.
Qed.

Lemma process_keeps_design (f f' : t) (ls rs ol or : list R) :
  process f ls rs = Ok (f', ol, or) -> P f' = P f /\ C f' = C f.
Proof.
  unfold process. cbv zeta. intros H.
  apply bind_Ok_inv in H. destruct H as (d & _ & H).
  apply bind_Ok_inv in H. destruct H as ([[s o1] o2] & _ & H).
  inversion H; subst. split; reflexivity.
Qed.

End DesignFacts.

Module CurveFacts.

(** Decide one comparison of the goal by linear arithmetic when the
    context settles it, by cases otherwise. *)
Ltac decide_comparison :=
  match goal with
  | |- context [Rle_dec ?a ?b] => destruct (Rle_dec a b); try lra
  | |- context [Req_dec_T ?a ?b] => destruct (Req_dec_T a b); try lra
  end.

Lemma sorted_five_keys :
  sorted [0.00; 0.25; 0.50; 0.75; 1.00] = [0.00; 0.25; 0.50; 0.75; 1.00].
Proof.
  unfold sorted. cbn [fold_right insert_sorted].
  repeat (decide_comparison; cbn [insert_sorted]). reflexivity.
Qed.

(** A curve on the five knob positions 0, 0.25, 0.5, 0.75, 1 is defined at
    every knob value. *)
Lemma interpolate_curve_five (knob_val v0 v1 v2 v3 v4 : R) :
  exists v,
    interpolate_curve knob_val
      [(0.00, v0); (0.25, v1); (0.50, v2); (0.75, v3); (1.00, v4)] = Ok v.
Proof.
  unfold interpolate_curve. simpl map. rewrite sorted_five_keys.
  cbv iota beta. cbn [List.last interpolate_segments dict_get].
  unfold Py.truediv.
  repeat (decide_comparison; cbn [bind]; try (eexists; reflexivity)).
Qed.

Lemma MID_GAIN_CURVE_total (knob_val : R) :
  exists v, interpolate_curve knob_val MID_GAIN_CURVE = Ok v.
Proof. apply interpolate_curve_five. Qed.

Lemma HIGH_LIMITER_THRESH_CURVE_total (knob_val : R) :
  exists v, interpolate_curve knob_val HIGH_LIMITER_THRESH_CURVE = Ok v.
Proof. apply interpolate_curve_five. Qed.

Lemma HIGH_LIMITER_SHAPE_CURVE_total (knob_val : R) :
  exists v, interpolate_curve knob_val HIGH_LIMITER_SHAPE_CURVE = Ok v.
Proof. apply interpolate_curve_five. Qed.

End CurveFacts.

Module CompositeFacts.
Import FreshAirClone.

Lemma skipn_cons_nth (l : list R) :
  forall i, (i < length l)%nat ->
    exists x, nth_error l i = Some x /\ skipn i l = x :: skipn (S i) l.
Proof.
  induction l as [| y l IH]; intros i Hi; simpl in Hi; [lia |].
  destruct i as [| i].
  - exists y. split; reflexivity.
  - destruct (IH i) as (x & E1 & E2); [lia |].
    exists x. split; [exact E1 | exact E2].
Qed.

Lemma getitem_skipn (l : list R) (i : nat) :
  (i < length l)%nat ->
  exists x, Py.getitem l i = Ok x /\ skipn i l = x :: skipn (S i) l.
Proof.
  intros Hi. destruct (skipn_cons_nth l i Hi) as (x & E1 & E2).
  exists x. unfold Py.getitem. rewrite E1. split; [reflexivity | exact E2].
Qed.

(** The summing loop from index [i] on computes the sample-wise sums of the
    remaining samples. *)
Lemma sum_loop_skipn (n : nat) :
  forall i a b c a' b' c',
    length a = (i + n)%nat -> length b = (i + n)%nat ->
    length c = (i + n)%nat -> length a' = (i + n)%nat ->
    length b' = (i + n)%nat -> length c' = (i + n)%nat ->
    sum_loop a b c a' b' c' i n
    = Ok (samplewise_sum (skipn i a) (skipn i b) (skipn i c),
          samplewise_sum (skipn i a') (skipn i b') (skipn i c')).
Proof.
  induction n as [| n IH]; intros i a b c a' b' c' Ha Hb Hc Ha' Hb' Hc'.
  - simpl. rewrite (skipn_all2 a), (skipn_all2 a') by lia. reflexivity.
  - simpl sum_loop.
    destruct (getitem_skipn a i) as (xa & Ea & Sa); [lia |].
    destruct (getitem_skipn b i) as (xb & Eb & Sb); [lia |].
    destruct (getitem_skipn c i) as (xc & Ec & Sc); [lia |].
    destruct (getitem_skipn a' i) as (xa' & Ea' & Sa'); [lia |].
    destruct (getitem_skipn b' i) as (xb' & Eb' & Sb'); [lia |].
    destruct (getitem_skipn c' i) as (xc' & Ec' & Sc'); [lia |].
    rewrite Ea, Eb, Ec, Ea', Eb', Ec'. simpl bind.
    rewrite (IH (S i)) by lia. simpl bind.
    rewrite Sa, Sb, Sc, Sa', Sb', Sc'. reflexivity.
Qed.

Lemma sum_loop_ok (a b c a' b' c' : list R) :
  length b = length a -> length c = length a ->
  length a' = length a -> length b' = length a -> length c' = length a ->
  sum_loop a b c a' b' c' 0 (length a)
  = Ok (samplewise_sum a b c, samplewise_sum a' b' c').
Proof.
  intros Hb Hc Ha' Hb' Hc'.
  rewrite (sum_loop_skipn (length a) 0) by (simpl; lia). reflexivity.
Qed.

Lemma samplewise_sum_length (a : list R) :
  forall b c,
    length b = length a -> length c = length a ->
    length (samplewise_sum a b c) = length a.
Proof.
  induction a as [| x a IH]; intros b c Hb Hc; [reflexivity |].
  destruct b as [| y b]; [discriminate Hb |].
  destruct c as [| z c]; [discriminate Hc |].
  simpl in *. rewrite IH by lia. reflexivity.
Qed.

(** Lane 0 returns on channels of equal length. *)
Lemma mid_lane_ok (self : t) (l r : list R) :
  well_configured self -> length r = length l ->
  exists mf mc ml mr,
    mid_lane self l r = Ok (mf, mc, ml, mr)
    /\ length ml = length l /\ length mr = length l
    /\ UnknownCompressor.same_config (mid_compressor self) mc.
Proof.
  intros (Hsr & Hth & _) Hlen. unfold mid_lane.
  destruct (FilterFacts.filt_process_ok (mid_filter self) l r Hlen)
    as (mf & fl & fr & Ef & L1 & L2).
  rewrite Ef. simpl bind.
  destruct (CurveFacts.MID_GAIN_CURVE_total (knob_mid self)) as (raw & Er).
  rewrite Er. simpl bind.
  destruct (CompressorFacts.comp_process_block_ok (mid_compressor self)
              (map (fun s => s * (raw - 0.05)) fl)
              (map (fun s => s * (raw - 0.05)) fr) Hsr Hth)
    as (mc & ml & mr & Ec & Hc & L3 & L4).
  { rewrite !length_map. lia. }
  rewrite Ec. simpl bind. exists mf, mc, ml, mr.
  rewrite length_map in L3, L4.
  split; [reflexivity |]. repeat split; try lia; apply Hc.
Qed.

(** Lane 1 returns on a non-empty block with channels of equal length; the
    boost stage is then initialised and stores the boost of the knob. *)
Lemma high_lane_ok (self : t) (l r : list R) :
  well_configured self -> (1 <= length l)%nat -> length r = length l ->
  exists hf hg hgain hl hleft hright p,
    high_lane self l r = Ok (hf, hg, hgain, hl, hleft, hright)
    /\ length hleft = length l /\ length hright = length l
    /\ UnknownCompressor.same_config (high_gate self) hg
    /\ UnknownCompressor.same_config (high_limiter self) hl
    /\ Py.math_pow (knob_high self) 0.8 = Ok p
    /\ StereoGainMeter._initialized hgain = true
    /\ StereoGainMeter._stored_target_gain hgain = 1 + 0.8962 * p.
Proof.
  intros (_ & _ & Hsr1 & Hth1 & Hsr2 & Hth2 & Hknob) HN Hlen.
  unfold high_lane.
  destruct (FilterFacts.filt_process_ok (high_filter self) l r Hlen)
    as (hf & fl & fr & Ef & L1 & L2).
  rewrite Ef. simpl bind.
  destruct (CompressorFacts.comp_process_block_ok (high_gate self) fl fr
              Hsr1 Hth1) as (hg & gl & gr & Eg & Hcg & L3 & L4); [lia |].
  rewrite Eg. simpl bind.
  destruct (CompressorFacts.math_pow_nonneg (knob_high self) 0.8)
    as (p & Ep & _); [exact Hknob | lra |].
  rewrite Ep. simpl bind.
  destruct (GainFacts.gain_process_block_ok (high_gain self) gl gr 0
              (1 + 0.8962 * p) 0)
    as (hgain & bl & br & Eb & L5 & L6 & Hi & Hst); [lia | lia |].
  rewrite Eb. simpl bind.
  destruct (CompressorFacts.comp_process_block_ok (high_limiter self) bl br
              Hsr2 Hth2) as (hl & ll & lr & El & Hcl & L7 & L8); [lia |].
  rewrite El. simpl bind.
  exists hf, hg, hgain, hl, ll, lr, p.
  split; [reflexivity |].
  repeat split; try lia; try apply Hcg; try apply Hcl; try assumption.
Qed.

(** Lane 1 returns on channels of equal length as soon as the block is not
    empty or the boost stage has no ramp to start. *)
Lemma high_lane_returns (self : t) (l r : list R) (p : R) :
  well_configured self -> length r = length l ->
  Py.math_pow (knob_high self) 0.8 = Ok p ->
  (1 <= length l)%nat
  \/ (StereoGainMeter._initialized (high_gain self) = false
      \/ Rabs (1 + 0.8962 * p
               - StereoGainMeter._stored_target_gain (high_gain self))
         < 1e-15) ->
  exists hf hg hgain hl hleft hright,
    high_lane self l r = Ok (hf, hg, hgain, hl, hleft, hright)
    /\ length hleft = length l /\ length hright = length l.
Proof.
  intros (_ & _ & Hsr1 & Hth1 & Hsr2 & Hth2 & Hknob) Hlen Ep Hblock.
  unfold high_lane.
  destruct (FilterFacts.filt_process_ok (high_filter self) l r Hlen)
    as (hf & fl & fr & Ef & L1 & L2).
  rewrite Ef. simpl bind.
  destruct (CompressorFacts.comp_process_block_ok (high_gate self) fl fr
              Hsr1 Hth1) as (hg & gl & gr & Eg & Hcg & L3 & L4); [lia |].
  rewrite Eg. simpl bind. rewrite Ep. simpl bind.
  destruct (GainFacts.gain_process_block_returns (high_gain self) gl gr 0
              (1 + 0.8962 * p) 0)
    as (hgain & bl & br & Eb & L5 & L6 & _).
  { destruct Hblock as [HN | Hset]; [left; lia | right; exact Hset]. }
  { lia. }
  rewrite Eb. simpl bind.
  destruct (CompressorFacts.comp_process_block_ok (high_limiter self) bl br
              Hsr2 Hth2) as (hl & ll & lr & El & Hcl & L7 & L8); [lia |].
  rewrite El. simpl bind.
  exists hf, hg, hgain, hl, ll, lr.
  split; [reflexivity |]. split; lia.
Qed.

(** Powers of ten. *)
Lemma exp_ln_pow (x : R) (n : nat) : 0 < x -> exp (INR n * ln x) = x ^ n.
Proof. intros Hx. exact (Rpower_pow n x Hx). Qed.

Lemma ln_10_pos : 0 < ln 10.
Proof. rewrite <- ln_1. apply ln_increasing; lra. Qed.

(** [10 ** (trim / 20)] is within the doubles for a trim of at most
    6000 dB. *)
Lemma trim_lin_ok (trim_db : R) :
  trim_db <= 6000 ->
  exists trim_lin,
    Py.math_pow 10 (trim_db / 20) = Ok trim_lin /\ 0 < trim_lin.
Proof.
  intros Hle. unfold Py.math_pow.
  destruct (Req_dec_T (trim_db / 20) 0) as [_ | _];
    [exists 1; split; [reflexivity | lra] |].
  destruct (Rlt_dec 0 10) as [_ | N]; [| lra].
  pose proof (exp_pos (trim_db / 20 * ln 10)) as Hp.
  rewrite range_checked_ok; [eexists; split; [reflexivity | exact Hp] |].
  rewrite Rabs_right by lra.
  assert (Hq : trim_db / 20 * ln 10 <= INR 300 * ln 10).
  { pose proof ln_10_pos. rewrite INR_IZR_INZ.
    change (IZR (Z.of_nat 300)) with 300. nra. }
  assert (Hexp : exp (trim_db / 20 * ln 10) <= exp (INR 300 * ln 10)).
  { destruct Hq as [Hlt | E]; [| rewrite E; lra].
    left. apply exp_increasing. exact Hlt. }
  rewrite exp_ln_pow in Hexp by lra.
  rewrite pow_IZR in Hexp.
  assert (Hb : IZR (10 ^ Z.of_nat 300) < Py.overflow_bound).
  { unfold Py.overflow_bound. apply IZR_lt. vm_compute. reflexivity. }
  lra.
Qed.

(** [10 ** (trim / 20)] is beyond the doubles from 6200 dB on. *)
Lemma trim_lin_overflow (trim_db : R) :
  6200 <= trim_db -> trim_db / 20 <= Py.max_float ->
  Py.math_pow 10 (trim_db / 20) = Raise OverflowError.
Proof.
  intros Hge Hfin. unfold Py.math_pow.
  destruct (Req_dec_T (trim_db / 20) 0) as [E | _]; [lra |].
  destruct (Rlt_dec 0 10) as [_ | N]; [| lra].
  pose proof (exp_pos (trim_db / 20 * ln 10)) as Hp.
  apply range_checked_overflow.
  - rewrite Rabs_right by lra. unfold Py.max_float. apply IZR_le.
    vm_compute. discriminate.
  - rewrite Rabs_right by lra. exact Hfin.
  - rewrite Rabs_right by lra.
    assert (Hq : INR 310 * ln 10 <= trim_db / 20 * ln 10).
    { pose proof ln_10_pos. rewrite INR_IZR_INZ.
      change (IZR (Z.of_nat 310)) with 310. nra. }
    assert (Hexp : exp (INR 310 * ln 10) <= exp (trim_db / 20 * ln 10)).
    { destruct Hq as [Hlt | E]; [| rewrite E; lra].
      left. apply exp_increasing. exact Hlt. }
    rewrite exp_ln_pow in Hexp by lra.
    rewrite pow_IZR in Hexp.
    assert (Hb : Py.overflow_bound <= IZR (10 ^ Z.of_nat 310)).
    { unfold Py.overflow_bound. apply IZR_le. vm_compute. discriminate. }
    lra.
Qed.

(** [process] is the composition of its stages: when the two lanes return
    channels of the length of the input and the trim and pad stages return,
    [process] returns the output of the pad stage. *)
Lemma process_compose (self : t) (l r : list R)
    mf mc mid_l mid_r hf hg hgain hl high_l high_r
    q trim_lin trim' t_l t_r pad' out_l out_r :
  length r = length l ->
  mid_lane self l r = Ok (mf, mc, mid_l, mid_r) ->
  length mid_l = length l -> length mid_r = length l ->
  high_lane self l r = Ok (hf, hg, hgain, hl, high_l, high_r) ->
  length high_l = length l -> length high_r = length l ->
  Py.truediv (knob_trim self) 20 = Ok q ->
  Py.math_pow 10 q = Ok trim_lin ->
  StereoGainMeter.process_block (trim_gain self)
    (samplewise_sum l mid_l high_l) (samplewise_sum r mid_r high_r)
    0 trim_lin 0 = Ok (trim', t_l, t_r) ->
  StereoGainMeter.process_block (static_pad self) t_l t_r 0 pad_val 0
  = Ok (pad', out_l, out_r) ->
  process self l r
  = Ok (mk (sample_rate self) mf mc hf hg hgain hl trim' pad'
          (knob_mid self) (knob_high self) (knob_trim self),
        out_l, out_r).
Proof.
  intros Hlen Em M1 M2 Eh H1 H2 Eq Et Etr Ep.
  unfold process. rewrite Em. simpl bind. rewrite Eh. simpl bind.
  rewrite sum_loop_ok by lia. simpl bind.
  rewrite Eq. simpl bind. rewrite Et. simpl bind.
  rewrite Etr. simpl bind. rewrite Ep. reflexivity.
Qed.

(** [process] returns on a non-empty block with channels of equal length
    when the trim is at most 6000 dB; afterwards the boost stage is
    initialised and stores the boost of the High knob, and the
    configuration of the three dynamics units and the knobs are the ones
    before the call. *)
Lemma process_returns (self : t) (l r : list R) :
  well_configured self -> knob_trim self <= 6000 ->
  (1 <= length l)%nat -> length r = length l ->
  exists self' out_l out_r p,
    process self l r = Ok (self', out_l, out_r)
    /\ Py.math_pow (knob_high self) 0.8 = Ok p
    /\ StereoGainMeter._initialized (high_gain self') = true
    /\ StereoGainMeter._stored_target_gain (high_gain self') = 1 + 0.8962 * p
    /\ UnknownCompressor.same_config (mid_compressor self)
         (mid_compressor self')
    /\ UnknownCompressor.same_config (high_gate self) (high_gate self')
    /\ UnknownCompressor.same_config (high_limiter self) (high_limiter self')
    /\ knob_high self' = knob_high self
    /\ knob_trim self' = knob_trim self.
Proof.
  intros Hwc Htrim HN Hlen.
  destruct (mid_lane_ok self l r Hwc Hlen)
    as (mf & mc & ml & mr & Em & M1 & M2 & Hcm).
  destruct (high_lane_ok self l r Hwc HN Hlen)
    as (hf & hg & hgain & hl & hleft & hright & p & Eh & H1 & H2 & Hcg & Hcl
        & Epow & Hi & Hst).
  assert (Eq : Py.truediv (knob_trim self) 20 = Ok (knob_trim self / 20))
    by (apply truediv_ok; lra).
  destruct (trim_lin_ok (knob_trim self) Htrim) as (trim_lin & Et & _).
  destruct (GainFacts.gain_process_block_ok (trim_gain self)
              (samplewise_sum l ml hleft) (samplewise_sum r mr hright)
              0 trim_lin 0)
    as (trim' & t_l & t_r & Etr & T1 & T2 & _).
  { rewrite samplewise_sum_length by lia. exact HN. }
  { rewrite !samplewise_sum_length by lia. lia. }
  rewrite samplewise_sum_length in T1, T2 by lia.
  destruct (GainFacts.gain_process_block_ok (static_pad self) t_l t_r
              0 pad_val 0)
    as (pad' & out_l & out_r & Ep & _); [lia | lia |].
  eexists _, out_l, out_r, p. split.
  - eapply process_compose; eassumption.
  - simpl. repeat split; try assumption; try apply Hcm; try apply Hcg;
      try apply Hcl.
Qed.

(** When the two lanes return, an exception of the trim gain
    [10 ** (knob_trim / 20)] is the exception of [process]. *)
Lemma process_trim_raises (self : t) (l r : list R) (e : exn) :
  well_configured self -> (1 <= length l)%nat -> length r = length l ->
  Py.math_pow 10 (knob_trim self / 20) = Raise e ->
  process self l r = Raise e.
Proof.
  intros Hwc HN Hlen Et.
  destruct (mid_lane_ok self l r Hwc Hlen)
    as (mf & mc & ml & mr & Em & M1 & M2 & _).
  destruct (high_lane_ok self l r Hwc HN Hlen)
    as (hf & hg & hgain & hl & hleft & hright & p & Eh & H1 & H2 & _).
  unfold process. rewrite Em. simpl bind. rewrite Eh. simpl bind.
  rewrite sum_loop_ok by lia. simpl bind.
  rewrite truediv_ok by lra. simpl bind. rewrite Et. reflexivity.
Qed.

(** [set_parameters] returns for every knob setting and touches only the
    knobs and the threshold and ratio of the limiter. *)
Lemma set_parameters_ok (self : t) (mid_air high_air trim_db : R) :
  exists thresh ratio,
    set_parameters self mid_air high_air trim_db
    = Ok (mk (sample_rate self) (mid_filter self) (mid_compressor self)
            (high_filter self) (high_gate self) (high_gain self)
            (UnknownCompressor.set_ratio ratio
               (UnknownCompressor.set_threshold thresh (high_limiter self)))
            (trim_gain self) (static_pad self) mid_air high_air trim_db).
Proof.
  unfold set_parameters.
  destruct (CurveFacts.HIGH_LIMITER_SHAPE_CURVE_total high_air) as (slope & Es).
  destruct (CurveFacts.HIGH_LIMITER_THRESH_CURVE_total high_air) as (th & Et).
  rewrite Es. simpl bind.
  destruct (Rlt_dec slope 1) as [Hs | Hs].
  - rewrite truediv_ok by lra. simpl bind. rewrite Et. simpl bind. eauto.
  - simpl bind. rewrite Et. simpl bind. eauto.
Qed.

End CompositeFacts.

Module ReachFacts.
Import FreshAirClone.

Lemma comp_process_block_nil (s : UnknownCompressor.t) :
  0 < UnknownCompressor.sample_rate s ->
  UnknownCompressor.process_block s [] [] = Ok (s, [], []).
Proof.
  intros Hsr. unfold UnknownCompressor.process_block.
  destruct (CompressorFacts.block_coeffs_ok s Hsr) as (k & Ek & _).
  destruct (CompressorFacts.block_slope_ok s) as (slope & Es & _).
  rewrite Ek, Es. reflexivity.
Qed.

Lemma filt_process_nil (f : UnknownFilter.t) :
  UnknownFilter.process f [] [] = Ok (f, [], []).
Proof. destruct f. reflexivity. Qed.

(** On an empty block lane 0 returns. *)
Lemma mid_lane_nil (self : t) :
  0 < UnknownCompressor.sample_rate (mid_compressor self) ->
  mid_lane self [] [] = Ok (mid_filter self, mid_compressor self, [], []).
Proof.
  intros Hsr. unfold mid_lane. rewrite filt_process_nil. simpl bind.
  destruct (CurveFacts.MID_GAIN_CURVE_total (knob_mid self)) as (raw & Er).
  rewrite Er. simpl bind. simpl map.
  rewrite (comp_process_block_nil _ Hsr). reflexivity.
Qed.

(** On an empty block lane 1 raises as soon as the boost of the knob moved
    away from the target stored in the boost stage. *)
Lemma high_lane_nil_raises (self : t) (p : R) :
  0 < UnknownCompressor.sample_rate (high_gate self) ->
  Py.math_pow (knob_high self) 0.8 = Ok p ->
  StereoGainMeter._initialized (high_gain self) = true ->
  1e-15 <= Rabs (1 + 0.8962 * p
                 - StereoGainMeter._stored_target_gain (high_gain self)) ->
  high_lane self [] [] = Raise ZeroDivisionError.
Proof.
  intros Hsr Ep Hi Hd. unfold high_lane. rewrite filt_process_nil. simpl bind.
  rewrite (comp_process_block_nil _ Hsr). simpl bind.
  rewrite Ep. simpl bind.
  rewrite GainFacts.process_block_empty_raises; [reflexivity | exact Hi |].
  unfold StereoGainMeter.target_gain_of. simpl Z.eqb. cbv iota. exact Hd.
Qed.

Lemma init_well_configured (sample_rate : R) :
  0 < sample_rate -> well_configured (init sample_rate).
Proof.
  intros H. unfold well_configured. simpl. repeat split; lra.
Qed.

End ReachFacts.

Module TableFacts.

(** A word with a clear sign bit decodes to a non-negative real. *)
Lemma ieee_value_nonneg (mbits ebits w : Z) :
  (0 <= mbits)%Z ->
  (w / 2 ^ (mbits + ebits) =? 0)%Z = true ->
  0 <= Hex.ieee_value mbits ebits w.
Proof.
  intros Hm Hs. unfold Hex.ieee_value. rewrite Hs.
  assert (Hmod : (0 <= w mod 2 ^ mbits)%Z).
  { apply Z.mod_pos_bound. apply Z.pow_pos_nonneg; lia. }
  assert (Hpow : (0 < 2 ^ mbits)%Z) by (apply Z.pow_pos_nonneg; lia).
  cbv zeta. destruct ((w / 2 ^ mbits) mod 2 ^ ebits =? 0)%Z.
  - apply Rmult_le_pos; [apply IZR_le; exact Hmod |].
    left. apply powerRZ_lt. lra.
  - apply Rmult_le_pos; [apply IZR_le; lia |].
    left. apply powerRZ_lt. lra.
Qed.

Lemma hex_to_float_nonneg (s : String.string) :
  (Hex.little_endian (Hex.bytes_of (Hex.digits s)) / 2 ^ (23 + 8) =? 0)%Z
  = true ->
  0 <= Hex.hex_to_float s.
Proof. intros H. apply ieee_value_nonneg; [lia | exact H]. Qed.

(** The decoding of one literal, as a check of the byte order. *)
Lemma hex_word_example :
  Hex.little_endian (Hex.bytes_of (Hex.digits "9D 41 00 3F"%string))
  = 0x3F00419D%Z.
Proof. vm_compute. reflexivity. Qed.

(** The value of a word of a normal number. *)
Lemma ieee_value_normal (mbits ebits w m e : Z) :
  (w mod 2 ^ mbits)%Z = m ->
  ((w / 2 ^ mbits) mod 2 ^ ebits)%Z = e ->
  (w / 2 ^ (mbits + ebits))%Z = 0%Z ->
  e <> 0%Z ->
  Hex.ieee_value mbits ebits w
  = IZR (2 ^ mbits + m) * powerRZ 2 (e - (2 ^ (ebits - 1) - 1) - mbits).
Proof.
  intros Hm He Hs Hne. unfold Hex.ieee_value. rewrite Hm, He, Hs.
  destruct (Z.eqb_spec e 0) as [E | _]; [contradiction | reflexivity].
Qed.

(** The third coefficient of the High band decodes to 1.0, as the source
    comments it. *)
Lemma hex_to_double_one :
  Hex.hex_to_double "00 00 00 00 00 00 F0 3F"%string = 1.
Proof.
  unfold Hex.hex_to_double.
  rewrite (ieee_value_normal 52 11 _ 0 1023) by (vm_compute; congruence).
  replace (1023 - (2 ^ (11 - 1) - 1) - 52)%Z with (- 52)%Z by reflexivity.
  change (2 ^ 52 + 0)%Z with (Z.pow_pos 2 52).
  rewrite Zpower_pos_powerRZ, <- powerRZ_add by lra.
  reflexivity.
Qed.

(** A curve on the five knob positions with non-negative values is
    non-negative everywhere. *)
Lemma interpolate_curve_five_nonneg (knob_val v0 v1 v2 v3 v4 v : R) :
  0 <= v0 -> 0 <= v1 -> 0 <= v2 -> 0 <= v3 -> 0 <= v4 ->
  interpolate_curve knob_val
    [(0.00, v0); (0.25, v1); (0.50, v2); (0.75, v3); (1.00, v4)] = Ok v ->
  0 <= v.
Proof.
  intros H0 H1 H2 H3 H4.
  unfold interpolate_curve. simpl map. rewrite CurveFacts.sorted_five_keys.
  cbv iota beta. cbn [List.last interpolate_segments dict_get].
  unfold Py.truediv, lerp.
  repeat (CurveFacts.decide_comparison; cbn [bind]);
    intros E; inversion E; subst; clear E; try lra.
  - assert (Ht : 0 <= (knob_val - 0.00) / (0.25 - 0.00) <= 1) by lra. nra.
  - assert (Ht : 0 <= (knob_val - 0.25) / (0.50 - 0.25) <= 1) by lra. nra.
  - assert (Ht : 0 <= (knob_val - 0.50) / (0.75 - 0.50) <= 1) by lra. nra.
  - assert (Ht : 0 <= (knob_val - 0.75) / (1.00 - 0.75) <= 1) by lra. nra.
Qed.

Lemma HIGH_LIMITER_THRESH_CURVE_nonneg (knob_val v : R) :
  interpolate_curve knob_val HIGH_LIMITER_THRESH_CURVE = Ok v -> 0 <= v.
Proof.
  apply interpolate_curve_five_nonneg;
    apply hex_to_float_nonneg; vm_compute; reflexivity.
Qed.

End TableFacts.

Module ConfigFacts.
Import FreshAirClone.

(** [set_parameters] with a non-negative High knob keeps the composite well
    configured. *)
Lemma set_parameters_well_configured
    (self self' : t) (mid_air high_air trim_db : R) :
  well_configured self -> 0 <= high_air ->
  set_parameters self mid_air high_air trim_db = Ok self' ->
  well_configured self'.
Proof.
  intros (A1 & A2 & A3 & A4 & A5 & A6 & A7) Hk E.
  unfold set_parameters in E.
  apply bind_Ok_inv in E. destruct E as (slope & _ & E).
  apply bind_Ok_inv in E. destruct E as (ratio & _ & E).
  apply bind_Ok_inv in E. destruct E as (thresh & Et & E).
  inversion E; subst; clear E.
  apply TableFacts.HIGH_LIMITER_THRESH_CURVE_nonneg in Et.
  unfold well_configured. simpl. repeat split; assumption.
Qed.

(** [process] keeps the composite well configured. *)
Lemma process_well_configured (self self' : t) (l r ol or : list R) :
  well_configured self -> knob_trim self <= 6000 ->
  (1 <= length l)%nat -> length r = length l ->
  process self l r = Ok (self', ol, or) -> well_configured self'.
Proof.
  intros Hwc Htrim HN Hlen E.
  destruct (CompositeFacts.process_returns self l r Hwc Htrim HN Hlen)
    as (s1 & o1 & o2 & p & E' & _ & _ & _ & Hcm & Hcg & Hcl & Hk & _).
  rewrite E in E'. inversion E'; subst s1 o1 o2; clear E'.
  destruct Hwc as (A1 & A2 & A3 & A4 & A5 & A6 & A7).
  destruct Hcm as (M1 & _ & M3 & _).
  destruct Hcg as (G1 & _ & G3 & _).
  destruct Hcl as (L1 & _ & L3 & _).
  unfold well_configured.
  rewrite M1, M3, G1, G3, L1, L3, Hk. repeat split; assumption.
Qed.

End ConfigFacts.

(** ** The ramped gain stage: claims C3, C9, C10 *)

Section RampedGainStage.
Import StereoGainMeter.

(** C9 (no-ramp idempotence): on an initialised stage, when the target of a
    call differs from the one stored by the previous call by less than
    1e-15, the call returns and every sample of both channels is multiplied
    by the target itself; no interpolation is set up ([_ramp_step] is 0). *)
Theorem C9_no_ramp_idempotence
    (s : t) (ls rs : list R) (mode : Z) (vn vb : R) :
  _initialized s = true ->
  length rs = length ls ->
  Rabs (target_gain_of mode vn vb - _stored_target_gain s) < 1e-15 ->
  exists s',
    process_block s ls rs mode vn vb
    = Ok (s', map (fun x => x * target_gain_of mode vn vb) ls,
              map (fun x => x * target_gain_of mode vn vb) rs)
    /\ _ramp_step s' = 0.
Proof.
  intros Hinit Hlen Hdiff.
  destruct (GainFacts.process_block_unchanged_target s ls rs mode vn vb
              Hinit Hlen Hdiff) as (s' & E & _ & _ & _ & Hr).
  exists s'. split; assumption.
Qed.

Lemma C9_no_ramp_idempotence_witness :
  let s := mk true 1 1 1 0 0.1 0.1 0 0 in
  _initialized s = true
  /\ length [3; 4] = length [1; 2]
  /\ Rabs (target_gain_of 0 1 0 - _stored_target_gain s) < 1e-15
  /\ exists s',
       process_block s [1; 2] [3; 4] 0 1 0
       = Ok (s', map (fun x => x * target_gain_of 0 1 0) [1; 2],
                 map (fun x => x * target_gain_of 0 1 0) [3; 4])
       /\ _ramp_step s' = 0.
Proof.
  intros s.
  assert (Hd : Rabs (target_gain_of 0 1 0 - _stored_target_gain s) < 1e-15).
  { unfold target_gain_of; simpl.
    replace (1 - 1) with 0 by ring. rewrite Rabs_R0. lra. }
  split; [reflexivity |]. split; [reflexivity |]. split; [exact Hd |].
  apply (C9_no_ramp_idempotence s [1; 2] [3; 4] 0 1 0);
    [reflexivity | reflexivity | exact Hd].
Defined.

(** C3 (ramp completeness): on an initialised stage, a call on a block of
    [N >= 1] samples whose target [G1] differs from the stored target [G0]
    by at least 1e-15 returns and leaves [_current_gain] equal to [G1] (in
    exact arithmetic the interpolation factor of the last sample is
    [N * (1 / N) = 1], so the distance to [G1] is zero, below every
    tolerance); the following call with the same target multiplies its
    first sample, on both channels, by [G1]. *)
Theorem C3_ramp_completeness
    (s : t) (ls rs : list R) (mode : Z) (vn vb : R) :
  _initialized s = true ->
  (1 <= length ls)%nat ->
  length rs = length ls ->
  1e-15 <= Rabs (target_gain_of mode vn vb - _stored_target_gain s) ->
  exists s1 ol or,
    process_block s ls rs mode vn vb = Ok (s1, ol, or)
    /\ _current_gain s1 = target_gain_of mode vn vb
    /\ (forall eps, 0 < eps ->
          Rabs (_current_gain s1 - target_gain_of mode vn vb) < eps)
    /\ forall x xs y ys,
         length ys = length xs ->
         exists s2 ol' or',
           process_block s1 (x :: xs) (y :: ys) mode vn vb
           = Ok (s2, x * target_gain_of mode vn vb :: ol',
                     y * target_gain_of mode vn vb :: or').
Proof.
  intros Hinit HN Hlen Hdiff.
  destruct (GainFacts.process_block_changed_target s ls rs mode vn vb
              Hinit HN Hlen Hdiff)
    as (s1 & ol & or & E & Hi & Hst & _ & _ & Hcur).
  exists s1, ol, or. split; [exact E |]. split; [exact Hcur |]. split.
  - intros eps Heps. rewrite Hcur.
    replace (target_gain_of mode vn vb - target_gain_of mode vn vb) with 0
      by ring.
    rewrite Rabs_R0. exact Heps.
  - intros x xs y ys Hlen2.
    destruct (GainFacts.process_block_unchanged_target
                s1 (x :: xs) (y :: ys) mode vn vb) as (s2 & E2 & _).
    + exact Hi.
    + simpl. rewrite Hlen2. reflexivity.
    + rewrite Hst.
      replace (target_gain_of mode vn vb - target_gain_of mode vn vb) with 0
        by ring.
      rewrite Rabs_R0. lra.
    + simpl map in E2. eauto.
Qed.

Lemma C3_ramp_completeness_witness :
  let s := mk true 1 1 1 0 0.1 0.1 0 0 in
  _initialized s = true
  /\ (1 <= length [1; 1; 1]%R)%nat
  /\ length [1; 1; 1] = length [1; 1; 1]
  /\ 1e-15 <= Rabs (target_gain_of 0 2 0 - _stored_target_gain s)
  /\ exists s1 ol or,
       process_block s [1; 1; 1] [1; 1; 1] 0 2 0 = Ok (s1, ol, or)
       /\ _current_gain s1 = target_gain_of 0 2 0
       /\ (forall eps, 0 < eps ->
             Rabs (_current_gain s1 - target_gain_of 0 2 0) < eps)
       /\ forall x xs y ys,
            length ys = length xs ->
            exists s2 ol' or',
              process_block s1 (x :: xs) (y :: ys) 0 2 0
              = Ok (s2, x * target_gain_of 0 2 0 :: ol',
                        y * target_gain_of 0 2 0 :: or').
Proof.
  intros s.
  assert (Hd : 1e-15 <= Rabs (target_gain_of 0 2 0 - _stored_target_gain s)).
  { unfold target_gain_of; simpl.
    replace (2 - 1) with 1 by ring. rewrite Rabs_R1. lra. }
  split; [reflexivity |]. split; [simpl; lia |]. split; [reflexivity |].
  split; [exact Hd |].
  apply (C3_ramp_completeness s [1; 1; 1] [1; 1; 1] 0 2 0);
    [reflexivity | simpl; lia | reflexivity | exact Hd].
Defined.

(** C10, as the code has it (empty block): an initialised stage called on
    empty buffers with a target that moved by at least 1e-15 raises
    [ZeroDivisionError] (the ramp step [1 / block_size]); with an unchanged
    target it returns, leaving the initialised flag, [_current_gain], the
    meter coefficients and both meter energies as they were, while the
    stored target and [_start_gain] become the target and [_ramp_step]
    becomes 0; a stage that was never called returns after snapping
    (initialised, start = stored = current = target, ramp step 0, meters
    untouched). *)
Theorem C10_empty_block_call (s : t) (mode : Z) (vn vb : R) :
  (_initialized s = true ->
   1e-15 <= Rabs (target_gain_of mode vn vb - _stored_target_gain s) ->
   process_block s [] [] mode vn vb = Raise ZeroDivisionError)
  /\ (_initialized s = true ->
      Rabs (target_gain_of mode vn vb - _stored_target_gain s) < 1e-15 ->
      process_block s [] [] mode vn vb
      = Ok (mk true (target_gain_of mode vn vb) (target_gain_of mode vn vb)
              (_current_gain s) 0 (_meter_coeff_l s) (_meter_coeff_r s)
              (_meter_state_l s) (_meter_state_r s), [], []))
  /\ (_initialized s = false ->
      process_block s [] [] mode vn vb
      = Ok (mk true (target_gain_of mode vn vb) (target_gain_of mode vn vb)
              (target_gain_of mode vn vb) 0
              (_meter_coeff_l s) (_meter_coeff_r s)
              (_meter_state_l s) (_meter_state_r s), [], [])).
Proof.
  split; [| split].
  - apply GainFacts.process_block_empty_raises.
  - intros Hinit Hdiff.
    rewrite (GainFacts.process_block_empty_unchanged s mode vn vb Hinit Hdiff).
    unfold set_stored_target_gain, set_start_gain, set_ramp_step. simpl.
    rewrite Hinit. reflexivity.
  - apply GainFacts.process_block_empty_first.
Qed.

Lemma C10_empty_block_call_witness :
  let s := mk true 1 1 1 0 0.1 0.1 0 0 in
  _initialized s = true
  /\ 1e-15 <= Rabs (target_gain_of 0 2 0 - _stored_target_gain s)
  /\ process_block s [] [] 0 2 0 = Raise ZeroDivisionError.
Proof.
  intros s.
  assert (Hd : 1e-15 <= Rabs (target_gain_of 0 2 0 - _stored_target_gain s)).
  { unfold target_gain_of; simpl.
    replace (2 - 1) with 1 by ring. rewrite Rabs_R1. lra. }
  split; [reflexivity |]. split; [exact Hd |].
  exact (proj1 (C10_empty_block_call s 0 2 0) eq_refl Hd).
Defined.

(** C10 as stated fails: after a first call (target 1) and a ramping call on
    two samples (target 2), an empty-block call with the unchanged target 2
    is one of the "other" empty-block calls; it returns, but besides the
    stored target it also resets [_ramp_step] from 1/2 to 0 and moves
    [_start_gain] from 1 to 2. *)
Lemma C10_empty_block_call_counterexample :
  exists s1 s2 s3 o1 o1' o2 o2',
    process_block init_default [1] [1] 0 1 0 = Ok (s1, o1, o1')
    /\ process_block s1 [1; 1] [1; 1] 0 2 0 = Ok (s2, o2, o2')
    /\ _initialized s2 = true
    /\ Rabs (target_gain_of 0 2 0 - _stored_target_gain s2) < 1e-15
    /\ process_block s2 [] [] 0 2 0 = Ok (s3, [], [])
    /\ s3 <> set_stored_target_gain (target_gain_of 0 2 0) s2
    /\ _ramp_step s2 = 1 / 2 /\ _ramp_step s3 = 0
    /\ _start_gain s2 = 1 /\ _start_gain s3 = 2.
Proof.
  destruct (GainFacts.process_block_first_call init_default [1] [1] 0 1 0
              eq_refl eq_refl)
    as (s1 & o1 & o1' & E1 & Hi1 & Hst1 & _ & _).
  assert (Hd2 : 1e-15 <= Rabs (target_gain_of 0 2 0 - _stored_target_gain s1)).
  { rewrite Hst1. unfold target_gain_of; simpl.
    replace (2 - 1) with 1 by ring. rewrite Rabs_R1. lra. }
  destruct (GainFacts.process_block_changed_target s1 [1; 1] [1; 1] 0 2 0
              Hi1 ltac:(simpl; lia) eq_refl Hd2)
    as (s2 & o2 & o2' & E2 & Hi2 & Hst2 & Hsg2 & Hrs2 & _).
  assert (Hd3 : Rabs (target_gain_of 0 2 0 - _stored_target_gain s2) < 1e-15).
  { rewrite Hst2. replace (target_gain_of 0 2 0 - target_gain_of 0 2 0) with 0
      by ring. rewrite Rabs_R0. lra. }
  pose proof (GainFacts.process_block_empty_unchanged s2 0 2 0 Hi2 Hd3) as E3.
  assert (Hr2 : _ramp_step s2 = 1 / 2).
  { rewrite Hrs2. simpl. lra. }
  eexists s1, s2, _, o1, o1', o2, o2'.
  split; [exact E1 |]. split; [exact E2 |]. split; [exact Hi2 |].
  split; [exact Hd3 |]. split; [exact E3 |].
  split.
  - intros Heq. apply (f_equal _ramp_step) in Heq. simpl in Heq.
    rewrite Hr2 in Heq. lra.
  - simpl. rewrite Hsg2, Hst1. unfold target_gain_of. simpl.
    repeat split; try lra; exact Hr2.
Qed.

End RampedGainStage.

(** ** The dynamics unit: claims C1, C4, C7, C8 *)

Section DynamicsUnit.
Import UnknownCompressor CompressorFacts EnvelopeFacts PeakFacts.

(** C1, evaluated on the code: the high-lane gate of the composite
    (threshold 0, Peak mode, ratio 4) at 44100 Hz, fed the one-sample block
    [1.0] / [1.0], returns [g] on both channels with
    [g = exp (-1 / (0.005 * 44100)) < 1]: it is not the identity. *)
Theorem C1_high_gate_not_identity :
  exists s' g,
    process_block (FreshAirClone.high_gate (FreshAirClone.init 44100))
      [1] [1] = Ok (s', [g], [g])
    /\ g = exp (-1 / (0.005 * 44100))
    /\ g < 1
    /\ [g] <> [1].
Proof.
  assert (Hlev : input_level_of 1 1 = 1).
  { unfold input_level_of. destruct (Rlt_dec _ _); apply Rabs_R1. }
  set (gate := FreshAirClone.high_gate (FreshAirClone.init 44100)).
  assert (Hgs : gain_state gate = 1) by reflexivity.
  assert (Hsr : sample_rate gate = 44100) by reflexivity.
  destruct (GateFacts.zero_threshold_attenuates gate 1 1) as (s' & E).
  { rewrite Hsr. lra. }
  { simpl. discriminate. }
  { reflexivity. }
  { simpl. lra. }
  { simpl. lra. }
  { simpl. lra. }
  { rewrite Hlev. lra. }
  rewrite Hgs, Hsr in E.
  assert (Hg : exp (-1 / (0.005 * 44100)) < 1).
  { pose proof (exp_increasing (-1 / (0.005 * 44100)) 0) as H.
    rewrite exp_0 in H. apply H. lra. }
  exists s', (exp (-1 / (0.005 * 44100))).
  split.
  - rewrite E. replace (1 * (1 * exp (-1 / (0.005 * 44100))))
      with (exp (-1 / (0.005 * 44100))) by ring.
    reflexivity.
  - split; [reflexivity |]. split; [exact Hg |].
    intros H. inversion H as [H1]. lra.
Qed.

(** C4 (gain computer identity below threshold): whenever the envelope is
    at most the threshold the target linear gain is exactly 1, whatever the
    detector mode; the sample is then smoothed towards 1. *)
Theorem C4_gain_identity_below_threshold (s : t) (slope env : R) :
  env <= threshold s ->
  gain_computer s slope env = Ok 1
  /\ forall k l r s1,
       detector s k l r = Ok (s1, env) ->
       process_sample s k slope l r
       = Ok (set_gain_state
               (gain_state s1 + (1 - gain_state s1) * gain_smooth_coeff k) s1,
             l * (gain_state s1 + (1 - gain_state s1) * gain_smooth_coeff k),
             r * (gain_state s1 + (1 - gain_state s1) * gain_smooth_coeff k)).
Proof.
  intros Hle.
  assert (G : forall s0, threshold s0 = threshold s ->
                         gain_computer s0 slope env = Ok 1).
  { intros s0 E. unfold gain_computer. rewrite E.
    destruct (Rlt_dec (threshold s) env) as [H | _]; [lra | reflexivity]. }
  split; [apply G; reflexivity |].
  intros k l r s1 E. unfold process_sample. rewrite E. simpl bind.
  destruct (detector_ok s k l r) as (s1' & env' & E' & Hc & _).
  rewrite E in E'. inversion E'; subst s1' env'.
  destruct Hc as (_ & _ & Hth & _).
  rewrite (G s1 Hth). reflexivity.
Qed.

Lemma C4_gain_identity_below_threshold_witness :
  0.5 <= threshold (init 44100)
  /\ gain_computer (init 44100) 0.75 0.5 = Ok 1.
Proof.
  assert (H : 0.5 <= threshold (init 44100)) by (simpl; lra).
  split; [exact H |].
  exact (proj1 (C4_gain_identity_below_threshold (init 44100) 0.75 0.5 H)).
Defined.


(** C7 (envelope monotonicity): in Peak mode (positive sample rate,
    non-negative threshold), on a constant input of level [L],
    [peak_after n] being the peak state after [n] samples: the unit returns
    on every such block; if [L] exceeds the current peak state the sequence
    is non-decreasing, stays at most [L], equals
    [L - (L - peak) * (1 - attack) ^ n] (no release coefficient in it) and
    tends to [L]; if [L] is below the peak state it is non-increasing, stays
    at least [L], equals [L + (peak - L) * (1 - release) ^ n] and tends to
    [L]. *)
Theorem C7_peak_monotone_convergence (s : t) (l r : R) :
  0 < sample_rate s -> mode s <> 0%Z -> 0 <= threshold s ->
  exists a rl,
    _calc_coeff s (attack_time s) = Ok a
    /\ _calc_coeff s (release_time s) = Ok rl
    /\ (forall n, exists s' ol or,
          process_block s (repeat l n) (repeat r n) = Ok (s', ol, or))
    /\ (peak_state s < input_level_of l r ->
        (forall n, peak_after s l r n <= peak_after s l r (S n)
                   /\ peak_after s l r n <= input_level_of l r)
        /\ (forall n, peak_after s l r n
                      = input_level_of l r
                        - (input_level_of l r - peak_state s) * (1 - a) ^ n)
        /\ (forall eps, 0 < eps ->
              exists N, forall n, (N <= n)%nat ->
                Rabs (peak_after s l r n - input_level_of l r) < eps))
    /\ (input_level_of l r < peak_state s ->
        (forall n, peak_after s l r (S n) <= peak_after s l r n
                   /\ input_level_of l r <= peak_after s l r n)
        /\ (forall n, peak_after s l r n
                      = input_level_of l r
                        + (peak_state s - input_level_of l r) * (1 - rl) ^ n)
        /\ (forall eps, 0 < eps ->
              exists N, forall n, (N <= n)%nat ->
                Rabs (peak_after s l r n - input_level_of l r) < eps)).
Proof.
  intros Hsr Hm Hth.
  destruct (calc_coeff_range s (attack_time s) Hsr) as (a & Ea & Ha).
  destruct (calc_coeff_range s (release_time s) Hsr) as (rl & Er & Hr).
  set (L := input_level_of l r).
  exists a, rl. split; [exact Ea |]. split; [exact Er |]. split.
  { intros n.
    destruct (comp_process_block_ok s (repeat l n) (repeat r n) Hsr Hth)
      as (s' & ol & or & E & _).
    - rewrite !repeat_length. reflexivity.
    - eauto. }
  split.
  - intros Hlt.
    assert (Hform : forall n, peak_after s l r n
                              = L - (L - peak_state s) * (1 - a) ^ n).
    { intros n.
      destruct (peak_after_rising s l r n Hsr Hm Hth) as (a' & _ & _ & _ & Ea' & _ & _ & Hp).
      - fold L. lra.
      - rewrite Ea in Ea'. apply Ok_inj in Ea'. subst a'. exact Hp. }
    assert (Hq : forall n, 0 <= (1 - a) ^ n) by (intros n; apply pow_le; lra).
    split; [| split].
    + intros n. rewrite !Hform. simpl pow. specialize (Hq n).
      assert (Hd : 0 <= (L - peak_state s) * (1 - a) ^ n)
        by (apply Rmult_le_pos; lra).
      set (Q := (1 - a) ^ n) in *. split; nra.
    + exact Hform.
    + intros eps Heps.
      destruct (geometric_vanishes (- (L - peak_state s)) (1 - a)) with (eps := eps)
        as (N & HN); [lra | exact Heps |].
      exists N. intros n Hn. rewrite Hform.
      replace (L - (L - peak_state s) * (1 - a) ^ n - L)
        with (- (L - peak_state s) * (1 - a) ^ n) by ring.
      apply HN. exact Hn.
  - intros Hlt.
    assert (Hform : forall n, peak_after s l r n
                              = L + (peak_state s - L) * (1 - rl) ^ n).
    { intros n.
      destruct (peak_after_falling s l r n Hsr Hm Hth) as (r' & _ & _ & _ & Er' & _ & _ & Hp).
      - fold L. lra.
      - rewrite Er in Er'. apply Ok_inj in Er'. subst r'. exact Hp. }
    assert (Hq : forall n, 0 <= (1 - rl) ^ n) by (intros n; apply pow_le; lra).
    split; [| split].
    + intros n. rewrite !Hform. simpl pow. specialize (Hq n).
      assert (Hd : 0 <= (peak_state s - L) * (1 - rl) ^ n)
        by (apply Rmult_le_pos; lra).
      set (Q := (1 - rl) ^ n) in *. split; nra.
    + exact Hform.
    + intros eps Heps.
      destruct (geometric_vanishes (peak_state s - L) (1 - rl)) with (eps := eps)
        as (N & HN); [lra | exact Heps |].
      exists N. intros n Hn. rewrite Hform.
      replace (L + (peak_state s - L) * (1 - rl) ^ n - L)
        with ((peak_state s - L) * (1 - rl) ^ n) by ring.
      apply HN. exact Hn.
Qed.

Lemma C7_peak_monotone_convergence_witness :
  0 < sample_rate (init 44100) /\ mode (init 44100) <> 0%Z
  /\ 0 <= threshold (init 44100)
  /\ exists a rl,
       _calc_coeff (init 44100) (attack_time (init 44100)) = Ok a
       /\ _calc_coeff (init 44100) (release_time (init 44100)) = Ok rl
       /\ (forall n, peak_after (init 44100) 1 1 n
                     <= peak_after (init 44100) 1 1 (S n))
       /\ (forall n, peak_after (init 44100) 1 1 n
                     = 1 - (1 - 0) * (1 - a) ^ n).
Proof.
  assert (H1 : 0 < sample_rate (init 44100)) by (simpl; lra).
  assert (H2 : mode (init 44100) <> 0%Z) by (simpl; discriminate).
  assert (H3 : 0 <= threshold (init 44100)) by (simpl; lra).
  assert (Hlev : input_level_of 1 1 = 1).
  { unfold input_level_of. destruct (Rlt_dec _ _); apply Rabs_R1. }
  split; [exact H1 |]. split; [exact H2 |]. split; [exact H3 |].
  destruct (C7_peak_monotone_convergence (init 44100) 1 1 H1 H2 H3)
    as (a & rl & Ea & Er & _ & Hup & _).
  exists a, rl. split; [exact Ea |]. split; [exact Er |].
  rewrite Hlev in Hup.
  destruct Hup as (Hmono & Hform & _); [simpl; lra |].
  split.
  - intros n. apply (Hmono n).
  - exact Hform.
Defined.

(** C8 (envelope non-negative): for a unit with a positive sample rate whose
    envelope states are non-negative (as after construction), after every
    sequence of blocks that it processed, whatever the sign of the samples,
    the RMS accumulator and the Peak state are non-negative, and so are
    they, and the envelope [current_env] that the detector computes, after
    any further sample.  (A block may be cut after any of its samples,
    [CutFacts.process_block_cut], so the states inside a block are covered
    as well.) *)
Theorem C8_envelope_nonneg
    (s : t) (blocks : list (list R * list R)) (s' : t) :
  0 < sample_rate s ->
  0 <= rms_state s -> 0 <= peak_state s ->
  process_blocks s blocks = Ok s' ->
  0 <= rms_state s' /\ 0 <= peak_state s'
  /\ forall k l r s1 env,
       block_coeffs s' = Ok k ->
       detector s' k l r = Ok (s1, env) ->
       0 <= env /\ 0 <= rms_state s1 /\ 0 <= peak_state s1.
Proof.
  intros Hsr Hrms Hpeak H.
  destruct (process_blocks_nonneg blocks s s' Hsr Hrms Hpeak H) as (H1 & H2).
  split; [exact H1 |]. split; [exact H2 |].
  intros k l r s1 env Ek E.
  assert (Hsr' : 0 < sample_rate s').
  { clear - Hsr H. revert s H Hsr.
    induction blocks as [| [ls rs] blocks IH]; intros s H Hsr.
    - simpl in H. inversion H; subst. exact Hsr.
    - simpl in H. apply bind_Ok_inv in H.
      destruct H as (((s1 & o1) & o2) & E & H).
      apply (IH s1 H).
      apply comp_process_block_frame in E. destruct E as (Hc & _).
      rewrite Hc. exact Hsr. }
  destruct (block_coeffs_ok s' Hsr')
    as (k' & Ek' & _ & _ & _ & _ & Ha & Hr & Hm & _).
  rewrite Ek in Ek'. apply Ok_inj in Ek'. subst k'.
  apply (detector_nonneg s' k l r s1 env); try assumption; lra.
Qed.

Lemma C8_envelope_nonneg_witness :
  0 < sample_rate (init 44100)
  /\ 0 <= rms_state (init 44100) /\ 0 <= peak_state (init 44100)
  /\ exists s',
       process_blocks (init 44100) [([1; -1], [0; 2]); ([-3], [1])] = Ok s'
       /\ 0 <= rms_state s' /\ 0 <= peak_state s'.
Proof.
  assert (H1 : 0 < sample_rate (init 44100)) by (simpl; lra).
  assert (H2 : 0 <= rms_state (init 44100)) by (simpl; lra).
  assert (H3 : 0 <= peak_state (init 44100)) by (simpl; lra).
  split; [exact H1 |]. split; [exact H2 |]. split; [exact H3 |].
  destruct (process_blocks_ok [([1; -1], [0; 2]); ([-3], [1])] (init 44100))
    as (s' & E).
  - exact H1.
  - simpl. lra.
  - repeat constructor.
  - exists s'. split; [exact E |].
    destruct (C8_envelope_nonneg (init 44100) _ s' H1 H2 H3 E) as (A & B & _).
    split; assumption.
Defined.

End DynamicsUnit.

(** ** The filter and the composite: claims C2, C5, C6 *)

Section Composite.
Import FreshAirClone.

(** C2, as the code has it: in the filter of test.py (the one of the
    composite) the reciprocal of [denom = (2 * c1 + c0) * c0 + 1] is
    [1 / denom] when [|denom| > 1e-20] and 0 otherwise, for every
    coefficient pair; hence its [process] never raises
    [ZeroDivisionError], whatever the coefficients, the integrator state and
    the block, and it returns on every block with channels of equal length.
    The stand-alone filter of filter.py has no guard: its [process] computes
    the reciprocal once, before the loop; when [denom = 0] it raises
    [ZeroDivisionError] on every block, and otherwise it runs the loop with
    [1 / denom], whatever the magnitude of [denom], and does not raise
    [ZeroDivisionError].  On a coefficient set that its design step yields
    the denominator is [4 / (1 - P3 + P4) > 0], so the stand-alone filter
    does not divide by zero there; its constructor yields such a filter. *)
Theorem C2_filter_denominator_guard
    (self : UnknownFilter.t) (f : FilterPy.t) (ls rs : list R) (c0 c1 : R) :
  UnknownFilter.inv_term c0 c1
  = Ok (if Rlt_dec 1e-20 (Rabs ((c1 * 2 + c0) * c0 + 1))
        then 1 / ((c1 * 2 + c0) * c0 + 1) else 0)
  /\ UnknownFilter.process self ls rs <> Raise ZeroDivisionError
  /\ (length rs = length ls ->
      exists self' ol or,
        UnknownFilter.process self ls rs = Ok (self', ol, or)
        /\ length ol = length ls /\ length or = length ls)
  /\ ((FilterPy.C1 (FilterPy.C f) * 2 + FilterPy.C0 (FilterPy.C f))
      * FilterPy.C0 (FilterPy.C f) + 1 = 0 ->
      FilterPy.process f ls rs = Raise ZeroDivisionError)
  /\ ((FilterPy.C1 (FilterPy.C f) * 2 + FilterPy.C0 (FilterPy.C f))
      * FilterPy.C0 (FilterPy.C f) + 1 <> 0 ->
      FilterPy.process f ls rs
      = ('(s, output_l, output_r) <-
           FilterPy.sample_loop (FilterPy.C f) (FilterPy.state f)
             (FilterPy.C0 (FilterPy.C f) * 2) (FilterPy.C1 (FilterPy.C f) * 2)
             (FilterPy.C1 (FilterPy.C f) * 2 + FilterPy.C0 (FilterPy.C f))
             (1 / ((FilterPy.C1 (FilterPy.C f) * 2
                    + FilterPy.C0 (FilterPy.C f))
                   * FilterPy.C0 (FilterPy.C f) + 1))
             ls rs ;;
         Ok (FilterPy.mk (FilterPy.P f) (FilterPy.C f) s,
             output_l, output_r))
      /\ FilterPy.process f ls rs <> Raise ZeroDivisionError)
  /\ (FilterPy._calculate_coefficients (FilterPy.P f) = Ok (FilterPy.C f) ->
      0 < (FilterPy.C1 (FilterPy.C f) * 2 + FilterPy.C0 (FilterPy.C f))
          * FilterPy.C0 (FilterPy.C f) + 1
      /\ FilterPy.process f ls rs <> Raise ZeroDivisionError)
  /\ exists f0,
       FilterPy.init = Ok f0
       /\ FilterPy._calculate_coefficients (FilterPy.P f0)
          = Ok (FilterPy.C f0).
Proof.
  split; [apply FilterFacts.inv_term_value |].
  split; [apply FilterFacts.filt_process_no_zero_division |].
  split; [apply FilterFacts.filt_process_ok |].
  assert (Hrun : (FilterPy.C1 (FilterPy.C f) * 2 + FilterPy.C0 (FilterPy.C f))
                 * FilterPy.C0 (FilterPy.C f) + 1 <> 0 ->
                 FilterPy.process f ls rs <> Raise ZeroDivisionError).
  { intros Hnz. unfold FilterPy.process. cbv zeta.
    rewrite (truediv_ok _ _ Hnz). simpl bind.
    match goal with
    | |- context [FilterPy.sample_loop ?c ?s ?d5 ?d3 ?d26 ?d28 ls rs] =>
        destruct (FilterPyFacts.filterpy_sample_loop_result ls rs c s d5 d3
                    d26 d28)
          as [([[s' ol] or] & E) | E]; rewrite E; simpl bind; discriminate
    end. }
  split; [| split; [| split]].
  - intros Hz. unfold FilterPy.process. cbv zeta. rewrite Hz.
    rewrite truediv_zero. reflexivity.
  - intros Hnz. split; [| exact (Hrun Hnz)].
    unfold FilterPy.process. cbv zeta.
    rewrite (truediv_ok _ _ Hnz). reflexivity.
  - intros Hd. destruct f as [[[[[P0 P1] P2] P3] P4] c st].
    simpl FilterPy.P in Hd. simpl FilterPy.C in *.
    destruct (DesignFacts.design_denominator P0 P1 P2 P3 P4 c Hd)
      as (Hpos & Hden).
    assert (H0 : 0 < (FilterPy.C1 c * 2 + FilterPy.C0 c) * FilterPy.C0 c + 1).
    { rewrite Hden. apply Rdiv_lt_0_compat; lra. }
    split; [exact H0 |]. apply Hrun. lra.
  - apply DesignFacts.init_designed.
Qed.

Lemma C2_filter_denominator_guard_witness :
  length [1; 0] = length [1; 0]
  /\ UnknownFilter.inv_term 1 (-1) = Ok 0
  /\ (exists self' ol or,
        UnknownFilter.process
          (UnknownFilter.set_params UnknownFilter.init 1 (-1) 0 0 0)
          [1; 0] [1; 0] = Ok (self', ol, or)
        /\ length ol = length [1; 0] /\ length or = length [1; 0])
  /\ exists f0,
       FilterPy.init = Ok f0
       /\ FilterPy._calculate_coefficients (FilterPy.P f0)
          = Ok (FilterPy.C f0)
       /\ (FilterPy.C1 (FilterPy.C f0) * 2 + FilterPy.C0 (FilterPy.C f0))
          * FilterPy.C0 (FilterPy.C f0) + 1 <> 0
       /\ FilterPy.process f0 [1; 0] [1; 0] <> Raise ZeroDivisionError.
Proof.
  destruct DesignFacts.init_designed as (f0 & Ei & Ed).
  pose proof (C2_filter_denominator_guard
                (UnknownFilter.set_params UnknownFilter.init 1 (-1) 0 0 0)
                f0 [1; 0] [1; 0] 1 (-1))
    as (Hinv & _ & Hok & _ & Hnz & Hpy & _).
  split; [reflexivity |]. split; [| split].
  - rewrite Hinv.
    replace ((-1 * 2 + 1) * 1 + 1) with 0 by lra. rewrite Rabs_R0.
    destruct (Rlt_dec 1e-20 0) as [N | _]; [lra | reflexivity].
  - apply Hok. reflexivity.
  - exists f0. split; [exact Ei |]. split; [exact Ed |].
    destruct (Hpy Ed) as (Hpos & _).
    assert (Hne : (FilterPy.C1 (FilterPy.C f0) * 2 + FilterPy.C0 (FilterPy.C f0))
                  * FilterPy.C0 (FilterPy.C f0) + 1 <> 0) by lra.
    split; [exact Hne |]. exact (proj2 (Hnz Hne)).
Defined.

(** C2 as stated fails on the stand-alone filter of filter.py: with the
    coefficients [C0 = 1], [C1 = -1] the denominator is 0, below 1e-20 in
    magnitude; the filter of test.py replaces the reciprocal by 0 and
    returns, filter.py's [process] divides and raises
    [ZeroDivisionError]. *)
Lemma C2_filter_py_unguarded_counterexample :
  let f := FilterPy.mk FilterPy.P_dump (FilterPy.mk_coeffs 1 (-1) 0 0 0)
             (FilterPy.mk_state 0 0 0 0) in
  Rabs ((FilterPy.C1 (FilterPy.C f) * 2 + FilterPy.C0 (FilterPy.C f))
        * FilterPy.C0 (FilterPy.C f) + 1) < 1e-20
  /\ FilterPy.process f [1; 0] [1; 0] = Raise ZeroDivisionError
  /\ exists self' ol or,
       UnknownFilter.process (FilterPy.as_test_filter f) [1; 0] [1; 0]
       = Ok (self', ol, or).
Proof.
  intros f. split; [| split].
  - unfold f. cbn [FilterPy.C FilterPy.C0 FilterPy.C1].
    replace ((-1 * 2 + 1) * 1 + 1) with 0 by lra. rewrite Rabs_R0. lra.
  - apply FilterPyFacts.filterpy_process_unguarded; reflexivity.
  - destruct (FilterFacts.filt_process_ok (FilterPy.as_test_filter f)
                [1; 0] [1; 0] eq_refl) as (self' & ol & or & E & _).
    exists self', ol, or. exact E.
Qed.

(** C5 (parameter-update continuity): [set_parameters] returns for every
    knob setting; the two filters (coefficients and integrators), the mid
    compressor, the gate, and the three gain stages are the very same
    records afterwards, and so are the envelope, peak and smoothed-gain
    states of the limiter and its other configuration fields; what changes
    is the limiter threshold and ratio and the three stored knob values. *)
Theorem C5_set_parameters_keeps_state
    (self : t) (mid_air high_air trim_db : R) :
  exists self',
    set_parameters self mid_air high_air trim_db = Ok self'
    /\ mid_filter self' = mid_filter self
    /\ mid_compressor self' = mid_compressor self
    /\ high_filter self' = high_filter self
    /\ high_gate self' = high_gate self
    /\ high_gain self' = high_gain self
    /\ trim_gain self' = trim_gain self
    /\ static_pad self' = static_pad self
    /\ UnknownCompressor.rms_state (high_limiter self')
       = UnknownCompressor.rms_state (high_limiter self)
    /\ UnknownCompressor.peak_state (high_limiter self')
       = UnknownCompressor.peak_state (high_limiter self)
    /\ UnknownCompressor.gain_state (high_limiter self')
       = UnknownCompressor.gain_state (high_limiter self)
    /\ UnknownCompressor.sample_rate (high_limiter self')
       = UnknownCompressor.sample_rate (high_limiter self)
    /\ UnknownCompressor.mode (high_limiter self')
       = UnknownCompressor.mode (high_limiter self)
    /\ UnknownCompressor.attack_time (high_limiter self')
       = UnknownCompressor.attack_time (high_limiter self)
    /\ UnknownCompressor.release_time (high_limiter self')
       = UnknownCompressor.release_time (high_limiter self)
    /\ sample_rate self' = sample_rate self
    /\ knob_mid self' = mid_air
    /\ knob_high self' = high_air
    /\ knob_trim self' = trim_db.
Proof.
  destruct (CompositeFacts.set_parameters_ok self mid_air high_air trim_db)
    as (thresh & ratio & E).
  eexists. split; [exact E |]. simpl. repeat split.
Qed.

(** C6, as the code has it: on a well-configured composite whose trim gain
    [10 ** (knob_trim / 20)] is within the doubles, and on a block with
    channels of equal length that is not empty, or is empty while none of
    the boost, trim and pad stages has a ramp to start (each was never
    called, or its target is the stored one up to 1e-15), [process] returns;
    its output is the sample-wise sum [dry + mid + high] of the input and
    the two lane outputs, passed through the trim stage with target
    [10 ** (knob_trim / 20)] and then through the pad stage with the
    constant target [pad_val]; both output channels have the length of the
    input. *)
Theorem C6_process_sum_trim_pad (self : t) (l r : list R) (p trim_lin : R) :
  well_configured self -> length r = length l ->
  Py.math_pow (knob_high self) 0.8 = Ok p ->
  Py.math_pow 10 (knob_trim self / 20) = Ok trim_lin ->
  (1 <= length l)%nat
  \/ ((StereoGainMeter._initialized (high_gain self) = false
       \/ Rabs (1 + 0.8962 * p
                - StereoGainMeter._stored_target_gain (high_gain self))
          < 1e-15)
      /\ (StereoGainMeter._initialized (trim_gain self) = false
          \/ Rabs (trim_lin
                   - StereoGainMeter._stored_target_gain (trim_gain self))
             < 1e-15)
      /\ (StereoGainMeter._initialized (static_pad self) = false
          \/ Rabs (pad_val
                   - StereoGainMeter._stored_target_gain (static_pad self))
             < 1e-15)) ->
  exists mf mc mid_l mid_r hf hg hgain hl high_l high_r
         trim' t_l t_r pad' out_l out_r,
    mid_lane self l r = Ok (mf, mc, mid_l, mid_r)
    /\ high_lane self l r = Ok (hf, hg, hgain, hl, high_l, high_r)
    /\ StereoGainMeter.process_block (trim_gain self)
         (samplewise_sum l mid_l high_l) (samplewise_sum r mid_r high_r)
         0 trim_lin 0 = Ok (trim', t_l, t_r)
    /\ StereoGainMeter.process_block (static_pad self) t_l t_r 0 pad_val 0
       = Ok (pad', out_l, out_r)
    /\ process self l r
       = Ok (mk (sample_rate self) mf mc hf hg hgain hl trim' pad'
               (knob_mid self) (knob_high self) (knob_trim self),
             out_l, out_r)
    /\ length out_l = length l /\ length out_r = length l.
Proof.
  intros Hwc Hlen Ep Et Hblock.
  (* the two lanes *)
  destruct (CompositeFacts.mid_lane_ok self l r Hwc Hlen)
    as (mf & mc & ml & mr & Em & M1 & M2 & _).
  destruct (CompositeFacts.high_lane_returns self l r p Hwc Hlen Ep)
    as (hf & hg & hgain & hl & hleft & hright & Eh & H1 & H2).
  { destruct Hblock as [HN | (Hh & _)]; [left; exact HN | right; exact Hh]. }
  (* the trim target *)
  assert (Eq : Py.truediv (knob_trim self) 20 = Ok (knob_trim self / 20))
    by (apply truediv_ok; lra).
  (* the trim stage on the sample-wise sum *)
  destruct (GainFacts.gain_process_block_returns (trim_gain self)
              (samplewise_sum l ml hleft) (samplewise_sum r mr hright)
              0 trim_lin 0)
    as (trim' & t_l & t_r & Etr & T1 & T2 & _).
  { rewrite CompositeFacts.samplewise_sum_length by lia.
    destruct Hblock as [HN | (_ & Ht & _)]; [left; exact HN | right; exact Ht]. }
  { rewrite !CompositeFacts.samplewise_sum_length by lia. lia. }
  rewrite CompositeFacts.samplewise_sum_length in T1, T2 by lia.
  (* the pad stage on the output of the trim stage *)
  destruct (GainFacts.gain_process_block_returns (static_pad self) t_l t_r
              0 pad_val 0)
    as (pad' & out_l & out_r & Epad & P1 & P2 & _).
  { destruct Hblock as [HN | (_ & _ & Hp)]; [left; lia | right; exact Hp]. }
  { lia. }
  exists mf, mc, ml, mr, hf, hg, hgain, hl, hleft, hright,
         trim', t_l, t_r, pad', out_l, out_r.
  split; [exact Em |]. split; [exact Eh |].
  split; [exact Etr |]. split; [exact Epad |].
  split; [| split; lia].
  eapply CompositeFacts.process_compose; eassumption.
Qed.

Lemma C6_process_sum_trim_pad_witness :
  well_configured (init 44100)
  /\ Py.math_pow (knob_high (init 44100)) 0.8 = Ok 0
  /\ Py.math_pow 10 (knob_trim (init 44100) / 20) = Ok 1
  /\ (exists self' out_l out_r,
        process (init 44100) [0.1; -0.1] [0.1; 0.1] = Ok (self', out_l, out_r)
        /\ length out_l = length [0.1; -0.1]
        /\ length out_r = length [0.1; -0.1])
  /\ exists self' out_l out_r,
       process (init 44100) [] [] = Ok (self', out_l, out_r)
       /\ length out_l = length ([] : list R)
       /\ length out_r = length ([] : list R).
Proof.
  pose proof (ReachFacts.init_well_configured 44100 ltac:(lra)) as Hwc.
  assert (Ep : Py.math_pow (knob_high (init 44100)) 0.8 = Ok 0).
  { simpl knob_high. apply CompressorFacts.math_pow_zero_base. lra. }
  assert (Et : Py.math_pow 10 (knob_trim (init 44100) / 20) = Ok 1).
  { unfold Py.math_pow. simpl knob_trim.
    destruct (Req_dec_T (0 / 20) 0) as [_ | N]; [reflexivity | lra]. }
  split; [exact Hwc |]. split; [exact Ep |]. split; [exact Et |]. split.
  - destruct (C6_process_sum_trim_pad (init 44100) [0.1; -0.1] [0.1; 0.1]
                0 1 Hwc eq_refl Ep Et)
      as (mf & mc & ml & mr & hf & hg & hgain & hl & hleft & hright
          & trim' & t_l & t_r & pad' & out_l & out_r & _ & _ & _ & _
          & E & L1 & L2); [left; simpl; lia |].
    eexists _, out_l, out_r. split; [exact E |]. split; assumption.
  - destruct (C6_process_sum_trim_pad (init 44100) [] [] 0 1 Hwc eq_refl
                Ep Et)
      as (mf & mc & ml & mr & hf & hg & hgain & hl & hleft & hright
          & trim' & t_l & t_r & pad' & out_l & out_r & _ & _ & _ & _
          & E & L1 & L2).
    { right. split; [| split]; left; reflexivity. }
    eexists _, out_l, out_r. split; [exact E |]. split; assumption.
Defined.

(** C6 as stated fails in two ways.  On an empty block: after one block
    processed with the High knob at 0, the knob is set to 1; the next call,
    on an empty block, raises [ZeroDivisionError] in the boost stage of the
    high lane instead of returning empty outputs.  On a trim beyond the
    doubles: with the trim knob at 6200 dB, [process] raises
    [OverflowError] at [math.pow(10, 310.0)] on the block [[0.1]], after
    both lanes returned. *)
Lemma C6_process_raises_counterexample :
  exists s1 out_l out_r s2 s3,
    process (init 44100) [0] [0] = Ok (s1, out_l, out_r)
    /\ set_parameters s1 0 1 0 = Ok s2
    /\ process s2 [] [] = Raise ZeroDivisionError
    /\ set_parameters (init 44100) 0 0 6200 = Ok s3
    /\ process s3 [0.1] [0.1] = Raise OverflowError.
Proof.
  pose proof (ReachFacts.init_well_configured 44100 ltac:(lra)) as Hwc.
  destruct (CompositeFacts.process_returns (init 44100) [0] [0] Hwc)
    as (s1 & out_l & out_r & p & E & Ep & Hi & Hst & Hcm & Hcg & _);
    [simpl; lra | simpl; lia | reflexivity |].
  assert (Hp : p = 0).
  { simpl knob_high in Ep.
    rewrite CompressorFacts.math_pow_zero_base in Ep by lra.
    inversion Ep. reflexivity. }
  subst p.
  destruct (CompositeFacts.set_parameters_ok s1 0 1 0) as (th & ra & E2).
  match type of E2 with _ = Ok ?s => set (s2 := s) in * end.
  destruct (CompositeFacts.set_parameters_ok (init 44100) 0 0 6200)
    as (th3 & ra3 & E3).
  match type of E3 with _ = Ok ?s => set (s3 := s) in * end.
  exists s1, out_l, out_r, s2, s3.
  split; [exact E |]. split; [exact E2 |]. split; [| split; [exact E3 |]].
  - assert (Hsm : 0 < UnknownCompressor.sample_rate (mid_compressor s2)).
    { simpl. destruct Hcm as (Hc & _). rewrite Hc. simpl. lra. }
    assert (Hsg : 0 < UnknownCompressor.sample_rate (high_gate s2)).
    { simpl. destruct Hcg as (Hc & _). rewrite Hc. simpl. lra. }
    unfold process.
    rewrite (ReachFacts.mid_lane_nil s2 Hsm). simpl bind.
    rewrite (ReachFacts.high_lane_nil_raises s2 (exp (0.8 * ln 1)));
      [reflexivity | exact Hsg | | exact Hi |].
    + simpl knob_high. unfold Py.math_pow.
      destruct (Req_dec_T 0.8 0) as [N | _]; [lra |].
      destruct (Rlt_dec 0 1) as [_ | N]; [| lra].
      apply range_checked_ok.
      rewrite ln_1, Rmult_0_r, exp_0, Rabs_R1.
      exact one_lt_overflow_bound.
    + simpl high_gain. rewrite Hst, ln_1, Rmult_0_r, exp_0.
      replace (1 + 0.8962 * 1 - (1 + 0.8962 * 0)) with 0.8962 by lra.
      rewrite Rabs_right; lra.
  - assert (Hwc3 : well_configured s3).
    { exact (ConfigFacts.set_parameters_well_configured (init 44100) s3
               0 0 6200 Hwc ltac:(lra) E3). }
    apply (CompositeFacts.process_trim_raises s3 [0.1] [0.1] OverflowError
             Hwc3); [simpl; lia | reflexivity |].
    unfold s3. cbn [knob_trim].
    apply CompositeFacts.trim_lin_overflow; [lra |].
    assert (H : 310 <= Py.max_float).
    { unfold Py.max_float. apply IZR_le. vm_compute. discriminate. }
    lra.
Qed.

End Composite.

(** * Further properties of the code *)

Module GainMore.
Import StereoGainMeter.

(** Inside the loop the gain of a sample depends on the block-level ramp
    fields only. *)
Lemma calculated_gain_at_frame (s s' : t) (target c : R) :
  _ramp_step s' = _ramp_step s -> _start_gain s' = _start_gain s ->
  calculated_gain_at s' target c = calculated_gain_at s target c.
Proof.
  intros H1 H2. unfold calculated_gain_at. rewrite H1, H2. reflexivity.
Qed.

(** The sample of index [i] leaves the loop multiplied by the gain of ramp
    counter [c + i + 1], on both channels. *)
Lemma gain_sample_loop_nth (ls : list R) :
  forall rs s target c s' ol or i,
    sample_loop s target c ls rs = Ok (s', ol, or) ->
    (i < length ls)%nat ->
    nth i ol 0 = nth i ls 0 * calculated_gain_at s target (c + INR (S i))
    /\ nth i or 0 = nth i rs 0 * calculated_gain_at s target (c + INR (S i)).
Proof.
  induction ls as [| x ls IH]; intros rs s target c s' ol or i H Hi.
  - simpl in Hi. lia.
  - destruct rs as [| y rs]; simpl in H; [discriminate H |].
    apply bind_Ok_inv in H. destruct H as [[[s1 ol1] or1] [Hrec Hret]].
    inversion Hret; subst; clear Hret.
    destruct i as [| i].
    + simpl. split; reflexivity.
    + simpl in Hi.
      destruct (IH _ _ _ _ _ _ _ i Hrec) as [A B]; [lia |].
      simpl nth. rewrite A, B.
      replace (c + 1 + INR (S i)) with (c + INR (S (S i)))
        by (rewrite (S_INR (S i)); ring).
      split; f_equal; apply calculated_gain_at_frame; reflexivity.
Qed.

(** The loop on a right buffer with extra samples: the extra samples are
    returned as they are. *)
Lemma gain_sample_loop_tail (ls : list R) :
  forall rs tail s target c s' ol or,
    length rs = length ls ->
    sample_loop s target c ls rs = Ok (s', ol, or) ->
    sample_loop s target c ls (rs ++ tail) = Ok (s', ol, or ++ tail).
Proof.
  induction ls as [| x ls IH]; intros rs tail s target c s' ol or Hlen H.
  - destruct rs; [| discriminate Hlen]. simpl in *.
    inversion H; subst. reflexivity.
  - destruct rs as [| y rs]; simpl in Hlen; [discriminate Hlen |].
    injection Hlen as Hlen. simpl in H. simpl.
    apply bind_Ok_inv in H. destruct H as [[[s1 ol1] or1] [Hrec Hret]].
    inversion Hret; subst; clear Hret.
    rewrite (IH rs tail _ _ _ _ _ _ Hlen Hrec). reflexivity.
Qed.

(** The loop on a right buffer that is too short raises [IndexError]. *)
Lemma gain_sample_loop_short (ls : list R) :
  forall rs s target c,
    (length rs < length ls)%nat ->
    sample_loop s target c ls rs = Raise IndexError.
Proof.
  induction ls as [| x ls IH]; intros rs s target c Hlen.
  - simpl in Hlen. lia.
  - destruct rs as [| y rs]; [reflexivity |].
    simpl in Hlen. simpl. rewrite IH by lia. reflexivity.
Qed.

(** The energy meters stay non-negative under coefficients in [0, 1]. *)
Lemma gain_sample_loop_meters (ls : list R) :
  forall rs s target c s' ol or,
    0 <= _meter_coeff_l s <= 1 -> 0 <= _meter_coeff_r s <= 1 ->
    0 <= _meter_state_l s -> 0 <= _meter_state_r s ->
    sample_loop s target c ls rs = Ok (s', ol, or) ->
    0 <= _meter_state_l s' /\ 0 <= _meter_state_r s'.
Proof.
  induction ls as [| x ls IH]; intros rs s target c s' ol or Hcl Hcr Hl Hr H.
  - simpl in H. inversion H; subst. split; assumption.
  - destruct rs as [| y rs]; simpl in H; [discriminate H |].
    apply bind_Ok_inv in H. destruct H as [[[s1 ol1] or1] [Hrec Hret]].
    inversion Hret; subst; clear Hret.
    eapply IH; [| | | | exact Hrec]; simpl; try assumption.
    + set (e := x * calculated_gain_at s target (c + 1)
                * (x * calculated_gain_at s target (c + 1))).
      assert (0 <= e) by (unfold e; nra). nra.
    + set (e := y * calculated_gain_at s target (c + 1)
                * (y * calculated_gain_at s target (c + 1))).
      assert (0 <= e) by (unfold e; nra). nra.
Qed.

(** The set-up of a call keeps the meters and their coefficients. *)
Lemma setup_ramp_meters (s s0 : t) (target : R) (n : nat) :
  setup_ramp s target n = Ok s0 ->
  _meter_coeff_l s0 = _meter_coeff_l s /\ _meter_coeff_r s0 = _meter_coeff_r s
  /\ _meter_state_l s0 = _meter_state_l s
  /\ _meter_state_r s0 = _meter_state_r s.
Proof.
  unfold setup_ramp. intros H.
  apply bind_Ok_inv in H. destruct H as (s1 & E & H).
  inversion H; subst; clear H.
  destruct (negb (_initialized s)).
  - inversion E; subst. repeat split.
  - destruct (Rle_dec 1e-15 _).
    + apply bind_Ok_inv in E. destruct E as (q & _ & E).
      inversion E; subst. repeat split.
    + inversion E; subst. repeat split.
Qed.

(** What the set-up leaves in the block-level fields. *)
Lemma setup_ramp_post (s s0 : t) (target : R) (n : nat) :
  setup_ramp s target n = Ok s0 ->
  _initialized s0 = true
  /\ _stored_target_gain s0 = target
  /\ (_ramp_step s0 = 0 /\ _start_gain s0 = target
      \/ _initialized s = true
         /\ 1e-15 <= Rabs (target - _stored_target_gain s)
         /\ n <> 0%nat
         /\ _ramp_step s0 = 1 / INR n
         /\ _start_gain s0 = _stored_target_gain s).
Proof.
  unfold setup_ramp. intros H.
  apply bind_Ok_inv in H. destruct H as (s1 & E & H).
  inversion H; subst; clear H.
  destruct (_initialized s) eqn:Hi; simpl negb in E; cbv iota in E.
  - destruct (Rle_dec 1e-15 _) as [Hd | Hd].
    + unfold Py.truediv in E.
      destruct (Req_dec_T (INR n) 0) as [E0 | N0]; [discriminate E |].
      simpl bind in E. inversion E; subst; clear E. simpl.
      split; [exact Hi |]. split; [reflexivity |]. right.
      repeat split; try assumption.
      intros En. apply N0. rewrite En. reflexivity.
    + inversion E; subst; clear E. simpl.
      split; [exact Hi |]. split; [reflexivity |]. left. split; reflexivity.
  - inversion E; subst; clear E. simpl.
    split; [reflexivity |]. split; [reflexivity |]. left. split; reflexivity.
Qed.

End GainMore.

Section RampedGainStageMore.
Import StereoGainMeter.

(** X1 (the ramp is the linear interpolation): on an initialised stage and a
    block of [N >= 1] samples whose target [G1] moved by at least 1e-15 from
    the stored target [G0], the sample of index [i] of both channels is
    multiplied by [G0 + (i + 1) / N * (G1 - G0)], a gain between [G0] and
    [G1]. *)
Theorem X1_ramp_is_linear
    (s : t) (ls rs : list R) (mode : Z) (vn vb : R) :
  _initialized s = true ->
  (1 <= length ls)%nat ->
  length rs = length ls ->
  1e-15 <= Rabs (target_gain_of mode vn vb - _stored_target_gain s) ->
  exists s' ol or,
    process_block s ls rs mode vn vb = Ok (s', ol, or)
    /\ forall i, (i < length ls)%nat ->
         let g := _stored_target_gain s
                  + INR (S i) / INR (length ls)
                    * (target_gain_of mode vn vb - _stored_target_gain s) in
         nth i ol 0 = nth i ls 0 * g
         /\ nth i or 0 = nth i rs 0 * g
         /\ Rmin (_stored_target_gain s) (target_gain_of mode vn vb) <= g
         /\ g <= Rmax (_stored_target_gain s) (target_gain_of mode vn vb).
Proof.
  intros Hinit HN Hlen Hdiff.
  pose proof (GainFacts.INR_length_nonzero ls HN) as HNR.
  set (G1 := target_gain_of mode vn vb) in *.
  set (G0 := _stored_target_gain s) in *.
  unfold process_block, setup_ramp. fold G1. rewrite Hinit. simpl negb.
  cbv iota. fold G0.
  destruct (Rle_dec 1e-15 _) as [_ | Hn]; [| contradiction].
  rewrite (truediv_ok 1 _ HNR). simpl bind.
  match goal with
  | |- context [sample_loop ?s0 G1 0 ls rs] =>
      set (s0' := s0);
      destruct (GainFacts.gain_sample_loop_ok ls rs s0' G1 0 Hlen)
        as (s1 & ol & or & E)
  end.
  exists s1, ol, or. split; [exact E |].
  intros i Hi. cbv zeta.
  set (g := G0 + INR (S i) / INR (length ls) * (G1 - G0)).
  destruct (GainMore.gain_sample_loop_nth ls rs s0' G1 0 s1 ol or i E Hi)
    as [A B].
  assert (Hpos : 0 < INR (length ls)) by (apply lt_0_INR; lia).
  assert (Hstep : 0 < 1 / INR (length ls))
    by (apply Rdiv_lt_0_compat; lra).
  assert (Hg : calculated_gain_at s0' G1 (0 + INR (S i)) = g).
  { unfold calculated_gain_at, s0'. simpl _ramp_step. simpl _start_gain.
    fold G0.
    destruct (Rlt_dec 0 (1 / INR (length ls))) as [_ | Hn]; [| contradiction].
    unfold g. field. exact HNR. }
  rewrite Hg in A, B. split; [exact A |]. split; [exact B |].
  assert (Ht : 0 <= INR (S i) / INR (length ls) <= 1).
  { assert (Hi0 : 0 <= INR (S i)) by apply pos_INR.
    assert (Hle : INR (S i) <= INR (length ls)) by (apply le_INR; lia).
    assert (Hinv : 0 < / INR (length ls)) by (apply Rinv_0_lt_compat; exact Hpos).
    unfold Rdiv. split; [nra |].
    replace 1 with (INR (length ls) * / INR (length ls)) by (field; exact HNR).
    nra. }
  set (t := INR (S i) / INR (length ls)) in *.
  unfold g. unfold Rmin, Rmax. destruct (Rle_dec G0 G1); split; nra.
Qed.

Lemma X1_ramp_is_linear_witness :
  let s := mk true 1 1 1 0 0.1 0.1 0 0 in
  _initialized s = true
  /\ (1 <= length [4; 4]%R)%nat
  /\ length [8; 8] = length [4; 4]
  /\ 1e-15 <= Rabs (target_gain_of 0 2 0 - _stored_target_gain s)
  /\ exists s' ol or,
       process_block s [4; 4] [8; 8] 0 2 0 = Ok (s', ol, or)
       /\ nth 0 ol 0 = 4 * (1 + INR 1 / INR 2 * (2 - 1))
       /\ nth 1 or 0 = 8 * (1 + INR 2 / INR 2 * (2 - 1)).
Proof.
  intros s.
  assert (Hd : 1e-15 <= Rabs (target_gain_of 0 2 0 - _stored_target_gain s)).
  { unfold target_gain_of; simpl.
    replace (2 - 1) with 1 by ring. rewrite Rabs_R1. lra. }
  split; [reflexivity |]. split; [simpl; lia |]. split; [reflexivity |].
  split; [exact Hd |].
  destruct (X1_ramp_is_linear s [4; 4] [8; 8] 0 2 0 eq_refl
              ltac:(simpl; lia) eq_refl Hd) as (s' & ol & or & E & H).
  exists s', ol, or. split; [exact E |]. split.
  - exact (proj1 (H 0%nat ltac:(simpl; lia))).
  - exact (proj1 (proj2 (H 1%nat ltac:(simpl; lia)))).
Defined.

(** X2 (first call): a stage that was never called snaps to the target: on
    buffers of equal length, empty ones included, the call returns, every
    sample of both channels is multiplied by the target itself, and the
    stage is left initialised with start, stored and current gain equal to
    the target and a ramp step of 0. *)
Theorem X2_first_call_snaps
    (s : t) (ls rs : list R) (mode : Z) (vn vb : R) :
  _initialized s = false ->
  length rs = length ls ->
  exists s',
    process_block s ls rs mode vn vb
    = Ok (s', map (fun x => x * target_gain_of mode vn vb) ls,
              map (fun x => x * target_gain_of mode vn vb) rs)
    /\ _initialized s' = true
    /\ _stored_target_gain s' = target_gain_of mode vn vb
    /\ _start_gain s' = target_gain_of mode vn vb
    /\ _current_gain s' = target_gain_of mode vn vb
    /\ _ramp_step s' = 0.
Proof.
  intros Hinit Hlen.
  unfold process_block, setup_ramp. rewrite Hinit. simpl negb. cbv iota.
  simpl bind.
  match goal with
  | |- context [sample_loop ?s0 ?tg ?c ls rs] =>
      set (s0' := s0);
      destruct (GainFacts.gain_sample_loop_no_ramp ls rs s0' tg c) as (s' & E);
      [simpl; lra | exact Hlen |]
  end.
  exists s'. split; [exact E |].
  pose proof (GainFacts.gain_sample_loop_frame _ _ _ _ _ _ _ _ E)
    as (Hi & Hst & Hsg & Hrs & _).
  rewrite Hi, Hst, Hsg, Hrs. unfold s0'. simpl.
  repeat split.
  destruct ls as [| x ls].
  - apply length_zero_iff_nil in Hlen. subst rs. simpl in E.
    inversion E. reflexivity.
  - assert (Hne : x :: ls <> []) by discriminate.
    rewrite (GainFacts.gain_sample_loop_current_gain _ _ _ _ _ _ _ _ Hne E).
    unfold calculated_gain_at, s0'. simpl _ramp_step.
    destruct (Rlt_dec 0 0) as [N | _]; [lra | reflexivity].
Qed.

Lemma X2_first_call_snaps_witness :
  _initialized init_default = false
  /\ length [3; 4] = length [1; 2]
  /\ exists s',
       process_block init_default [1; 2] [3; 4] 1 0 0.75
       = Ok (s', map (fun x => x * target_gain_of 1 0 0.75) [1; 2],
                 map (fun x => x * target_gain_of 1 0 0.75) [3; 4])
       /\ _current_gain s' = target_gain_of 1 0 0.75.
Proof.
  split; [reflexivity |]. split; [reflexivity |].
  destruct (X2_first_call_snaps init_default [1; 2] [3; 4] 1 0 0.75
              eq_refl eq_refl) as (s' & E & _ & _ & _ & Hc & _).
  exists s'. split; [exact E | exact Hc].
Defined.

(** X3 (meters): with meter coefficients in [0, 1] the two energy meters,
    as [get_meter_levels] reads them, are non-negative after every call
    that returns, provided they were before (they are 0 after
    construction). *)
Theorem X3_meters_nonneg
    (s : t) (ls rs : list R) (mode : Z) (vn vb : R) s' ol or :
  0 <= _meter_coeff_l s <= 1 -> 0 <= _meter_coeff_r s <= 1 ->
  0 <= fst (get_meter_levels s) -> 0 <= snd (get_meter_levels s) ->
  process_block s ls rs mode vn vb = Ok (s', ol, or) ->
  0 <= fst (get_meter_levels s') /\ 0 <= snd (get_meter_levels s').
Proof.
  intros Hcl Hcr Hl Hr H. unfold get_meter_levels in *. simpl in *.
  unfold process_block in H.
  apply bind_Ok_inv in H. destruct H as (s0 & E0 & H).
  destruct (GainMore.setup_ramp_meters _ _ _ _ E0) as (A & B & C & D).
  eapply GainMore.gain_sample_loop_meters; [| | | | exact H];
    rewrite ?A, ?B, ?C, ?D; assumption.
Qed.

Lemma X3_meters_nonneg_witness :
  0 <= _meter_coeff_l init_default <= 1
  /\ 0 <= _meter_coeff_r init_default <= 1
  /\ 0 <= fst (get_meter_levels init_default)
  /\ 0 <= snd (get_meter_levels init_default)
  /\ exists s' ol or,
       process_block init_default [1; -2] [-3; 4] 0 0.5 0 = Ok (s', ol, or)
       /\ 0 <= fst (get_meter_levels s') /\ 0 <= snd (get_meter_levels s').
Proof.
  assert (H1 : 0 <= _meter_coeff_l init_default <= 1) by (simpl; lra).
  assert (H2 : 0 <= _meter_coeff_r init_default <= 1) by (simpl; lra).
  assert (H3 : 0 <= fst (get_meter_levels init_default)) by (simpl; lra).
  assert (H4 : 0 <= snd (get_meter_levels init_default)) by (simpl; lra).
  split; [exact H1 |]. split; [exact H2 |]. split; [exact H3 |].
  split; [exact H4 |].
  destruct (GainFacts.gain_process_block_ok init_default [1; -2] [-3; 4]
              0 0.5 0) as (s' & ol & or & E & _);
    [simpl; lia | reflexivity |].
  exists s', ol, or. split; [exact E |].
  exact (X3_meters_nonneg init_default _ _ _ _ _ s' ol or H1 H2 H3 H4 E).
Defined.

(** X4 (state after a call): every call that returns leaves the stage
    initialised with the target stored, both buffers at their lengths, and
    a ramp step that is either 0 or [1 / block_size], hence in
    [[0, 1 / block_size]]. *)
Theorem X4_state_after_call
    (s : t) (ls rs : list R) (mode : Z) (vn vb : R) s' ol or :
  process_block s ls rs mode vn vb = Ok (s', ol, or) ->
  _initialized s' = true
  /\ _stored_target_gain s' = target_gain_of mode vn vb
  /\ (_ramp_step s' = 0
      \/ ls <> [] /\ _ramp_step s' = 1 / INR (length ls))
  /\ 0 <= _ramp_step s'
  /\ length ol = length ls /\ length or = length rs.
Proof.
  intros H. unfold process_block in H.
  apply bind_Ok_inv in H. destruct H as (s0 & E0 & H).
  destruct (GainMore.setup_ramp_post _ _ _ _ E0) as (Hi & Hst & Hr).
  pose proof (GainFacts.gain_sample_loop_frame _ _ _ _ _ _ _ _ H)
    as (Fi & Fst & _ & Frs & _).
  pose proof (GainFacts.gain_sample_loop_lengths _ _ _ _ _ _ _ _ H)
    as (L1 & L2).
  rewrite Fi, Fst, Frs.
  split; [exact Hi |]. split; [exact Hst |].
  destruct Hr as [(Hz & _) | (_ & _ & Hn & Hs & _)].
  - split; [left; exact Hz |]. split; [lra |]. split; assumption.
  - split.
    + right. split; [| exact Hs]. intros E. apply Hn. rewrite E. reflexivity.
    + split; [| split; assumption]. rewrite Hs.
      left. apply Rdiv_lt_0_compat; [lra |]. apply lt_0_INR. lia.
Qed.

Lemma X4_state_after_call_witness :
  exists s' ol or,
    process_block init_default [1; 2] [3; 4] 0 0.5 0 = Ok (s', ol, or)
    /\ _initialized s' = true
    /\ _stored_target_gain s' = target_gain_of 0 0.5 0.
Proof.
  destruct (GainFacts.gain_process_block_ok init_default [1; 2] [3; 4]
              0 0.5 0) as (s' & ol & or & E & _);
    [simpl; lia | reflexivity |].
  exists s', ol, or. split; [exact E |].
  destruct (X4_state_after_call _ _ _ _ _ _ _ _ _ E) as (A & B & _).
  split; assumption.
Defined.

(** X5 (buffers of different lengths): the loop runs over the left buffer.
    A right buffer that is shorter makes the call raise [IndexError]; a
    right buffer with extra samples gets its first [len(left)] samples
    scaled and keeps the extra ones as they are, with the same state as on
    the truncated buffer. *)
Theorem X5_buffer_lengths
    (s : t) (ls rs tail : list R) (mode : Z) (vn vb : R) :
  ((length rs < length ls)%nat ->
   process_block s ls rs mode vn vb = Raise IndexError)
  /\ (length rs = length ls ->
      forall s' ol or,
        process_block s ls rs mode vn vb = Ok (s', ol, or) ->
        process_block s ls (rs ++ tail) mode vn vb = Ok (s', ol, or ++ tail)).
Proof.
  split.
  - intros Hlen. unfold process_block.
    assert (HN : (1 <= length ls)%nat) by lia.
    assert (Hsetup : exists s0,
               setup_ramp s (target_gain_of mode vn vb) (length ls) = Ok s0).
    { unfold setup_ramp. destruct (negb (_initialized s)).
      - simpl bind. eauto.
      - destruct (Rle_dec 1e-15 _).
        + rewrite (truediv_ok 1 _ (GainFacts.INR_length_nonzero ls HN)).
          simpl bind. eauto.
        + simpl bind. eauto. }
    destruct Hsetup as (s0 & E0). rewrite E0. simpl bind.
    apply GainMore.gain_sample_loop_short. exact Hlen.
  - intros Hlen s' ol or H. unfold process_block in *.
    apply bind_Ok_inv in H. destruct H as (s0 & E0 & H).
    rewrite E0. simpl bind.
    apply GainMore.gain_sample_loop_tail; assumption.
Qed.

Lemma X5_buffer_lengths_witness :
  (length [1] < length [1; 2]%R)%nat
  /\ process_block init_default [1; 2] [1] 0 0.5 0 = Raise IndexError.
Proof.
  assert (H : (length [1]%R < length [1; 2]%R)%nat) by (simpl; lia).
  split; [exact H |].
  exact (proj1 (X5_buffer_lengths init_default [1; 2] [1] [] 0 0.5 0) H).
Defined.

End RampedGainStageMore.

Module CompressorMore.
Import UnknownCompressor CompressorFacts EnvelopeFacts.

(** With a zero sample rate every positive time constant divides by zero. *)
Lemma calc_coeff_zero_rate (s : t) (time_seconds : R) :
  sample_rate s = 0 ->
  _calc_coeff s time_seconds = Ok 1
  \/ _calc_coeff s time_seconds = Raise ZeroDivisionError.
Proof.
  intros Hsr. unfold _calc_coeff.
  destruct (Rle_dec time_seconds 0); [left; reflexivity | right].
  rewrite Hsr, Rmult_0_r, truediv_zero. reflexivity.
Qed.

Lemma calc_coeff_zero_rate_positive (s : t) (time_seconds : R) :
  sample_rate s = 0 -> 0 < time_seconds ->
  _calc_coeff s time_seconds = Raise ZeroDivisionError.
Proof.
  intros Hsr Ht. unfold _calc_coeff.
  destruct (Rle_dec time_seconds 0); [lra |].
  rewrite Hsr, Rmult_0_r, truediv_zero. reflexivity.
Qed.

(** The target gain never exceeds 1 and is never negative. *)
Lemma gain_computer_unit (s : t) (slope env : R) :
  0 <= threshold s -> 0 <= slope ->
  exists g, gain_computer s slope env = Ok g /\ 0 <= g <= 1.
Proof.
  intros Hth Hsl. unfold gain_computer.
  destruct (Rlt_dec (threshold s) env) as [Hlt | _].
  - set (safe := if Rlt_dec (EPSILON s) env then env else EPSILON s).
    assert (Hsafe : threshold s < safe /\ 0 < safe).
    { unfold safe. destruct (Rlt_dec (EPSILON s) env); lra. }
    rewrite truediv_ok by lra. simpl bind.
    apply math_pow_unit; [| exact Hsl].
    destruct Hsafe as (H1 & H2).
    assert (Hinv : 0 < / safe) by (apply Rinv_0_lt_compat; exact H2).
    unfold Rdiv. split; [nra |].
    replace 1 with (safe * / safe) by (field; lra). nra.
  - exists 1. split; [reflexivity | lra].
Qed.

(** One sample keeps the smoothed gain in [0, 1] and does not raise the
    magnitude of the samples. *)
Lemma process_sample_unit (s : t) (k : coeffs) (slope l r : R) :
  0 <= threshold s -> 0 <= slope -> 0 <= gain_smooth_coeff k <= 1 ->
  0 <= gain_state s <= 1 ->
  exists s1 ol or,
    process_sample s k slope l r = Ok (s1, ol, or)
    /\ same_config s s1 /\ 0 <= gain_state s1 <= 1
    /\ Rabs ol <= Rabs l /\ Rabs or <= Rabs r.
Proof.
  intros Hth Hsl Hc Hg. unfold process_sample.
  destruct (detector_ok s k l r) as (s0 & env & E & Hcfg & Hgs).
  rewrite E. simpl bind.
  pose proof Hcfg as (_ & _ & Hth0 & _).
  destruct (gain_computer_unit s0 slope env) as (g & Eg & Hgr);
    [rewrite Hth0; exact Hth | exact Hsl |].
  rewrite Eg. simpl bind.
  eexists _, _, _. split; [reflexivity |]. simpl gain_state.
  rewrite Hgs.
  set (g' := gain_state s + (g - gain_state s) * gain_smooth_coeff k).
  assert (Hg' : 0 <= g' <= 1) by (unfold g'; nra).
  split.
  { destruct Hcfg as (A1 & A2 & A3 & A4 & A5 & A6 & A7).
    repeat split; assumption. }
  split; [exact Hg' |].
  rewrite !Rabs_mult, (Rabs_right g') by lra.
  pose proof (Rabs_pos l). pose proof (Rabs_pos r). split; nra.
Qed.

Lemma sample_loop_unit (ls : list R) :
  forall rs s k slope,
    0 <= threshold s -> 0 <= slope -> 0 <= gain_smooth_coeff k <= 1 ->
    0 <= gain_state s <= 1 ->
    length rs = length ls ->
    exists s' ol or,
      sample_loop s k slope ls rs = Ok (s', ol, or)
      /\ 0 <= gain_state s' <= 1
      /\ Forall2 (fun x o => Rabs o <= Rabs x) ls ol
      /\ Forall2 (fun x o => Rabs o <= Rabs x) rs or.
Proof.
  induction ls as [| x ls IH]; intros rs s k slope Hth Hsl Hc Hg Hlen.
  - destruct rs; [| discriminate Hlen]. simpl. eexists _, _, _.
    split; [reflexivity |]. split; [exact Hg |]. split; constructor.
  - destruct rs as [| y rs]; simpl in Hlen; [discriminate Hlen |].
    injection Hlen as Hlen. simpl.
    destruct (process_sample_unit s k slope x y Hth Hsl Hc Hg)
      as (s1 & ol & or & E & Hcfg & Hg1 & Al & Ar).
    rewrite E. simpl bind.
    pose proof Hcfg as (_ & _ & Hth1 & _).
    destruct (IH rs s1 k slope) as (s' & ol' & or' & E' & Hg' & Fl & Fr);
      [rewrite Hth1; exact Hth | exact Hsl | exact Hc | exact Hg1 | exact Hlen |].
    rewrite E'. simpl bind. eexists _, _, _.
    split; [reflexivity |]. split; [exact Hg' |].
    split; constructor; assumption.
Qed.

(** One sample of a unit that asks for no reduction ([slope = 0]) and whose
    smoothed gain is 1 returns the samples as they are. *)
Lemma process_sample_no_reduction (s : t) (k : coeffs) (l r : R) :
  0 < EPSILON s -> gain_state s = 1 ->
  exists s1,
    process_sample s k 0 l r = Ok (s1, l, r)
    /\ same_config s s1 /\ gain_state s1 = 1.
Proof.
  intros Heps Hg. unfold process_sample.
  destruct (detector_ok s k l r) as (s0 & env & E & Hcfg & Hgs).
  rewrite E. simpl bind.
  pose proof Hcfg as (_ & _ & _ & _ & _ & _ & He).
  assert (Eg : gain_computer s0 0 env = Ok 1).
  { unfold gain_computer.
    destruct (Rlt_dec (threshold s0) env) as [Hlt | _]; [| reflexivity].
    set (safe := if Rlt_dec (EPSILON s0) env then env else EPSILON s0).
    assert (Hsafe : 0 < safe).
    { unfold safe. rewrite He. destruct (Rlt_dec (EPSILON s) env); lra. }
    rewrite truediv_ok by lra. simpl bind. unfold Py.math_pow.
    destruct (Req_dec_T 0 0) as [_ | N]; [reflexivity | contradiction N; reflexivity]. }
  rewrite Eg. simpl bind. rewrite Hgs, Hg.
  replace (1 + (1 - 1) * gain_smooth_coeff k) with 1 by ring.
  rewrite !Rmult_1_r.
  eexists. split; [reflexivity |]. split; [| reflexivity].
  destruct Hcfg as (A1 & A2 & A3 & A4 & A5 & A6 & A7).
  repeat split; assumption.
Qed.

Lemma sample_loop_no_reduction (ls : list R) :
  forall rs s k,
    0 < EPSILON s -> gain_state s = 1 -> length rs = length ls ->
    exists s', sample_loop s k 0 ls rs = Ok (s', ls, rs)
               /\ gain_state s' = 1.
Proof.
  induction ls as [| x ls IH]; intros rs s k Heps Hg Hlen.
  - destruct rs; [| discriminate Hlen]. simpl. eauto.
  - destruct rs as [| y rs]; simpl in Hlen; [discriminate Hlen |].
    injection Hlen as Hlen. simpl.
    destruct (process_sample_no_reduction s k x y Heps Hg)
      as (s1 & E & Hcfg & Hg1).
    rewrite E. simpl bind.
    pose proof Hcfg as (_ & _ & _ & _ & _ & _ & He).
    destruct (IH rs s1 k) as (s' & E' & Hg'); [rewrite He; exact Heps
      | exact Hg1 | exact Hlen |].
    rewrite E'. simpl bind. eauto.
Qed.

(** One Peak-mode sample at or below the threshold, from a peak state at or
    below the threshold and a smoothed gain of 1: nothing is changed. *)
Lemma process_sample_below_threshold (s : t) (k : coeffs) (slope l r : R) :
  mode s <> 0%Z ->
  0 <= attack_coeff k <= 1 -> 0 <= release_coeff k <= 1 ->
  gain_state s = 1 -> peak_state s <= threshold s ->
  Rabs l <= threshold s -> Rabs r <= threshold s ->
  exists s1,
    process_sample s k slope l r = Ok (s1, l, r)
    /\ same_config s s1 /\ gain_state s1 = 1
    /\ peak_state s1 <= threshold s.
Proof.
  intros Hm Ha Hr Hg Hp Hl Hrr. unfold process_sample.
  rewrite (detector_peak s k l r Hm). cbv zeta. simpl bind.
  set (level := input_level_of l r).
  assert (Hlev : level <= threshold s).
  { unfold level, input_level_of. destruct (Rlt_dec _ _); assumption. }
  set (coeff := if Rlt_dec (peak_state s) level then attack_coeff k
                else release_coeff k).
  assert (Hc : 0 <= coeff <= 1) by (unfold coeff; destruct (Rlt_dec _ _); assumption).
  set (peak := peak_state s + (level - peak_state s) * coeff).
  assert (Hpk : peak <= threshold s) by (unfold peak; nra).
  unfold gain_computer. simpl threshold.
  destruct (Rlt_dec (threshold s) peak) as [N | _]; [lra |].
  simpl bind. simpl gain_state. rewrite Hg.
  replace (1 + (1 - 1) * gain_smooth_coeff k) with 1 by ring.
  rewrite !Rmult_1_r.
  eexists. split; [reflexivity |]. simpl.
  split; [repeat split |]. split; [reflexivity | exact Hpk].
Qed.

Lemma sample_loop_below_threshold (ls : list R) :
  forall rs s k slope,
    mode s <> 0%Z ->
    0 <= attack_coeff k <= 1 -> 0 <= release_coeff k <= 1 ->
    gain_state s = 1 -> peak_state s <= threshold s ->
    Forall (fun x => Rabs x <= threshold s) ls ->
    Forall (fun x => Rabs x <= threshold s) rs ->
    length rs = length ls ->
    exists s', sample_loop s k slope ls rs = Ok (s', ls, rs)
               /\ gain_state s' = 1 /\ peak_state s' <= threshold s.
Proof.
  induction ls as [| x ls IH]; intros rs s k slope Hm Ha Hr Hg Hp Fl Fr Hlen.
  - destruct rs; [| discriminate Hlen]. simpl. eauto.
  - destruct rs as [| y rs]; simpl in Hlen; [discriminate Hlen |].
    injection Hlen as Hlen. simpl.
    inversion Fl as [| x0 l0 Hx Fl']; subst.
    inversion Fr as [| y0 r0 Hy Fr']; subst.
    destruct (process_sample_below_threshold s k slope x y Hm Ha Hr Hg Hp Hx Hy)
      as (s1 & E & Hcfg & Hg1 & Hp1).
    rewrite E. simpl bind.
    pose proof Hcfg as (_ & Hm1 & Hth1 & _).
    destruct (IH rs s1 k slope) as (s' & E' & Hg' & Hp');
      try assumption; try (rewrite Hth1; assumption);
      try (rewrite Hm1; assumption).
    rewrite E'. simpl bind. rewrite Hth1 in Hp'. eauto.
Qed.

(** A right channel that is too short makes the loop raise [IndexError], a
    right channel with extra samples gets zeros in their place. *)
Lemma comp_sample_loop_short (ls : list R) :
  forall rs s k slope,
    0 <= threshold s -> 0 <= slope ->
    (length rs < length ls)%nat ->
    sample_loop s k slope ls rs = Raise IndexError.
Proof.
  induction ls as [| x ls IH]; intros rs s k slope Hth Hsl Hlen.
  - simpl in Hlen. lia.
  - destruct rs as [| y rs]; [reflexivity |].
    simpl in Hlen. simpl.
    destruct (process_sample_ok s k slope x y Hth Hsl)
      as (s1 & ol & or & E & Hc).
    rewrite E. simpl bind.
    pose proof Hc as (_ & _ & Hth1 & _).
    rewrite IH; [reflexivity | rewrite Hth1; exact Hth | exact Hsl | lia].
Qed.

Lemma comp_sample_loop_tail (ls : list R) :
  forall rs tail s k slope s' ol or,
    length rs = length ls ->
    sample_loop s k slope ls rs = Ok (s', ol, or) ->
    sample_loop s k slope ls (rs ++ tail)
    = Ok (s', ol, or ++ map (fun _ => 0) tail).
Proof.
  induction ls as [| x ls IH]; intros rs tail s k slope s' ol or Hlen H.
  - destruct rs; [| discriminate Hlen]. simpl in *.
    inversion H; subst. reflexivity.
  - destruct rs as [| y rs]; simpl in Hlen; [discriminate Hlen |].
    injection Hlen as Hlen. simpl in H. simpl.
    apply bind_Ok_inv in H. destruct H as (((s1 & o1) & o2) & E & H).
    apply bind_Ok_inv in H. destruct H as (((s2 & o3) & o4) & E2 & H).
    inversion H; subst; clear H.
    rewrite E. simpl bind.
    rewrite (IH rs tail _ _ _ _ _ _ Hlen E2). reflexivity.
Qed.

(** A float strictly between 0 and 1 is no integer. *)
Lemma is_integer_fraction (y : R) : 0 < y < 1 -> Py.is_integer y = false.
Proof.
  intros Hy. unfold Py.is_integer.
  destruct (Req_dec_T y (IZR (Int_part y))) as [E | _]; [| reflexivity].
  exfalso.
  assert (H0 : (0 < Int_part y)%Z) by (apply lt_IZR; lra).
  assert (H1 : (Int_part y < 1)%Z) by (apply lt_IZR; lra).
  lia.
Qed.

(** [math.pow] of a negative base with a fractional exponent raises. *)
Lemma math_pow_negative_base (x y : R) :
  x < 0 -> 0 < y < 1 -> Py.math_pow x y = Raise ValueError.
Proof.
  intros Hx Hy. unfold Py.math_pow.
  destruct (Req_dec_T y 0) as [E | _]; [lra |].
  destruct (Rlt_dec 0 x) as [H | _]; [lra |].
  destruct (Req_dec_T x 0) as [E | _]; [lra |].
  rewrite (is_integer_fraction y Hy). reflexivity.
Qed.

End CompressorMore.

Section DynamicsUnitMore.
Import UnknownCompressor CompressorFacts EnvelopeFacts CompressorMore.

(** X6 (one-pole coefficients): with a positive sample rate [_calc_coeff]
    returns a coefficient in (0, 1] for every time constant, exactly 1 for
    a time constant that is zero or negative, below 1 for a positive one,
    and a longer time constant never gives a larger coefficient. *)
Theorem X6_calc_coeff_range_monotone (s : t) (t1 t2 : R) :
  0 < sample_rate s ->
  exists c1 c2,
    _calc_coeff s t1 = Ok c1 /\ _calc_coeff s t2 = Ok c2
    /\ 0 < c1 <= 1
    /\ (t1 <= 0 -> c1 = 1)
    /\ (0 < t1 -> c1 < 1)
    /\ (t1 <= t2 -> c2 <= c1).
Proof.
  intros Hsr.
  destruct (calc_coeff_range s t1 Hsr) as (c1 & E1 & H1).
  destruct (calc_coeff_range s t2 Hsr) as (c2 & E2 & H2).
  exists c1, c2. split; [exact E1 |]. split; [exact E2 |].
  split; [exact H1 |].
  assert (Hneg : forall tt, 0 < tt -> -1 / (tt * sample_rate s) < 0).
  { intros tt Ht. assert (Hp : 0 < tt * sample_rate s) by nra.
    apply Rinv_0_lt_compat in Hp. unfold Rdiv. nra. }
  split; [| split].
  - intros Hle. unfold _calc_coeff in E1.
    destruct (Rle_dec t1 0) as [_ | N]; [| contradiction].
    inversion E1. reflexivity.
  - intros Hpos. rewrite (calc_coeff_value s t1 Hsr Hpos) in E1.
    inversion E1. pose proof (exp_pos (-1 / (t1 * sample_rate s))). lra.
  - intros Hle.
    destruct (Rle_dec t1 0) as [Ht1 | Ht1].
    + unfold _calc_coeff in E1.
      destruct (Rle_dec t1 0) as [_ | N]; [| contradiction].
      inversion E1. lra.
    + assert (Hp1 : 0 < t1) by lra. assert (Hp2 : 0 < t2) by lra.
      rewrite (calc_coeff_value s t1 Hsr Hp1) in E1.
      rewrite (calc_coeff_value s t2 Hsr Hp2) in E2.
      inversion E1. inversion E2.
      assert (Harg : -1 / (t1 * sample_rate s) <= -1 / (t2 * sample_rate s)).
      { assert (A : 0 < t1 * sample_rate s) by nra.
        assert (B : t1 * sample_rate s <= t2 * sample_rate s) by nra.
        assert (C : / (t2 * sample_rate s) <= / (t1 * sample_rate s))
          by (apply Rinv_le_contravar; assumption).
        unfold Rdiv. lra. }
      destruct Harg as [Hlt | Heq].
      * apply exp_increasing in Hlt. lra.
      * rewrite Heq. lra.
Qed.

Lemma X6_calc_coeff_range_monotone_witness :
  0 < sample_rate (init 44100)
  /\ exists c1 c2,
       _calc_coeff (init 44100) 0.002 = Ok c1
       /\ _calc_coeff (init 44100) 0.100 = Ok c2
       /\ 0 < c1 <= 1 /\ c1 < 1 /\ c2 <= c1.
Proof.
  assert (H : 0 < sample_rate (init 44100)) by (simpl; lra).
  split; [exact H |].
  destruct (X6_calc_coeff_range_monotone (init 44100) 0.002 0.100 H)
    as (c1 & c2 & E1 & E2 & Hr & _ & Hlt & Hmono).
  exists c1, c2. split; [exact E1 |]. split; [exact E2 |].
  split; [exact Hr |]. split; [apply Hlt; lra | apply Hmono; lra].
Defined.

(** X7 (zero sample rate): a unit whose sample rate is 0 raises
    [ZeroDivisionError] on every call, whatever the block (the empty one
    included): the RMS coefficient divides by [0.050 * 0]. *)
Theorem X7_zero_sample_rate_raises (s : t) (ls rs : list R) :
  sample_rate s = 0 ->
  process_block s ls rs = Raise ZeroDivisionError.
Proof.
  intros Hsr. unfold process_block, block_coeffs.
  destruct (calc_coeff_zero_rate s (attack_time s) Hsr) as [E | E];
    rewrite E; [simpl bind | reflexivity].
  destruct (calc_coeff_zero_rate s (release_time s) Hsr) as [E' | E'];
    rewrite E'; [simpl bind | reflexivity].
  rewrite (calc_coeff_zero_rate_positive s 0.050 Hsr) by lra. reflexivity.
Qed.

Lemma X7_zero_sample_rate_raises_witness :
  sample_rate (init 0) = 0
  /\ process_block (init 0) [] [] = Raise ZeroDivisionError.
Proof.
  split; [reflexivity |].
  exact (X7_zero_sample_rate_raises (init 0) [] [] eq_refl).
Defined.

(** X8 (no amplification): a unit with a positive sample rate, a
    non-negative threshold and a smoothed gain in [0, 1] (it is 1 after
    construction) returns on channels of equal length, keeps its smoothed
    gain in [0, 1], and no output sample is larger in magnitude than the
    input sample it comes from. *)
Theorem X8_never_amplifies (s : t) (ls rs : list R) :
  0 < sample_rate s -> 0 <= threshold s -> 0 <= gain_state s <= 1 ->
  length rs = length ls ->
  exists s' ol or,
    process_block s ls rs = Ok (s', ol, or)
    /\ 0 <= gain_state s' <= 1
    /\ Forall2 (fun x o => Rabs o <= Rabs x) ls ol
    /\ Forall2 (fun x o => Rabs o <= Rabs x) rs or.
Proof.
  intros Hsr Hth Hg Hlen. unfold process_block.
  destruct (block_coeffs_ok s Hsr)
    as (k & Ek & _ & _ & _ & _ & _ & _ & _ & Hgc).
  destruct (block_slope_ok s) as (slope & Es & Hs0 & _).
  rewrite Ek, Es. simpl bind.
  apply sample_loop_unit; try assumption. lra.
Qed.

Lemma X8_never_amplifies_witness :
  0 < sample_rate (init 44100) /\ 0 <= threshold (init 44100)
  /\ 0 <= gain_state (init 44100) <= 1
  /\ length [0.5; -3] = length [2; -2]
  /\ exists s' ol or,
       process_block (init 44100) [2; -2] [0.5; -3] = Ok (s', ol, or)
       /\ 0 <= gain_state s' <= 1
       /\ Forall2 (fun x o => Rabs o <= Rabs x) [2; -2] ol.
Proof.
  assert (H1 : 0 < sample_rate (init 44100)) by (simpl; lra).
  assert (H2 : 0 <= threshold (init 44100)) by (simpl; lra).
  assert (H3 : 0 <= gain_state (init 44100) <= 1) by (simpl; lra).
  split; [exact H1 |]. split; [exact H2 |]. split; [exact H3 |].
  split; [reflexivity |].
  destruct (X8_never_amplifies (init 44100) [2; -2] [0.5; -3] H1 H2 H3 eq_refl)
    as (s' & ol & or & E & Hg & Fl & _).
  exists s', ol, or. split; [exact E |]. split; assumption.
Defined.

(** X9 (ratio at most 1): a unit whose ratio is at most 1 asks for no
    reduction; with a positive sample rate, a positive [EPSILON] and a
    smoothed gain of 1 it returns both channels unchanged, whatever the
    threshold, the detector mode and the samples, and its smoothed gain
    stays 1. *)
Theorem X9_unit_ratio_is_identity (s : t) (ls rs : list R) :
  0 < sample_rate s -> ratio s <= 1 -> 0 < EPSILON s -> gain_state s = 1 ->
  length rs = length ls ->
  exists s', process_block s ls rs = Ok (s', ls, rs) /\ gain_state s' = 1.
Proof.
  intros Hsr Hratio Heps Hg Hlen. unfold process_block.
  destruct (block_coeffs_ok s Hsr) as (k & Ek & _).
  rewrite Ek. simpl bind. unfold block_slope.
  destruct (Rlt_dec 1 (ratio s)) as [N | _]; [lra |].
  simpl bind. apply sample_loop_no_reduction; assumption.
Qed.

Lemma X9_unit_ratio_is_identity_witness :
  let s := set_threshold 0 (set_ratio 1 (init 44100)) in
  0 < sample_rate s /\ ratio s <= 1 /\ 0 < EPSILON s /\ gain_state s = 1
  /\ length [1; 1] = length [1; -1]
  /\ exists s', process_block s [1; -1] [1; 1] = Ok (s', [1; -1], [1; 1])
                /\ gain_state s' = 1.
Proof.
  intros s.
  assert (H1 : 0 < sample_rate s) by (simpl; lra).
  assert (H2 : ratio s <= 1) by (simpl; lra).
  assert (H3 : 0 < EPSILON s) by (simpl; lra).
  split; [exact H1 |]. split; [exact H2 |]. split; [exact H3 |].
  split; [reflexivity |]. split; [reflexivity |].
  exact (X9_unit_ratio_is_identity s [1; -1] [1; 1] H1 H2 H3 eq_refl eq_refl).
Defined.

(** X10 (transparent below threshold): in Peak mode, with a positive sample
    rate, a smoothed gain of 1 and a peak state at most the threshold, a
    block whose samples are all at most the threshold in magnitude is
    returned unchanged; the smoothed gain stays 1 and the peak state stays
    at most the threshold, so the same holds for the next block. *)
Theorem X10_transparent_below_threshold (s : t) (ls rs : list R) :
  0 < sample_rate s -> mode s <> 0%Z ->
  gain_state s = 1 -> peak_state s <= threshold s ->
  Forall (fun x => Rabs x <= threshold s) ls ->
  Forall (fun x => Rabs x <= threshold s) rs ->
  length rs = length ls ->
  exists s',
    process_block s ls rs = Ok (s', ls, rs)
    /\ gain_state s' = 1 /\ peak_state s' <= threshold s'
    /\ same_config s s'.
Proof.
  intros Hsr Hm Hg Hp Fl Fr Hlen. unfold process_block.
  destruct (block_coeffs_ok s Hsr)
    as (k & Ek & _ & _ & _ & _ & Ha & Hr & _).
  destruct (block_slope_ok s) as (slope & Es & _).
  rewrite Ek, Es. simpl bind.
  destruct (sample_loop_below_threshold ls rs s k slope)
    as (s' & E & Hg' & Hp'); try assumption; try lra.
  exists s'. split; [exact E |]. split; [exact Hg' |].
  pose proof (comp_sample_loop_frame _ _ _ _ _ _ _ _ E) as Hc.
  split; [| exact Hc].
  destruct Hc as (_ & _ & Hth & _). rewrite Hth. exact Hp'.
Qed.

Lemma X10_transparent_below_threshold_witness :
  0 < sample_rate (init 44100) /\ mode (init 44100) <> 0%Z
  /\ gain_state (init 44100) = 1
  /\ peak_state (init 44100) <= threshold (init 44100)
  /\ Forall (fun x => Rabs x <= threshold (init 44100)) [0.5; -1]
  /\ Forall (fun x => Rabs x <= threshold (init 44100)) [-0.25; 0]
  /\ length [-0.25; 0] = length [0.5; -1]
  /\ exists s',
       process_block (init 44100) [0.5; -1] [-0.25; 0]
       = Ok (s', [0.5; -1], [-0.25; 0]).
Proof.
  assert (H1 : 0 < sample_rate (init 44100)) by (simpl; lra).
  assert (H2 : mode (init 44100) <> 0%Z) by (simpl; discriminate).
  assert (H3 : peak_state (init 44100) <= threshold (init 44100))
    by (simpl; lra).
  assert (Habs : forall x, -1 <= x <= 1 -> Rabs x <= threshold (init 44100)).
  { intros x Hx. simpl. apply Rabs_le. lra. }
  assert (F1 : Forall (fun x => Rabs x <= threshold (init 44100)) [0.5; -1]).
  { constructor; [apply Habs; lra |].
    constructor; [apply Habs; lra | constructor]. }
  assert (F2 : Forall (fun x => Rabs x <= threshold (init 44100)) [-0.25; 0]).
  { constructor; [apply Habs; lra |].
    constructor; [apply Habs; lra | constructor]. }
  split; [exact H1 |]. split; [exact H2 |]. split; [reflexivity |].
  split; [exact H3 |]. split; [exact F1 |]. split; [exact F2 |].
  split; [reflexivity |].
  destruct (X10_transparent_below_threshold (init 44100) [0.5; -1] [-0.25; 0]
              H1 H2 eq_refl H3 F1 F2 eq_refl) as (s' & E & _).
  exists s'. exact E.
Defined.

(** X11 (block cutting): the unit does not depend on how the stream is cut
    into blocks: processing [l1] and then [l2] gives the state and, joined,
    the outputs of processing [l1 ++ l2] in one call. *)
Theorem X11_block_cut_invariance
    (s s1 s2 : t) (l1 r1 l2 r2 o1 o1' o2 o2' : list R) :
  length r1 = length l1 ->
  process_block s l1 r1 = Ok (s1, o1, o1') ->
  process_block s1 l2 r2 = Ok (s2, o2, o2') ->
  process_block s (l1 ++ l2) (r1 ++ r2) = Ok (s2, o1 ++ o2, o1' ++ o2').
Proof.
  intros Hlen E1 E2.
  rewrite (CutFacts.process_block_cut s l1 r1 l2 r2 Hlen).
  rewrite E1. simpl bind. rewrite E2. reflexivity.
Qed.

Lemma X11_block_cut_invariance_witness :
  exists s1 s2 o1 o1' o2 o2',
    length [0.5] = length [1]
    /\ process_block (init 44100) [1] [0.5] = Ok (s1, o1, o1')
    /\ process_block s1 [2; 3] [0; 0] = Ok (s2, o2, o2')
    /\ process_block (init 44100) ([1] ++ [2; 3]) ([0.5] ++ [0; 0])
       = Ok (s2, o1 ++ o2, o1' ++ o2').
Proof.
  assert (H1 : 0 < sample_rate (init 44100)) by (simpl; lra).
  assert (H2 : 0 <= threshold (init 44100)) by (simpl; lra).
  destruct (comp_process_block_ok (init 44100) [1] [0.5] H1 H2 eq_refl)
    as (s1 & o1 & o1' & E1 & (Hc1 & _ & Hc3 & _) & _).
  destruct (comp_process_block_ok s1 [2; 3] [0; 0])
    as (s2 & o2 & o2' & E2 & _);
    [rewrite Hc1; exact H1 | rewrite Hc3; exact H2 | reflexivity |].
  exists s1, s2, o1, o1', o2, o2'.
  split; [reflexivity |]. split; [exact E1 |]. split; [exact E2 |].
  exact (X11_block_cut_invariance (init 44100) s1 s2 [1] [0.5] [2; 3] [0; 0]
           o1 o1' o2 o2' eq_refl E1 E2).
Defined.

(** X12 (channels of different lengths): the loop runs over the left
    channel.  With a positive sample rate and a non-negative threshold, a
    right channel that is shorter makes the call raise [IndexError]; a right
    channel with extra samples is processed as the truncated one and its
    output is filled with a 0.0 for every extra sample. *)
Theorem X12_channel_lengths (s : t) (ls rs tail : list R) :
  0 < sample_rate s -> 0 <= threshold s ->
  ((length rs < length ls)%nat -> process_block s ls rs = Raise IndexError)
  /\ (length rs = length ls ->
      exists s' ol or,
        process_block s ls rs = Ok (s', ol, or)
        /\ process_block s ls (rs ++ tail)
           = Ok (s', ol, or ++ map (fun _ => 0) tail)).
Proof.
  intros Hsr Hth.
  destruct (block_coeffs_ok s Hsr) as (k & Ek & _).
  destruct (block_slope_ok s) as (slope & Es & Hs0 & _).
  split.
  - intros Hlen. unfold process_block. rewrite Ek, Es. simpl bind.
    apply comp_sample_loop_short; assumption.
  - intros Hlen.
    destruct (comp_process_block_ok s ls rs Hsr Hth Hlen)
      as (s' & ol & or & E & _).
    exists s', ol, or. split; [exact E |].
    unfold process_block in *. rewrite Ek, Es in *. simpl bind in *.
    apply comp_sample_loop_tail; assumption.
Qed.

Lemma X12_channel_lengths_witness :
  0 < sample_rate (init 44100) /\ 0 <= threshold (init 44100)
  /\ (length [1] < length [1; 2]%R)%nat
  /\ process_block (init 44100) [1; 2] [1] = Raise IndexError.
Proof.
  assert (H1 : 0 < sample_rate (init 44100)) by (simpl; lra).
  assert (H2 : 0 <= threshold (init 44100)) by (simpl; lra).
  assert (H3 : (length [1]%R < length [1; 2]%R)%nat) by (simpl; lia).
  split; [exact H1 |]. split; [exact H2 |]. split; [exact H3 |].
  exact (proj1 (X12_channel_lengths (init 44100) [1; 2] [1] [] H1 H2) H3).
Defined.

(** X13 (negative threshold): a unit with a negative threshold and a ratio
    above 1 (positive sample rate, positive [EPSILON], non-negative envelope
    states) raises [ValueError] on the first sample of every non-empty
    block: the envelope is above the threshold, the base of [math.pow] is
    negative and the slope is fractional. *)
Theorem X13_negative_threshold_raises (s : t) (l r : R) (ls rs : list R) :
  0 < sample_rate s -> threshold s < 0 -> 1 < ratio s -> 0 < EPSILON s ->
  0 <= rms_state s -> 0 <= peak_state s ->
  process_block s (l :: ls) (r :: rs) = Raise ValueError.
Proof.
  intros Hsr Hth Hratio Heps Hrms Hpeak. unfold process_block.
  destruct (block_coeffs_ok s Hsr)
    as (k & Ek & _ & _ & _ & _ & Ha & Hr & Hm & _).
  rewrite Ek. simpl bind. unfold block_slope.
  destruct (Rlt_dec 1 (ratio s)) as [_ | N]; [| contradiction].
  rewrite truediv_ok by lra. simpl bind.
  assert (Hslope : 0 < 1 - 1 / ratio s < 1).
  { assert (H0 : 0 < / ratio s) by (apply Rinv_0_lt_compat; lra).
    assert (H1 : / ratio s < 1).
    { rewrite <- Rinv_1. apply Rinv_lt_contravar; lra. }
    unfold Rdiv. lra. }
  simpl sample_loop. unfold process_sample.
  destruct (detector_ok s k l r) as (s0 & env & E & Hcfg & _).
  rewrite E. simpl bind.
  destruct (detector_nonneg s k l r s0 env) as (Henv & _);
    try assumption; try lra.
  destruct Hcfg as (_ & _ & Hth0 & _ & _ & _ & He0).
  unfold gain_computer. rewrite Hth0, He0.
  destruct (Rlt_dec (threshold s) env) as [_ | N]; [| lra].
  set (safe := if Rlt_dec (EPSILON s) env then env else EPSILON s).
  assert (Hsafe : 0 < safe).
  { unfold safe. destruct (Rlt_dec (EPSILON s) env); lra. }
  rewrite truediv_ok by lra. simpl bind.
  rewrite math_pow_negative_base; [reflexivity | | exact Hslope].
  apply Rinv_0_lt_compat in Hsafe. unfold Rdiv. nra.
Qed.

Lemma X13_negative_threshold_raises_witness :
  let s := set_threshold (-1) (init 44100) in
  0 < sample_rate s /\ threshold s < 0 /\ 1 < ratio s /\ 0 < EPSILON s
  /\ 0 <= rms_state s /\ 0 <= peak_state s
  /\ process_block s [0] [0] = Raise ValueError.
Proof.
  intros s.
  assert (H1 : 0 < sample_rate s) by (simpl; lra).
  assert (H2 : threshold s < 0) by (simpl; lra).
  assert (H3 : 1 < ratio s) by (simpl; lra).
  assert (H4 : 0 < EPSILON s) by (simpl; lra).
  assert (H5 : 0 <= rms_state s) by (simpl; lra).
  assert (H6 : 0 <= peak_state s) by (simpl; lra).
  split; [exact H1 |]. split; [exact H2 |]. split; [exact H3 |].
  split; [exact H4 |]. split; [exact H5 |]. split; [exact H6 |].
  exact (X13_negative_threshold_raises s 0 0 [] [] H1 H2 H3 H4 H5 H6).
Defined.

End DynamicsUnitMore.

Module FilterMore.
Import UnknownFilter.

(** The zero deltas of [process] leave a coefficient set as it is. *)
Lemma coeffs_plus_zero (c : coeffs) :
  mk_coeffs (c0 c + 0) (c1 c + 0) (c2 c + 0) (c3 c + 0) (c4 c + 0) = c.
Proof. destruct c. simpl. f_equal; ring. Qed.

(** One iteration of the loop of [process] (zero deltas). *)
Lemma sample_loop_cons (c : coeffs) (s : integrators) (x y : R)
    (ls rs : list R) :
  sample_loop c (mk_coeffs 0 0 0 0 0) s (x :: ls) (y :: rs)
  = (inv <- inv_term (c0 c) (c1 c) ;;
     '(c', s', ol, or) <-
       sample_loop c (mk_coeffs 0 0 0 0 0)
         (snd (tick c s inv x y)) ls rs ;;
     Ok (c', s', fst (fst (tick c s inv x y)) :: ol,
         snd (fst (tick c s inv x y)) :: or)).
Proof.
  cbn [sample_loop]. destruct (inv_term (c0 c) (c1 c)) as [inv | e];
    [| reflexivity].
  cbn [bind].
  destruct (tick c s inv x y) as [[out_l out_r] s1].
  cbn [fst snd c0 c1 c2 c3 c4]. rewrite coeffs_plus_zero. reflexivity.
Qed.

(** The loop returns the coefficients it was given. *)
Lemma sample_loop_coeffs (ls : list R) :
  forall rs c s c' s' ol or,
    sample_loop c (mk_coeffs 0 0 0 0 0) s ls rs = Ok (c', s', ol, or) ->
    c' = c.
Proof.
  induction ls as [| x ls IH]; intros rs c s c' s' ol or H.
  - simpl in H. inversion H. reflexivity.
  - destruct rs as [| y rs].
    + simpl in H. destruct (inv_term (c0 c) (c1 c)); discriminate H.
    + rewrite sample_loop_cons in H.
      apply bind_Ok_inv in H. destruct H as (inv & _ & H).
      apply bind_Ok_inv in H. destruct H as ((((c1' & s1') & o1) & o2) & E & H).
      inversion H; subst; clear H.
      eapply IH; exact E.
Qed.

(** Cutting a block in two. *)
Lemma filt_sample_loop_app (l1 : list R) :
  forall r1 l2 r2 c s,
    length r1 = length l1 ->
    sample_loop c (mk_coeffs 0 0 0 0 0) s (l1 ++ l2) (r1 ++ r2)
    = ('(c1, s1, o1, o1') <- sample_loop c (mk_coeffs 0 0 0 0 0) s l1 r1 ;;
       '(c2, s2, o2, o2') <- sample_loop c (mk_coeffs 0 0 0 0 0) s1 l2 r2 ;;
       Ok (c2, s2, o1 ++ o2, o1' ++ o2')).
Proof.
  induction l1 as [| x l1 IH]; intros r1 l2 r2 c s Hlen.
  - destruct r1; [| discriminate Hlen]. simpl app. cbn [sample_loop bind].
    destruct (sample_loop c (mk_coeffs 0 0 0 0 0) s l2 r2)
      as [[[[c2 s2] o2] o2'] | e]; reflexivity.
  - destruct r1 as [| y r1]; simpl in Hlen; [discriminate Hlen |].
    injection Hlen as Hlen. simpl app. rewrite !sample_loop_cons.
    destruct (inv_term (c0 c) (c1 c)) as [inv | e]; [| reflexivity].
    cbn [bind]. rewrite (IH r1 l2 r2 c _ Hlen).
    destruct (sample_loop c (mk_coeffs 0 0 0 0 0) (snd (tick c s inv x y))
                l1 r1) as [[[[c1' s1] o1] o1'] | e] eqn:E1;
      cbn [bind]; [| reflexivity].
    pose proof (sample_loop_coeffs _ _ _ _ _ _ _ _ E1) as Hc. subst c1'.
    destruct (sample_loop c (mk_coeffs 0 0 0 0 0) s1 l2 r2)
      as [[[[c2 s2] o2] o2'] | e]; reflexivity.
Qed.

(** A right buffer that is too short; extra right samples. *)
Lemma filt_sample_loop_short (ls : list R) :
  forall rs c s,
    (length rs < length ls)%nat ->
    sample_loop c (mk_coeffs 0 0 0 0 0) s ls rs = Raise IndexError.
Proof.
  induction ls as [| x ls IH]; intros rs c s Hlen.
  - simpl in Hlen. lia.
  - destruct rs as [| y rs].
    + simpl. rewrite FilterFacts.inv_term_value. reflexivity.
    + simpl in Hlen. rewrite sample_loop_cons.
      rewrite FilterFacts.inv_term_value. cbn [bind].
      rewrite IH by lia. reflexivity.
Qed.

Lemma filt_sample_loop_tail (ls : list R) :
  forall rs tail c s,
    length rs = length ls ->
    sample_loop c (mk_coeffs 0 0 0 0 0) s ls (rs ++ tail)
    = sample_loop c (mk_coeffs 0 0 0 0 0) s ls rs.
Proof.
  induction ls as [| x ls IH]; intros rs tail c s Hlen.
  - destruct rs; [| discriminate Hlen]. reflexivity.
  - destruct rs as [| y rs]; simpl in Hlen; [discriminate Hlen |].
    injection Hlen as Hlen. simpl app. rewrite !sample_loop_cons.
    destruct (inv_term (c0 c) (c1 c)) as [inv | e]; [| reflexivity].
    cbn [bind]. rewrite (IH rs tail c _ Hlen). reflexivity.
Qed.

(** The left half of an iteration reads the left sample and the left
    integrators only, and the same on the right. *)
Lemma tick_left (c : coeffs) (s s' : integrators) (inv x y y' : R) :
  s0 s' = s0 s -> s2 s' = s2 s ->
  fst (fst (tick c s' inv x y')) = fst (fst (tick c s inv x y))
  /\ s0 (snd (tick c s' inv x y')) = s0 (snd (tick c s inv x y))
  /\ s2 (snd (tick c s' inv x y')) = s2 (snd (tick c s inv x y)).
Proof.
  intros H0 H2. unfold tick. simpl. rewrite H0, H2. repeat split.
Qed.

Lemma tick_right (c : coeffs) (s s' : integrators) (inv x x' y : R) :
  s1 s' = s1 s -> s3 s' = s3 s ->
  snd (fst (tick c s' inv x' y)) = snd (fst (tick c s inv x y))
  /\ s1 (snd (tick c s' inv x' y)) = s1 (snd (tick c s inv x y))
  /\ s3 (snd (tick c s' inv x' y)) = s3 (snd (tick c s inv x y)).
Proof.
  intros H1 H3. unfold tick. simpl. rewrite H1, H3. repeat split.
Qed.

Lemma filt_sample_loop_left (ls : list R) :
  forall rs rs' c s s' cA sA olA orA cB sB olB orB,
    s0 s' = s0 s -> s2 s' = s2 s ->
    sample_loop c (mk_coeffs 0 0 0 0 0) s ls rs = Ok (cA, sA, olA, orA) ->
    sample_loop c (mk_coeffs 0 0 0 0 0) s' ls rs' = Ok (cB, sB, olB, orB) ->
    olB = olA /\ s0 sB = s0 sA /\ s2 sB = s2 sA.
Proof.
  induction ls as [| x ls IH];
    intros rs rs' c s s' cA sA olA orA cB sB olB orB H0 H2 HA HB.
  - simpl in HA, HB. inversion HA; inversion HB; subst. repeat split; assumption.
  - destruct rs as [| y rs];
      [simpl in HA; destruct (inv_term (c0 c) (c1 c)); discriminate HA |].
    destruct rs' as [| y' rs'];
      [simpl in HB; destruct (inv_term (c0 c) (c1 c)); discriminate HB |].
    rewrite sample_loop_cons in HA, HB.
    apply bind_Ok_inv in HA. destruct HA as (inv & Ei & HA).
    rewrite Ei in HB. cbn [bind] in HB.
    apply bind_Ok_inv in HA. destruct HA as ((((c1' & s1') & o1) & o2) & EA & HA).
    apply bind_Ok_inv in HB. destruct HB as ((((c2' & s2') & o3) & o4) & EB & HB).
    injection HA as ? ? ? ?. injection HB as ? ? ? ?. subst.
    destruct (tick_left c s s' inv x y y' H0 H2) as (To & T0 & T2).
    destruct (IH _ _ _ _ _ _ _ _ _ _ _ _ _ T0 T2 EA EB) as (Ho & R0 & R2).
    split; [f_equal; [exact To | exact Ho] | split; assumption].
Qed.

Lemma filt_sample_loop_right (ls : list R) :
  forall ls' rs c s s' cA sA olA orA cB sB olB orB,
    length ls' = length ls ->
    s1 s' = s1 s -> s3 s' = s3 s ->
    sample_loop c (mk_coeffs 0 0 0 0 0) s ls rs = Ok (cA, sA, olA, orA) ->
    sample_loop c (mk_coeffs 0 0 0 0 0) s' ls' rs = Ok (cB, sB, olB, orB) ->
    orB = orA /\ s1 sB = s1 sA /\ s3 sB = s3 sA.
Proof.
  induction ls as [| x ls IH];
    intros ls' rs c s s' cA sA olA orA cB sB olB orB Hlen H1 H3 HA HB.
  - destruct ls'; [| discriminate Hlen].
    simpl in HA, HB. inversion HA; inversion HB; subst. repeat split; assumption.
  - destruct ls' as [| x' ls']; [discriminate Hlen |].
    injection Hlen as Hlen.
    destruct rs as [| y rs];
      [simpl in HA; destruct (inv_term (c0 c) (c1 c)); discriminate HA |].
    rewrite sample_loop_cons in HA, HB.
    apply bind_Ok_inv in HA. destruct HA as (inv & Ei & HA).
    rewrite Ei in HB. cbn [bind] in HB.
    apply bind_Ok_inv in HA. destruct HA as ((((c1' & s1') & o1) & o2) & EA & HA).
    apply bind_Ok_inv in HB. destruct HB as ((((c2' & s2') & o3) & o4) & EB & HB).
    injection HA as ? ? ? ?. injection HB as ? ? ? ?. subst.
    destruct (tick_right c s s' inv x x' y H1 H3) as (To & T1 & T3).
    destruct (IH _ _ _ _ _ _ _ _ _ _ _ _ _ Hlen T1 T3 EA EB) as (Ho & R1 & R3).
    split; [f_equal; [exact To | exact Ho] | split; assumption].
Qed.

(** With zero mixing weights the output of an iteration is 0. *)
Lemma tick_zero_mix (c : coeffs) (s : integrators) (inv x y : R) :
  c2 c = 0 -> c3 c = 0 -> c4 c = 0 ->
  fst (fst (tick c s inv x y)) = 0 /\ snd (fst (tick c s inv x y)) = 0.
Proof.
  intros H2 H3 H4. unfold tick. simpl. rewrite H2, H3, H4. split; ring.
Qed.

Lemma filt_sample_loop_zero_mix (ls : list R) :
  forall rs c s,
    c2 c = 0 -> c3 c = 0 -> c4 c = 0 -> length rs = length ls ->
    exists s',
      sample_loop c (mk_coeffs 0 0 0 0 0) s ls rs
      = Ok (c, s', repeat 0 (length ls), repeat 0 (length ls)).
Proof.
  induction ls as [| x ls IH]; intros rs c s H2 H3 H4 Hlen.
  - simpl. eauto.
  - destruct rs as [| y rs]; simpl in Hlen; [discriminate Hlen |].
    injection Hlen as Hlen. rewrite sample_loop_cons.
    rewrite FilterFacts.inv_term_value. cbn [bind].
    match goal with
    | |- context [tick c s ?i x y] =>
        destruct (tick_zero_mix c s i x y H2 H3 H4) as (Zl & Zr);
        destruct (IH rs c (snd (tick c s i x y)) H2 H3 H4 Hlen) as (s' & E);
        rewrite E, Zl, Zr
    end.
    simpl. eauto.
Qed.

(** At rest (zero integrators) a zero sample gives a zero output and leaves
    the filter at rest. *)
Lemma tick_rest (c : coeffs) (inv : R) :
  tick c (mk_state 0 0 0 0) inv 0 0 = (0, 0, mk_state 0 0 0 0).
Proof.
  unfold tick. simpl. f_equal; [f_equal |]; try ring.
  f_equal; ring.
Qed.

Lemma filt_sample_loop_rest (n : nat) (c : coeffs) :
  sample_loop c (mk_coeffs 0 0 0 0 0) (mk_state 0 0 0 0)
    (repeat 0 n) (repeat 0 n)
  = Ok (c, mk_state 0 0 0 0, repeat 0 n, repeat 0 n).
Proof.
  induction n as [| n IH]; [reflexivity |].
  simpl repeat. rewrite sample_loop_cons.
  rewrite FilterFacts.inv_term_value. cbn [bind].
  rewrite tick_rest. simpl snd. simpl fst. rewrite IH. reflexivity.
Qed.

(** An iteration is additive and homogeneous in the samples and the
    integrators. *)
Lemma tick_add (c : coeffs) (s t : integrators) (inv x y u v : R) :
  tick c (mk_state (s0 s + s0 t) (s1 s + s1 t) (s2 s + s2 t) (s3 s + s3 t))
    inv (x + u) (y + v)
  = (fst (fst (tick c s inv x y)) + fst (fst (tick c t inv u v)),
     snd (fst (tick c s inv x y)) + snd (fst (tick c t inv u v)),
     mk_state
       (s0 (snd (tick c s inv x y)) + s0 (snd (tick c t inv u v)))
       (s1 (snd (tick c s inv x y)) + s1 (snd (tick c t inv u v)))
       (s2 (snd (tick c s inv x y)) + s2 (snd (tick c t inv u v)))
       (s3 (snd (tick c s inv x y)) + s3 (snd (tick c t inv u v)))).
Proof.
  unfold tick. simpl. f_equal; [f_equal |]; try ring.
  f_equal; ring.
Qed.

Lemma tick_scale (c : coeffs) (s : integrators) (inv a x y : R) :
  tick c (mk_state (a * s0 s) (a * s1 s) (a * s2 s) (a * s3 s))
    inv (a * x) (a * y)
  = (a * fst (fst (tick c s inv x y)),
     a * snd (fst (tick c s inv x y)),
     mk_state
       (a * s0 (snd (tick c s inv x y))) (a * s1 (snd (tick c s inv x y)))
       (a * s2 (snd (tick c s inv x y))) (a * s3 (snd (tick c s inv x y)))).
Proof.
  unfold tick. simpl. f_equal; [f_equal |]; try ring.
  f_equal; ring.
Qed.

Lemma filt_sample_loop_scale (ls : list R) :
  forall rs a c s c' s' ol or,
    sample_loop c (mk_coeffs 0 0 0 0 0) s ls rs = Ok (c', s', ol, or) ->
    sample_loop c (mk_coeffs 0 0 0 0 0)
      (mk_state (a * s0 s) (a * s1 s) (a * s2 s) (a * s3 s))
      (map (Rmult a) ls) (map (Rmult a) rs)
    = Ok (c', mk_state (a * s0 s') (a * s1 s') (a * s2 s') (a * s3 s'),
          map (Rmult a) ol, map (Rmult a) or).
Proof.
  induction ls as [| x ls IH]; intros rs a c s c' s' ol or H.
  - simpl in H. inversion H; subst. reflexivity.
  - destruct rs as [| y rs];
      [simpl in H; destruct (inv_term (c0 c) (c1 c)); discriminate H |].
    simpl map. rewrite sample_loop_cons in *.
    apply bind_Ok_inv in H. destruct H as (inv & Ei & H).
    rewrite Ei. cbn [bind].
    apply bind_Ok_inv in H. destruct H as ((((c1' & s1') & o1) & o2) & E & H).
    injection H as ? ? ? ?. subst.
    rewrite tick_scale. cbn [fst snd].
    rewrite (IH _ a _ _ _ _ _ _ E). reflexivity.
Qed.

Lemma filt_sample_loop_add (ls : list R) :
  forall rs us vs c s t cA sA olA orA cB sB olB orB,
    length us = length ls -> length vs = length rs ->
    sample_loop c (mk_coeffs 0 0 0 0 0) s ls rs = Ok (cA, sA, olA, orA) ->
    sample_loop c (mk_coeffs 0 0 0 0 0) t us vs = Ok (cB, sB, olB, orB) ->
    sample_loop c (mk_coeffs 0 0 0 0 0)
      (mk_state (s0 s + s0 t) (s1 s + s1 t) (s2 s + s2 t) (s3 s + s3 t))
      (map (fun p => fst p + snd p) (combine ls us))
      (map (fun p => fst p + snd p) (combine rs vs))
    = Ok (c,
          mk_state (s0 sA + s0 sB) (s1 sA + s1 sB)
                   (s2 sA + s2 sB) (s3 sA + s3 sB),
          map (fun p => fst p + snd p) (combine olA olB),
          map (fun p => fst p + snd p) (combine orA orB)).
Proof.
  induction ls as [| x ls IH];
    intros rs us vs c s t cA sA olA orA cB sB olB orB Hu Hv HA HB.
  - destruct us; [| discriminate Hu].
    simpl in HA, HB. inversion HA; inversion HB; subst. reflexivity.
  - destruct us as [| u us]; [discriminate Hu |]. injection Hu as Hu.
    destruct rs as [| y rs];
      [simpl in HA; destruct (inv_term (c0 c) (c1 c)); discriminate HA |].
    destruct vs as [| v vs]; [discriminate Hv |]. injection Hv as Hv.
    simpl combine. simpl map. simpl fst. simpl snd.
    rewrite sample_loop_cons in *.
    apply bind_Ok_inv in HA. destruct HA as (inv & Ei & HA).
    rewrite Ei in HB. rewrite Ei. cbn [bind] in *.
    apply bind_Ok_inv in HA. destruct HA as ((((c1' & s1') & o1) & o2) & EA & HA).
    apply bind_Ok_inv in HB. destruct HB as ((((c2' & s2') & o3) & o4) & EB & HB).
    injection HA as ? ? ? ?. injection HB as ? ? ? ?. subst.
    rewrite tick_add. cbn [fst snd].
    rewrite (IH _ _ _ _ _ _ _ _ _ _ _ _ _ _ Hu Hv EA EB). reflexivity.
Qed.

End FilterMore.

Module SiblingFacts.

(** One iteration of filter.py is one iteration of test.py on the same
    numbers. *)
Lemma tick_agrees (c : FilterPy.coeffs) (s : FilterPy.integrators)
    (inv x y : R) :
  UnknownFilter.tick
    (UnknownFilter.mk_coeffs (FilterPy.C0 c) (FilterPy.C1 c) (FilterPy.C2 c)
                             (FilterPy.C3 c) (FilterPy.C4 c))
    (UnknownFilter.mk_state (FilterPy.S0 s) (FilterPy.S1 s)
                            (FilterPy.S2 s) (FilterPy.S3 s))
    inv x y
  = let '(out_L, out_R, s') :=
      FilterPy.tick c s (FilterPy.C0 c * 2) (FilterPy.C1 c * 2)
        (FilterPy.C1 c * 2 + FilterPy.C0 c) inv x y in
    (out_L, out_R,
     UnknownFilter.mk_state (FilterPy.S0 s') (FilterPy.S1 s')
                            (FilterPy.S2 s') (FilterPy.S3 s')).
Proof. reflexivity. Qed.

Lemma sample_loop_agrees (ls : list R) :
  forall rs (c : FilterPy.coeffs) (s : FilterPy.integrators),
    1e-20 < Rabs ((FilterPy.C1 c * 2 + FilterPy.C0 c) * FilterPy.C0 c + 1) ->
    length rs = length ls ->
    exists s' ol or,
      FilterPy.sample_loop c s (FilterPy.C0 c * 2) (FilterPy.C1 c * 2)
        (FilterPy.C1 c * 2 + FilterPy.C0 c)
        (1 / ((FilterPy.C1 c * 2 + FilterPy.C0 c) * FilterPy.C0 c + 1))
        ls rs = Ok (s', ol, or)
      /\ UnknownFilter.sample_loop
           (UnknownFilter.mk_coeffs (FilterPy.C0 c) (FilterPy.C1 c)
              (FilterPy.C2 c) (FilterPy.C3 c) (FilterPy.C4 c))
           (UnknownFilter.mk_coeffs 0 0 0 0 0)
           (UnknownFilter.mk_state (FilterPy.S0 s) (FilterPy.S1 s)
              (FilterPy.S2 s) (FilterPy.S3 s))
           ls rs
         = Ok (UnknownFilter.mk_coeffs (FilterPy.C0 c) (FilterPy.C1 c)
                 (FilterPy.C2 c) (FilterPy.C3 c) (FilterPy.C4 c),
               UnknownFilter.mk_state (FilterPy.S0 s') (FilterPy.S1 s')
                 (FilterPy.S2 s') (FilterPy.S3 s'),
               ol, or).
Proof.
  induction ls as [| x ls IH]; intros rs c s Hden Hlen.
  - destruct rs; [| discriminate Hlen]. simpl. eauto.
  - destruct rs as [| y rs]; simpl in Hlen; [discriminate Hlen |].
    injection Hlen as Hlen.
    rewrite FilterMore.sample_loop_cons.
    cbn [UnknownFilter.c0 UnknownFilter.c1].
    rewrite FilterFacts.inv_term_value.
    destruct (Rlt_dec 1e-20 _) as [_ | N]; [| contradiction].
    cbn [bind]. rewrite tick_agrees.
    cbn [FilterPy.sample_loop].
    destruct (FilterPy.tick c s (FilterPy.C0 c * 2) (FilterPy.C1 c * 2)
                (FilterPy.C1 c * 2 + FilterPy.C0 c)
                (1 / ((FilterPy.C1 c * 2 + FilterPy.C0 c) * FilterPy.C0 c + 1))
                x y) as [[out_L out_R] s1].
    cbn [fst snd].
    destruct (IH rs c s1 Hden Hlen) as (s' & ol & or & E1 & E2).
    rewrite E1, E2. cbn [bind]. eauto.
Qed.

End SiblingFacts.

Module DesignMore.
Import FilterPy.

(** The design step outside its domain: a root that is real or zero makes
    it divide by zero. *)
Lemma design_raises (P0 P1 P2 P3 P4 : R) :
  ~ (0 < 1 + P3 + P4 /\ 0 < 1 - P3 + P4) ->
  _calculate_coefficients (P0, P1, P2, P3, P4) = Raise ZeroDivisionError.
Proof.
  intros Hdom.
  unfold _calculate_coefficients. cbv zeta.
  destruct (Rle_dec (-1 - P3 - P4) 0) as [HA | HA];
    destruct (Rle_dec (P3 - 1 - P4) 0) as [HB | HB];
    unfold Py.math_sqrt;
    repeat match goal with
    | |- context [Rlt_dec ?a 0] => destruct (Rlt_dec a 0) as [N | _]; [lra |]
    end; cbn [bind].
  - (* both roots imaginary: one of them is zero *)
    set (a := sqrt (- (-1 - P3 - P4))). set (b := sqrt (- (P3 - 1 - P4))).
    destruct (Rle_dec (Rabs 0) (Rabs b)) as [_ | N];
      [| rewrite Rabs_R0 in N; pose proof (Rabs_pos b); lra].
    destruct (Req_dec_T b 0) as [Eb | Nb].
    { rewrite Eb, truediv_zero. reflexivity. }
    rewrite (truediv_ok b b Nb). cbn [bind].
    assert (Hbb : b * (b / b) + 0 <> 0).
    { replace (b * (b / b) + 0) with b by (field; exact Nb). exact Nb. }
    rewrite (truediv_ok _ _ Hbb). cbn [bind].
    assert (Hb : 0 < 1 - P3 + P4).
    { destruct (Rle_lt_dec (1 - P3 + P4) 0) as [Hle | Hlt]; [| exact Hlt].
      exfalso. apply Nb. unfold b.
      replace (- (P3 - 1 - P4)) with 0 by lra. apply sqrt_0. }
    assert (Ea : a = 0).
    { unfold a. replace (- (-1 - P3 - P4)) with 0 by lra. apply sqrt_0. }
    rewrite Ea. replace (0 * 0 - b * 0) with 0 by ring.
    rewrite truediv_zero. reflexivity.
  - (* second root real: the else branch divides by [root2_im = 0] *)
    set (b := sqrt (P3 - 1 - P4)).
    assert (Hb : 0 < b) by (unfold b; apply sqrt_lt_R0; lra).
    destruct (Rle_dec (Rabs b) (Rabs 0)) as [N | _].
    + rewrite Rabs_R0, Rabs_right in N by lra. lra.
    + rewrite truediv_zero. reflexivity.
  - (* first root real: the normalisation divides by 0 *)
    set (a := sqrt (-1 - P3 - P4)). set (b := sqrt (- (P3 - 1 - P4))).
    destruct (Rle_dec (Rabs 0) (Rabs b)) as [_ | N];
      [| rewrite Rabs_R0 in N; pose proof (Rabs_pos b); lra].
    destruct (Req_dec_T b 0) as [Eb | Nb].
    { rewrite Eb, truediv_zero. reflexivity. }
    rewrite (truediv_ok b b Nb). cbn [bind].
    assert (Hbb : b * (b / b) + 0 <> 0).
    { replace (b * (b / b) + 0) with b by (field; exact Nb). exact Nb. }
    rewrite (truediv_ok _ _ Hbb). cbn [bind].
    replace (a * 0 - b * 0) with 0 by ring.
    rewrite truediv_zero. reflexivity.
  - (* both roots real: the else branch divides by [root2_im = 0] *)
    set (b := sqrt (P3 - 1 - P4)).
    assert (Hb : 0 < b) by (unfold b; apply sqrt_lt_R0; lra).
    destruct (Rle_dec (Rabs b) (Rabs 0)) as [N | _].
    + rewrite Rabs_R0, Rabs_right in N by lra. lra.
    + rewrite truediv_zero. reflexivity.
Qed.

(** The design step inside its domain, in closed form. *)
Lemma design_closed_form (P0 P1 P2 P3 P4 : R) :
  0 < 1 + P3 + P4 -> 0 < 1 - P3 + P4 ->
  exists c,
    _calculate_coefficients (P0, P1, P2, P3, P4) = Ok c
    /\ C0 c = sqrt (1 + P3 + P4) / sqrt (1 - P3 + P4)
    /\ C1 c = (1 - P4) / (sqrt (1 + P3 + P4) * sqrt (1 - P3 + P4))
    /\ C2 c = (P0 - P1 + P2) / (1 - P3 + P4)
    /\ C3 c = 2 * (P0 - P2) / (sqrt (1 + P3 + P4) * sqrt (1 - P3 + P4))
    /\ C4 c = (P0 + P1 + P2) / (1 + P3 + P4).
Proof.
  intros HA HB. unfold _calculate_coefficients. cbv zeta.
  destruct (Rle_dec (-1 - P3 - P4) 0) as [_ | N]; [| lra].
  destruct (Rle_dec (P3 - 1 - P4) 0) as [_ | N]; [| lra].
  replace (- (-1 - P3 - P4)) with (1 + P3 + P4) by ring.
  replace (- (P3 - 1 - P4)) with (1 - P3 + P4) by ring.
  unfold Py.math_sqrt.
  destruct (Rlt_dec (1 + P3 + P4) 0) as [N | _]; [lra |].
  destruct (Rlt_dec (1 - P3 + P4) 0) as [N | _]; [lra |].
  cbn [bind].
  set (a := sqrt (1 + P3 + P4)). set (b := sqrt (1 - P3 + P4)).
  assert (Ha : 0 < a) by (unfold a; apply sqrt_lt_R0; lra).
  assert (Hb : 0 < b) by (unfold b; apply sqrt_lt_R0; lra).
  destruct (Rle_dec (Rabs 0) (Rabs b)) as [_ | N];
    [| rewrite Rabs_R0 in N; pose proof (Rabs_pos b); lra].
  assert (Nb : b <> 0) by lra.
  rewrite (truediv_ok b b Nb). cbn [bind].
  assert (Hbb : b * (b / b) + 0 <> 0).
  { replace (b * (b / b) + 0) with b by (field; exact Nb). exact Nb. }
  rewrite (truediv_ok _ _ Hbb). cbn [bind].
  assert (Nab : 0 * 0 - b * a <> 0) by nra.
  rewrite (truediv_ok _ _ Nab). cbn [bind].
  rewrite !truediv_ok by lra. cbn [bind].
  eexists. split; [reflexivity |]. cbn [C0 C1 C2 C3 C4].
  assert (Na : a <> 0) by lra.
  repeat split; field; try lra; split; assumption.
Qed.

End DesignMore.

Section FilterMoreProperties.

(** X14 (rest): a filter at rest (zero integrators) fed silence returns
    silence on both channels and stays at rest, whatever its coefficients. *)
Theorem X14_filter_rest (c : UnknownFilter.coeffs) (n : nat) :
  UnknownFilter.process
    (UnknownFilter.mk (UnknownFilter.mk_state 0 0 0 0) c)
    (repeat 0 n) (repeat 0 n)
  = Ok (UnknownFilter.mk (UnknownFilter.mk_state 0 0 0 0) c,
        repeat 0 n, repeat 0 n).
Proof.
  unfold UnknownFilter.process. cbn [UnknownFilter.C UnknownFilter.state].
  rewrite FilterMore.filt_sample_loop_rest. reflexivity.
Qed.

(** X15 (independent channels): the two channels share the coefficients and
    nothing else: the left output and the left integrators [s0], [s2] after
    a call do not depend on the right input nor on the right integrators,
    and the right output and [s1], [s3] do not depend on the left ones. *)
Theorem X15_filter_channels_independent
    (f g f' g' : UnknownFilter.t) (ls rs ls' rs' ol or ol' or' : list R) :
  UnknownFilter.C g = UnknownFilter.C f ->
  UnknownFilter.process f ls rs = Ok (f', ol, or) ->
  UnknownFilter.process g ls' rs' = Ok (g', ol', or') ->
  (ls' = ls ->
   UnknownFilter.s0 (UnknownFilter.state g)
   = UnknownFilter.s0 (UnknownFilter.state f) ->
   UnknownFilter.s2 (UnknownFilter.state g)
   = UnknownFilter.s2 (UnknownFilter.state f) ->
   ol' = ol
   /\ UnknownFilter.s0 (UnknownFilter.state g')
      = UnknownFilter.s0 (UnknownFilter.state f')
   /\ UnknownFilter.s2 (UnknownFilter.state g')
      = UnknownFilter.s2 (UnknownFilter.state f'))
  /\ (rs' = rs -> length ls' = length ls ->
      UnknownFilter.s1 (UnknownFilter.state g)
      = UnknownFilter.s1 (UnknownFilter.state f) ->
      UnknownFilter.s3 (UnknownFilter.state g)
      = UnknownFilter.s3 (UnknownFilter.state f) ->
      or' = or
      /\ UnknownFilter.s1 (UnknownFilter.state g')
         = UnknownFilter.s1 (UnknownFilter.state f')
      /\ UnknownFilter.s3 (UnknownFilter.state g')
         = UnknownFilter.s3 (UnknownFilter.state f')).
Proof.
  intros HC Hf Hg. unfold UnknownFilter.process in Hf, Hg.
  apply bind_Ok_inv in Hf. destruct Hf as ((((cA & sA) & olA) & orA) & EA & Hf).
  apply bind_Ok_inv in Hg. destruct Hg as ((((cB & sB) & olB) & orB) & EB & Hg).
  injection Hf as ? ? ?. injection Hg as ? ? ?. subst.
  rewrite HC in EB. cbn [UnknownFilter.state].
  split.
  - intros El H0 H2. subst ls'.
    exact (FilterMore.filt_sample_loop_left _ _ _ _ _ _ _ _ _ _ _ _ _ _
             H0 H2 EA EB).
  - intros Er Hlen H1 H3. subst rs'.
    exact (FilterMore.filt_sample_loop_right _ _ _ _ _ _ _ _ _ _ _ _ _ _
             Hlen H1 H3 EA EB).
Qed.

Lemma X15_filter_channels_independent_witness :
  let f := UnknownFilter.set_params UnknownFilter.init 1 1 0.5 0.25 2 in
  exists f' g' ol or ol' or',
    UnknownFilter.process f [1; 2] [3; 4] = Ok (f', ol, or)
    /\ UnknownFilter.process f [1; 2] [-7; 0] = Ok (g', ol', or')
    /\ ol' = ol.
Proof.
  intros f.
  destruct (FilterFacts.filt_process_ok f [1; 2] [3; 4] eq_refl)
    as (f' & ol & or & E1 & _).
  destruct (FilterFacts.filt_process_ok f [1; 2] [-7; 0] eq_refl)
    as (g' & ol' & or' & E2 & _).
  exists f', g', ol, or, ol', or'. split; [exact E1 |]. split; [exact E2 |].
  exact (proj1 (proj1 (X15_filter_channels_independent
                         f f f' g' [1; 2] [3; 4] [1; 2] [-7; 0]
                         ol or ol' or' eq_refl E1 E2)
                  eq_refl eq_refl eq_refl)).
Defined.

(** X16 (coefficients and block cutting): [process] gives the filter back
    with the coefficients it had, and it does not depend on how the stream
    is cut into blocks: processing [l1] and then [l2] gives the state and,
    joined, the outputs of processing [l1 ++ l2] in one call. *)
Theorem X16_filter_block_cut
    (f f1 f2 : UnknownFilter.t) (l1 r1 l2 r2 o1 o1' o2 o2' : list R) :
  length r1 = length l1 ->
  UnknownFilter.process f l1 r1 = Ok (f1, o1, o1') ->
  UnknownFilter.process f1 l2 r2 = Ok (f2, o2, o2') ->
  UnknownFilter.C f1 = UnknownFilter.C f
  /\ UnknownFilter.process f (l1 ++ l2) (r1 ++ r2)
     = Ok (f2, o1 ++ o2, o1' ++ o2').
Proof.
  intros Hlen E1 E2. unfold UnknownFilter.process in *.
  apply bind_Ok_inv in E1. destruct E1 as ((((cA & sA) & olA) & orA) & EA & E1).
  injection E1 as ? ? ?. subst. cbn [UnknownFilter.C UnknownFilter.state] in *.
  pose proof (FilterMore.sample_loop_coeffs _ _ _ _ _ _ _ _ EA) as Hc.
  subst cA. split; [reflexivity |].
  rewrite (FilterMore.filt_sample_loop_app l1 r1 l2 r2 _ _ Hlen).
  rewrite EA. cbn [bind].
  apply bind_Ok_inv in E2. destruct E2 as ((((cB & sB) & olB) & orB) & EB & E2).
  injection E2 as ? ? ?. subst. rewrite EB. reflexivity.
Qed.

Lemma X16_filter_block_cut_witness :
  let f := UnknownFilter.set_params UnknownFilter.init 1 1 0.5 0.25 2 in
  exists f1 f2 o1 o1' o2 o2',
    length [3] = length [1]
    /\ UnknownFilter.process f [1] [3] = Ok (f1, o1, o1')
    /\ UnknownFilter.process f1 [2; 0] [4; 0] = Ok (f2, o2, o2')
    /\ UnknownFilter.process f ([1] ++ [2; 0]) ([3] ++ [4; 0])
       = Ok (f2, o1 ++ o2, o1' ++ o2').
Proof.
  intros f.
  destruct (FilterFacts.filt_process_ok f [1] [3] eq_refl)
    as (f1 & o1 & o1' & E1 & _).
  destruct (FilterFacts.filt_process_ok f1 [2; 0] [4; 0] eq_refl)
    as (f2 & o2 & o2' & E2 & _).
  exists f1, f2, o1, o1', o2, o2'.
  split; [reflexivity |]. split; [exact E1 |]. split; [exact E2 |].
  exact (proj2 (X16_filter_block_cut f f1 f2 [1] [3] [2; 0] [4; 0]
                  o1 o1' o2 o2' eq_refl E1 E2)).
Defined.

(** X17 (zero mixing weights): a filter whose three mixing weights [c2],
    [c3], [c4] are 0 returns silence for every input and every integrator
    state.  The coefficient set [1, 0, 0, 0, 0] that [__init__] installs by
    default is such a set: the default filter outputs 0.0 for every sample,
    it does not pass its input through. *)
Theorem X17_default_filter_is_silent
    (f : UnknownFilter.t) (ls rs : list R) :
  UnknownFilter.c2 (UnknownFilter.C f) = 0 ->
  UnknownFilter.c3 (UnknownFilter.C f) = 0 ->
  UnknownFilter.c4 (UnknownFilter.C f) = 0 ->
  length rs = length ls ->
  (exists f',
     UnknownFilter.process f ls rs
     = Ok (f', repeat 0 (length ls), repeat 0 (length ls)))
  /\ exists f0,
       UnknownFilter.process UnknownFilter.init ls rs
       = Ok (f0, repeat 0 (length ls), repeat 0 (length ls)).
Proof.
  intros H2 H3 H4 Hlen. split.
  - unfold UnknownFilter.process.
    destruct (FilterMore.filt_sample_loop_zero_mix ls rs (UnknownFilter.C f)
                (UnknownFilter.state f) H2 H3 H4 Hlen) as (s' & E).
    rewrite E. cbn [bind]. eauto.
  - unfold UnknownFilter.process.
    destruct (FilterMore.filt_sample_loop_zero_mix ls rs
                (UnknownFilter.C UnknownFilter.init)
                (UnknownFilter.state UnknownFilter.init)
                eq_refl eq_refl eq_refl Hlen) as (s' & E).
    rewrite E. cbn [bind]. eauto.
Qed.

Lemma X17_default_filter_is_silent_witness :
  UnknownFilter.c2 (UnknownFilter.C UnknownFilter.init) = 0
  /\ UnknownFilter.c3 (UnknownFilter.C UnknownFilter.init) = 0
  /\ UnknownFilter.c4 (UnknownFilter.C UnknownFilter.init) = 0
  /\ length [0.5; 2] = length [1; -1]
  /\ exists f',
       UnknownFilter.process UnknownFilter.init [1; -1] [0.5; 2]
       = Ok (f', repeat 0 (length [1; -1]), repeat 0 (length [1; -1])).
Proof.
  split; [reflexivity |]. split; [reflexivity |]. split; [reflexivity |].
  split; [reflexivity |].
  exact (proj1 (X17_default_filter_is_silent UnknownFilter.init
                  [1; -1] [0.5; 2] eq_refl eq_refl eq_refl eq_refl)).
Defined.

(** X18 (channels of different lengths): the loop runs over the left
    channel.  A right channel that is shorter makes [process] raise
    [IndexError]; the samples of the right channel past the length of the
    left one are not read: the call returns what it returns on the
    truncated right channel. *)
Theorem X18_filter_channel_lengths
    (f : UnknownFilter.t) (ls rs tail : list R) :
  ((length rs < length ls)%nat ->
   UnknownFilter.process f ls rs = Raise IndexError)
  /\ (length rs = length ls ->
      UnknownFilter.process f ls (rs ++ tail)
      = UnknownFilter.process f ls rs).
Proof.
  split; intros Hlen; unfold UnknownFilter.process.
  - rewrite FilterMore.filt_sample_loop_short by exact Hlen. reflexivity.
  - rewrite FilterMore.filt_sample_loop_tail by exact Hlen. reflexivity.
Qed.

Lemma X18_filter_channel_lengths_witness :
  (length [1]%R < length [1; 2]%R)%nat
  /\ UnknownFilter.process UnknownFilter.init [1; 2] [1] = Raise IndexError.
Proof.
  assert (H : (length [1]%R < length [1; 2]%R)%nat) by (simpl; lia).
  split; [exact H |].
  exact (proj1 (X18_filter_channel_lengths UnknownFilter.init [1; 2] [1] [])
           H).
Defined.

(** X19 (linearity): with fixed coefficients the filter is linear in its
    input and its integrators: scaling both by [a] scales the outputs and
    the final integrators by [a], and the run from the sum of two states on
    the sum of two inputs is the sum of the two runs. *)
Theorem X19_filter_linear
    (c : UnknownFilter.coeffs) (s t s' t' : UnknownFilter.integrators)
    (a : R) (ls rs us vs ol or ul ur : list R) :
  length us = length ls -> length vs = length rs ->
  UnknownFilter.process (UnknownFilter.mk s c) ls rs
  = Ok (UnknownFilter.mk s' c, ol, or) ->
  UnknownFilter.process (UnknownFilter.mk t c) us vs
  = Ok (UnknownFilter.mk t' c, ul, ur) ->
  UnknownFilter.process
    (UnknownFilter.mk
       (UnknownFilter.mk_state
          (a * UnknownFilter.s0 s) (a * UnknownFilter.s1 s)
          (a * UnknownFilter.s2 s) (a * UnknownFilter.s3 s)) c)
    (map (Rmult a) ls) (map (Rmult a) rs)
  = Ok (UnknownFilter.mk
          (UnknownFilter.mk_state
             (a * UnknownFilter.s0 s') (a * UnknownFilter.s1 s')
             (a * UnknownFilter.s2 s') (a * UnknownFilter.s3 s')) c,
        map (Rmult a) ol, map (Rmult a) or)
  /\ UnknownFilter.process
       (UnknownFilter.mk
          (UnknownFilter.mk_state
             (UnknownFilter.s0 s + UnknownFilter.s0 t)
             (UnknownFilter.s1 s + UnknownFilter.s1 t)
             (UnknownFilter.s2 s + UnknownFilter.s2 t)
             (UnknownFilter.s3 s + UnknownFilter.s3 t)) c)
       (map (fun p => fst p + snd p) (combine ls us))
       (map (fun p => fst p + snd p) (combine rs vs))
     = Ok (UnknownFilter.mk
             (UnknownFilter.mk_state
                (UnknownFilter.s0 s' + UnknownFilter.s0 t')
                (UnknownFilter.s1 s' + UnknownFilter.s1 t')
                (UnknownFilter.s2 s' + UnknownFilter.s2 t')
                (UnknownFilter.s3 s' + UnknownFilter.s3 t')) c,
           map (fun p => fst p + snd p) (combine ol ul),
           map (fun p => fst p + snd p) (combine or ur)).
Proof.
  intros Hu Hv E1 E2. unfold UnknownFilter.process in *.
  cbn [UnknownFilter.C UnknownFilter.state] in *.
  apply bind_Ok_inv in E1. destruct E1 as ((((cA & sA) & olA) & orA) & EA & E1).
  apply bind_Ok_inv in E2. destruct E2 as ((((cB & sB) & olB) & orB) & EB & E2).
  injection E1 as ? ? ? ?. injection E2 as ? ? ? ?. subst.
  split.
  - rewrite (FilterMore.filt_sample_loop_scale _ _ a _ _ _ _ _ _ EA).
    reflexivity.
  - rewrite (FilterMore.filt_sample_loop_add _ _ _ _ _ _ _ _ _ _ _ _ _ _ _
               Hu Hv EA EB).
    reflexivity.
Qed.

Lemma X19_filter_linear_witness :
  let c := UnknownFilter.mk_coeffs 1 1 0.5 0.25 2 in
  let z := UnknownFilter.mk_state 0 0 0 0 in
  exists s' t' ol or ul ur,
    length [3; 4] = length [1; 2] /\ length [0; 1] = length [5; 6]
    /\ UnknownFilter.process (UnknownFilter.mk z c) [1; 2] [5; 6]
       = Ok (UnknownFilter.mk s' c, ol, or)
    /\ UnknownFilter.process (UnknownFilter.mk z c) [3; 4] [0; 1]
       = Ok (UnknownFilter.mk t' c, ul, ur)
    /\ UnknownFilter.process
         (UnknownFilter.mk
            (UnknownFilter.mk_state
               (2 * UnknownFilter.s0 z) (2 * UnknownFilter.s1 z)
               (2 * UnknownFilter.s2 z) (2 * UnknownFilter.s3 z)) c)
         (map (Rmult 2) [1; 2]) (map (Rmult 2) [5; 6])
       = Ok (UnknownFilter.mk
               (UnknownFilter.mk_state
                  (2 * UnknownFilter.s0 s') (2 * UnknownFilter.s1 s')
                  (2 * UnknownFilter.s2 s') (2 * UnknownFilter.s3 s')) c,
             map (Rmult 2) ol, map (Rmult 2) or).
Proof.
  intros c z.
  assert (Hrun : forall ls rs, length rs = length ls ->
            exists s' ol or,
              UnknownFilter.process (UnknownFilter.mk z c) ls rs
              = Ok (UnknownFilter.mk s' c, ol, or)).
  { intros ls rs Hlen.
    destruct (FilterFacts.filt_process_ok (UnknownFilter.mk z c) ls rs Hlen)
      as ([s' c'] & ol & or & E & _).
    assert (Hc : c' = c).
    { unfold UnknownFilter.process in E.
      apply bind_Ok_inv in E.
      destruct E as ((((cA & sA) & olA) & orA) & EA & E).
      injection E as ? ? ? ?. subst.
      exact (FilterMore.sample_loop_coeffs _ _ _ _ _ _ _ _ EA). }
    subst c'. eauto. }
  destruct (Hrun [1; 2] [5; 6] eq_refl) as (s' & ol & or & E1).
  destruct (Hrun [3; 4] [0; 1] eq_refl) as (t' & ul & ur & E2).
  exists s', t', ol, or, ul, ur.
  split; [reflexivity |]. split; [reflexivity |].
  split; [exact E1 |]. split; [exact E2 |].
  exact (proj1 (X19_filter_linear c z z s' t' 2 [1; 2] [5; 6] [3; 4] [0; 1]
                  ol or ul ur eq_refl eq_refl E1 E2)).
Defined.

(** X20 (the two filters agree): on coefficients whose denominator
    [(2 * C1 + C0) * C0 + 1] is above 1e-20 in magnitude, and channels of
    equal length, [process] of filter.py (reciprocal computed once, no
    guard) and [process] of test.py (guarded reciprocal, per sample) return
    the same outputs and the same integrators. *)
Theorem X20_filters_agree (f : FilterPy.t) (ls rs : list R) :
  1e-20 < Rabs ((FilterPy.C1 (FilterPy.C f) * 2 + FilterPy.C0 (FilterPy.C f))
                * FilterPy.C0 (FilterPy.C f) + 1) ->
  length rs = length ls ->
  exists f' ol or,
    FilterPy.process f ls rs = Ok (f', ol, or)
    /\ UnknownFilter.process (FilterPy.as_test_filter f) ls rs
       = Ok (FilterPy.as_test_filter f', ol, or).
Proof.
  intros Hden Hlen. unfold FilterPy.process, UnknownFilter.process.
  cbv zeta.
  assert (Hnz : (FilterPy.C1 (FilterPy.C f) * 2 + FilterPy.C0 (FilterPy.C f))
                * FilterPy.C0 (FilterPy.C f) + 1 <> 0).
  { intros E. rewrite E, Rabs_R0 in Hden. lra. }
  rewrite (truediv_ok _ _ Hnz). cbn [bind].
  destruct (SiblingFacts.sample_loop_agrees ls rs (FilterPy.C f)
              (FilterPy.state f) Hden Hlen) as (s' & ol & or & E1 & E2).
  rewrite E1. cbn [bind].
  unfold FilterPy.as_test_filter at 1 2.
  cbn [UnknownFilter.C UnknownFilter.state].
  rewrite E2. cbn [bind].
  eexists _, ol, or. split; reflexivity.
Qed.

Lemma X20_filters_agree_witness :
  exists f f' ol or,
    FilterPy.init = Ok f
    /\ length [0; 0] = length [1; 0]
    /\ FilterPy.process f [1; 0] [0; 0] = Ok (f', ol, or)
    /\ UnknownFilter.process (FilterPy.as_test_filter f) [1; 0] [0; 0]
       = Ok (FilterPy.as_test_filter f', ol, or).
Proof.
  destruct FilterPyFacts.calculate_coefficients_dump as (c & Ec & H0 & H1).
  assert (Ei : FilterPy.init
               = Ok (FilterPy.mk FilterPy.P_dump c (FilterPy.mk_state 0 0 0 0))).
  { unfold FilterPy.init. rewrite Ec. reflexivity. }
  set (f := FilterPy.mk FilterPy.P_dump c (FilterPy.mk_state 0 0 0 0)) in *.
  assert (Hden : 1e-20 < Rabs ((FilterPy.C1 (FilterPy.C f) * 2
                                + FilterPy.C0 (FilterPy.C f))
                               * FilterPy.C0 (FilterPy.C f) + 1)).
  { unfold f. cbn [FilterPy.C]. rewrite H0, H1.
    replace ((1 * 2 + 1) * 1 + 1) with 4 by ring.
    rewrite Rabs_right; lra. }
  destruct (X20_filters_agree f [1; 0] [0; 0] Hden eq_refl)
    as (f' & ol & or & E1 & E2).
  exists f, f', ol, or. split; [exact Ei |]. split; [reflexivity |].
  split; [exact E1 | exact E2].
Defined.

(** X21 (domain of the design step): [_calculate_coefficients] returns
    exactly when [1 + P3 + P4 > 0] and [1 - P3 + P4 > 0] (both roots
    imaginary and not zero); it then yields
    [C0 = sqrt(1 + P3 + P4) / sqrt(1 - P3 + P4)],
    [C1 = (1 - P4) / (sqrt(1 + P3 + P4) * sqrt(1 - P3 + P4))],
    [C2 = (P0 - P1 + P2) / (1 - P3 + P4)],
    [C3 = 2 * (P0 - P2) / (sqrt(1 + P3 + P4) * sqrt(1 - P3 + P4))] and
    [C4 = (P0 + P1 + P2) / (1 + P3 + P4)]; for every other parameter set it
    raises [ZeroDivisionError]. *)
Theorem X21_design_step_domain (P0 P1 P2 P3 P4 : R) :
  (0 < 1 + P3 + P4 -> 0 < 1 - P3 + P4 ->
   exists c,
     FilterPy._calculate_coefficients (P0, P1, P2, P3, P4) = Ok c
     /\ FilterPy.C0 c = sqrt (1 + P3 + P4) / sqrt (1 - P3 + P4)
     /\ FilterPy.C1 c
        = (1 - P4) / (sqrt (1 + P3 + P4) * sqrt (1 - P3 + P4))
     /\ FilterPy.C2 c = (P0 - P1 + P2) / (1 - P3 + P4)
     /\ FilterPy.C3 c
        = 2 * (P0 - P2) / (sqrt (1 + P3 + P4) * sqrt (1 - P3 + P4))
     /\ FilterPy.C4 c = (P0 + P1 + P2) / (1 + P3 + P4))
  /\ (~ (0 < 1 + P3 + P4 /\ 0 < 1 - P3 + P4) ->
      FilterPy._calculate_coefficients (P0, P1, P2, P3, P4)
      = Raise ZeroDivisionError).
Proof.
  split.
  - apply DesignMore.design_closed_form.
  - apply DesignMore.design_raises.
Qed.

Lemma X21_design_step_domain_witness :
  (0 < 1 + 0 + 0 /\ 0 < 1 - 0 + 0
   /\ exists c,
        FilterPy._calculate_coefficients (0.25, 0.75, 1, 0, 0) = Ok c
        /\ FilterPy.C2 c = (0.25 - 0.75 + 1) / (1 - 0 + 0))
  /\ ~ (0 < 1 + 0 + -2 /\ 0 < 1 - 0 + -2)
  /\ FilterPy._calculate_coefficients (0.25, 0.75, 1, 0, -2)
     = Raise ZeroDivisionError.
Proof.
  assert (HA : 0 < 1 + 0 + 0) by lra.
  assert (HB : 0 < 1 - 0 + 0) by lra.
  assert (HN : ~ (0 < 1 + 0 + -2 /\ 0 < 1 - 0 + -2)) by lra.
  split.
  - split; [exact HA |]. split; [exact HB |].
    destruct (proj1 (X21_design_step_domain 0.25 0.75 1 0 0) HA HB)
      as (c & E & _ & _ & H2 & _).
    exists c. split; [exact E | exact H2].
  - split; [exact HN |].
    exact (proj2 (X21_design_step_domain 0.25 0.75 1 0 (-2)) HN).
Defined.

End FilterMoreProperties.

Module CurveMore.

(** [sorted] keeps the elements. *)
Lemma In_insert_sorted (x y : R) (l : list R) :
  In y (insert_sorted x l) <-> y = x \/ In y l.
Proof.
  induction l as [| z l IH]; simpl.
  - split; intros [H | H]; auto.
  - destruct (Rle_dec x z); simpl.
    + split; intros [H | H]; auto.
    + rewrite IH. split; intros H; tauto.
Qed.

Lemma In_sorted (y : R) (l : list R) : In y (sorted l) <-> In y l.
Proof.
  induction l as [| x l IH]; simpl; [tauto |].
  unfold sorted in *. simpl. rewrite In_insert_sorted, IH.
  split; intros [H | H]; auto.
Qed.

(** [sorted] on distinct numbers is strictly increasing. *)
Lemma insert_sorted_strict (x : R) (l : list R) :
  StronglySorted Rlt l -> ~ In x l -> StronglySorted Rlt (insert_sorted x l).
Proof.
  induction l as [| z l IH]; intros Hs Hn; simpl.
  - constructor; constructor.
  - inversion Hs as [| ? ? Hs' Hall]; subst.
    destruct (Rle_dec x z) as [Hle | Hgt].
    + assert (Hlt : x < z).
      { destruct Hle as [Hlt | E]; [exact Hlt |].
        exfalso. apply Hn. left. symmetry. exact E. }
      constructor; [exact Hs |]. constructor; [exact Hlt |].
      eapply Forall_impl; [| exact Hall]. intros a Ha. simpl in Ha. lra.
    + constructor.
      * apply IH; [exact Hs' |]. intros H. apply Hn. right. exact H.
      * apply Forall_forall. intros a Ha. apply In_insert_sorted in Ha.
        destruct Ha as [E | Ha]; [subst a; lra |].
        rewrite Forall_forall in Hall. apply Hall. exact Ha.
Qed.

Lemma sorted_strict (l : list R) : NoDup l -> StronglySorted Rlt (sorted l).
Proof.
  induction 1 as [| x l Hn Hd IH]; [constructor |].
  unfold sorted in *. simpl. apply insert_sorted_strict; [exact IH |].
  intros H. apply Hn. apply (proj1 (In_sorted x l)). exact H.
Qed.

(** The last element of a strictly increasing list is its largest. *)
Lemma last_In (l : list R) (d : R) : l <> [] -> In (last l d) l.
Proof.
  induction l as [| x l IH]; intros Hne; [contradiction Hne; reflexivity |].
  destruct l as [| y l]; [left; reflexivity |].
  right. apply IH. discriminate.
Qed.

Lemma last_largest (l : list R) (d : R) :
  StronglySorted Rlt l -> forall x, In x l -> x <= last l d.
Proof.
  induction l as [| y l IH]; intros Hs x Hx; [contradiction Hx |].
  inversion Hs as [| ? ? Hs' Hall]; subst.
  destruct l as [| z l].
  - destruct Hx as [E | []]. subst. simpl. lra.
  - change (last (y :: z :: l) d) with (last (z :: l) d).
    destruct Hx as [E | Hx].
    + subst x. rewrite Forall_forall in Hall.
      pose proof (Hall z (or_introl eq_refl)).
      pose proof (IH Hs' z (or_introl eq_refl)). lra.
    + apply IH; assumption.
Qed.

Lemma head_smallest (x : R) (l : list R) :
  StronglySorted Rlt (x :: l) -> forall y, In y (x :: l) -> x <= y.
Proof.
  intros Hs y Hy. inversion Hs as [| ? ? _ Hall]; subst.
  destruct Hy as [E | Hy]; [subst; lra |].
  rewrite Forall_forall in Hall. left. apply Hall. exact Hy.
Qed.

(** [points[k]] on a key of the dict. *)
Lemma dict_get_In (points : dict) (k v : R) :
  NoDup (map fst points) -> In (k, v) points -> dict_get points k = Ok v.
Proof.
  induction points as [| [k' v'] points IH]; intros Hd Hin; [contradiction |].
  simpl in Hd. inversion Hd as [| ? ? Hn Hd']; subst. simpl.
  destruct (Req_dec_T k k') as [E | N].
  - destruct Hin as [E' | Hin]; [congruence |].
    exfalso. apply Hn. subst k'.
    change k with (fst (k, v)). apply in_map. exact Hin.
  - destruct Hin as [E' | Hin]; [congruence |]. apply IH; assumption.
Qed.

Lemma dict_get_key (points : dict) (k : R) :
  In k (map fst points) ->
  exists v, dict_get points k = Ok v /\ In (k, v) points.
Proof.
  induction points as [| [k' v'] points IH]; intros Hin; [contradiction |].
  simpl. destruct (Req_dec_T k k') as [E | N].
  - exists v'. split; [reflexivity |]. left. congruence.
  - destruct Hin as [E | Hin]; [simpl in E; congruence |].
    destruct (IH Hin) as (v & E & Hv). exists v. split; [exact E |].
    right. exact Hv.
Qed.

(** An interpolated value lies between the two it interpolates. *)
Lemma lerp_between (lo hi v1 v2 t : R) :
  lo <= v1 <= hi -> lo <= v2 <= hi -> 0 <= t <= 1 ->
  lo <= lerp v1 v2 t <= hi.
Proof. unfold lerp. intros H1 H2 Ht. split; nra. Qed.

(** The loop over the segments, entered with the knob strictly between the
    first and the last key: it finds a segment and returns a value of the
    range of the table. *)
Lemma segments_bounded (knob_val lo hi : R) (points : dict) (ks : list R) :
  StronglySorted Rlt ks ->
  (forall k, In k ks ->
     exists v, dict_get points k = Ok v /\ lo <= v <= hi) ->
  forall k1 rest, ks = k1 :: rest ->
    k1 < knob_val < last ks 0 ->
    exists v, interpolate_segments knob_val points ks = Ok v /\ lo <= v <= hi.
Proof.
  induction ks as [| k ks IH]; intros Hs Hget k1 rest E Hk; [discriminate E |].
  injection E as ? ?. subst k1 rest.
  destruct ks as [| k2 rest'].
  - simpl in Hk. lra.
  - inversion Hs as [| ? ? Hs' Hall]; subst.
    assert (H12 : k < k2).
    { rewrite Forall_forall in Hall. apply Hall. left. reflexivity. }
    cbn [interpolate_segments].
    destruct (Rle_dec k knob_val) as [_ | N]; [| lra].
    destruct (Rle_dec knob_val k2) as [Hle | Hgt].
    + rewrite truediv_ok by lra. cbn [bind].
      destruct (Hget k (or_introl eq_refl)) as (v1 & E1 & B1).
      destruct (Hget k2 (or_intror (or_introl eq_refl))) as (v2 & E2 & B2).
      rewrite E1, E2. cbn [bind]. eexists. split; [reflexivity |].
      apply lerp_between; try assumption.
      assert (Hd : 0 < k2 - k) by lra.
      split.
      * apply Rmult_le_pos; [lra |]. left. apply Rinv_0_lt_compat. exact Hd.
      * apply (Rmult_le_reg_r (k2 - k)); [exact Hd |].
        unfold Rdiv. rewrite Rmult_assoc, Rinv_l by lra. lra.
    + apply (IH Hs') with (k1 := k2) (rest := rest'); [| reflexivity |].
      * intros k' Hk'. apply Hget. right. exact Hk'.
      * change (last (k :: k2 :: rest') 0) with (last (k2 :: rest') 0) in Hk.
        lra.
Qed.

(** The loop over the segments on a key of the table strictly above the
    first key: it returns the value of the key. *)
Lemma segments_at_key (k v : R) (points : dict) (ks : list R) :
  StronglySorted Rlt ks ->
  (forall k', In k' ks -> exists v', dict_get points k' = Ok v') ->
  dict_get points k = Ok v ->
  In k ks ->
  forall k1 rest, ks = k1 :: rest -> k1 < k ->
    interpolate_segments k points ks = Ok v.
Proof.
  induction ks as [| k0 ks IH]; intros Hs Hget Hv Hin k1 rest E Hk;
    [discriminate E |].
  injection E as ? ?. subst k1 rest.
  destruct Hin as [E | Hin]; [lra |].
  destruct ks as [| k2 rest']; [contradiction Hin |].
  inversion Hs as [| ? ? Hs' Hall]; subst.
  assert (H12 : k0 < k2).
  { rewrite Forall_forall in Hall. apply Hall. left. reflexivity. }
  cbn [interpolate_segments].
  destruct (Rle_dec k0 k) as [_ | N]; [| lra].
  destruct (Rle_dec k k2) as [Hle | Hgt].
  - assert (Ek : k = k2).
    { pose proof (head_smallest k2 rest' Hs' k Hin). lra. }
    subst k2. rewrite truediv_ok by lra. cbn [bind].
    destruct (Hget k0 (or_introl eq_refl)) as (v0 & E0).
    rewrite E0, Hv. cbn [bind]. f_equal. unfold lerp. field. lra.
  - apply (IH Hs') with (k1 := k2) (rest := rest');
      [| exact Hv | | reflexivity | lra].
    + intros k' Hk'. apply Hget. right. exact Hk'.
    + destruct Hin as [E | Hin]; [lra | right; exact Hin].
Qed.

(** The sorted keys of a non-empty dict. *)
Lemma sorted_keys_cons (points : dict) :
  points <> [] ->
  exists first rest, sorted (map fst points) = first :: rest.
Proof.
  intros Hne. destruct (sorted (map fst points)) as [| first rest] eqn:E.
  - exfalso. destruct points as [| [k v] points]; [contradiction Hne; reflexivity |].
    assert (H : In k (sorted (map fst ((k, v) :: points)))).
    { apply (proj2 (In_sorted _ _)). left. reflexivity. }
    rewrite E in H. contradiction H.
  - eauto.
Qed.

(** On a table with at least one point the curve is defined and stays in
    the range of the values of the table. *)
Lemma curve_bounded (knob_val lo hi : R) (points : dict) :
  points <> [] ->
  NoDup (map fst points) ->
  (forall k v, In (k, v) points -> lo <= v <= hi) ->
  exists v, interpolate_curve knob_val points = Ok v /\ lo <= v <= hi.
Proof.
  intros Hne Hd Hb.
  assert (Hget : forall k, In k (sorted (map fst points)) ->
                   exists v, dict_get points k = Ok v /\ lo <= v <= hi).
  { intros k Hk. apply (proj1 (In_sorted _ _)) in Hk.
    destruct (dict_get_key points k Hk) as (v & E & Hin).
    exists v. split; [exact E |]. exact (Hb k v Hin). }
  pose proof (sorted_strict _ Hd) as Hs.
  destruct (sorted_keys_cons points Hne) as (first & rest & E).
  unfold interpolate_curve. cbv zeta. rewrite E. rewrite E in Hget, Hs.
  destruct (Rle_dec knob_val first) as [H1 | H1].
  - apply Hget. left. reflexivity.
  - destruct (Rle_dec (last (first :: rest) 0) knob_val) as [H2 | H2].
    + apply Hget. apply last_In. discriminate.
    + apply (segments_bounded knob_val lo hi points (first :: rest)
               Hs Hget first rest eq_refl).
      lra.
Qed.

End CurveMore.

Section CurveProperties.

(** X22 (the curve is defined and stays in the range of its table): on the
    empty table [interpolate_curve] raises [IndexError]; on a table with at
    least one point (the keys of a dict are distinct) it returns for every
    knob value, and what it returns lies between the smallest and the largest
    value of the table: no division by zero between two keys, no [KeyError],
    and the final [return 0.0] is not reached when 0 is outside that
    range. *)
Theorem X22_curve_total_bounded (knob_val lo hi : R) (points : dict) :
  interpolate_curve knob_val [] = Raise IndexError
  /\ (points <> [] ->
      NoDup (map fst points) ->
      (forall k v, In (k, v) points -> lo <= v <= hi) ->
      exists v, interpolate_curve knob_val points = Ok v /\ lo <= v <= hi).
Proof.
  split.
  - unfold interpolate_curve. reflexivity.
  - apply CurveMore.curve_bounded.
Qed.

Lemma X22_curve_total_bounded_witness :
  [(0, 2); (1, 4)] <> []
  /\ NoDup (map fst [(0, 2); (1, 4)])
  /\ (forall k v : R, In (k, v) [(0, 2); (1, 4)] -> 2 <= v <= 4)
  /\ exists v, interpolate_curve 0.5 [(0, 2); (1, 4)] = Ok v /\ 2 <= v <= 4.
Proof.
  assert (Hne : [(0, 2); (1, 4)] <> ([] : dict)) by discriminate.
  assert (Hd : NoDup (map fst [(0, 2); (1, 4)])).
  { simpl. constructor.
    - intros [H | []]. lra.
    - constructor; [intros [] | constructor]. }
  assert (Hb : forall k v : R, In (k, v) [(0, 2); (1, 4)] -> 2 <= v <= 4).
  { intros k v [H | [H | []]]; inversion H; subst; lra. }
  split; [exact Hne |]. split; [exact Hd |]. split; [exact Hb |].
  exact (proj2 (X22_curve_total_bounded 0.5 2 4 [(0, 2); (1, 4)]) Hne Hd Hb).
Defined.

(** X23 (the curve passes through its points): at a knob value that is a key
    of the table, [interpolate_curve] returns the value stored under that
    key (in the exact arithmetic of this development), also when the key is
    reached as the right end of a segment. *)
Theorem X23_curve_through_points (k v : R) (points : dict) :
  NoDup (map fst points) -> In (k, v) points ->
  interpolate_curve k points = Ok v.
Proof.
  intros Hd Hin.
  pose proof (CurveMore.dict_get_In points k v Hd Hin) as Hv.
  assert (Hk : In k (sorted (map fst points))).
  { apply (proj2 (CurveMore.In_sorted _ _)). change k with (fst (k, v)).
    apply in_map. exact Hin. }
  assert (Hget : forall k', In k' (sorted (map fst points)) ->
                   exists v', dict_get points k' = Ok v').
  { intros k' Hk'. apply (proj1 (CurveMore.In_sorted _ _)) in Hk'.
    destruct (CurveMore.dict_get_key points k' Hk') as (v' & E & _). eauto. }
  pose proof (CurveMore.sorted_strict _ Hd) as Hs.
  unfold interpolate_curve. cbv zeta.
  destruct (sorted (map fst points)) as [| first rest] eqn:E;
    [contradiction Hk |].
  destruct (Rle_dec k first) as [H1 | H1].
  - pose proof (CurveMore.head_smallest first rest Hs k Hk).
    replace first with k by lra. exact Hv.
  - destruct (Rle_dec (last (first :: rest) 0) k) as [H2 | H2].
    + pose proof (CurveMore.last_largest (first :: rest) 0 Hs k Hk).
      replace (last (first :: rest) 0) with k by lra. exact Hv.
    + apply (CurveMore.segments_at_key k v points (first :: rest) Hs Hget Hv
               Hk first rest eq_refl).
      lra.
Qed.

Lemma X23_curve_through_points_witness :
  NoDup (map fst [(1, 4); (0, 2); (3, 5)])
  /\ In (1, 4) [(1, 4); (0, 2); (3, 5)]
  /\ interpolate_curve 1 [(1, 4); (0, 2); (3, 5)] = Ok 4.
Proof.
  assert (Hd : NoDup (map fst [(1, 4); (0, 2); (3, 5)])).
  { simpl. constructor.
    - intros [H | [H | []]]; lra.
    - constructor.
      + intros [H | []]. lra.
      + constructor; [intros [] | constructor]. }
  assert (Hin : In (1, 4) [(1, 4); (0, 2); (3, 5)]) by (left; reflexivity).
  split; [exact Hd |]. split; [exact Hin |].
  exact (X23_curve_through_points 1 4 [(1, 4); (0, 2); (3, 5)] Hd Hin).
Defined.

(** X24 (clamping): a knob value at or below the smallest key gets the value
    of the smallest key, a knob value at or above the largest key the value
    of the largest key, in whatever order the table lists its points. *)
Theorem X24_curve_clamps (knob_val k v : R) (points : dict) :
  NoDup (map fst points) -> In (k, v) points ->
  ((forall k', In k' (map fst points) -> k <= k') -> knob_val <= k ->
   interpolate_curve knob_val points = Ok v)
  /\ ((forall k', In k' (map fst points) -> k' <= k) -> k <= knob_val ->
      interpolate_curve knob_val points = Ok v).
Proof.
  intros Hd Hin.
  pose proof (CurveMore.dict_get_In points k v Hd Hin) as Hv.
  assert (Hk : In k (sorted (map fst points))).
  { apply (proj2 (CurveMore.In_sorted _ _)). change k with (fst (k, v)).
    apply in_map. exact Hin. }
  pose proof (CurveMore.sorted_strict _ Hd) as Hs.
  unfold interpolate_curve. cbv zeta.
  destruct (sorted (map fst points)) as [| first rest] eqn:E;
    [contradiction Hk |].
  assert (Hfirst : In first (map fst points)).
  { apply (proj1 (CurveMore.In_sorted _ _)). rewrite E. left. reflexivity. }
  assert (Hlast : In (last (first :: rest) 0) (map fst points)).
  { apply (proj1 (CurveMore.In_sorted _ _)). rewrite E. apply CurveMore.last_In.
    discriminate. }
  pose proof (CurveMore.head_smallest first rest Hs k Hk) as Hlo.
  pose proof (CurveMore.last_largest (first :: rest) 0 Hs k Hk) as Hhi.
  split.
  - intros Hmin Hknob. pose proof (Hmin first Hfirst).
    assert (Ef : first = k) by lra. subst first.
    destruct (Rle_dec knob_val k) as [_ | N]; [exact Hv | lra].
  - intros Hmax Hknob. pose proof (Hmax _ Hlast).
    assert (El : last (first :: rest) 0 = k) by lra.
    destruct (Rle_dec knob_val first) as [H1 | H1].
    + assert (Ef : first = k) by lra. subst first. exact Hv.
    + rewrite El. destruct (Rle_dec k knob_val) as [_ | N]; [exact Hv | lra].
Qed.

Lemma X24_curve_clamps_witness :
  NoDup (map fst [(1, 4); (0, 2); (3, 5)])
  /\ In (3, 5) [(1, 4); (0, 2); (3, 5)]
  /\ (forall k', In k' (map fst [(1, 4); (0, 2); (3, 5)]) -> k' <= 3)
  /\ 3 <= 7
  /\ interpolate_curve 7 [(1, 4); (0, 2); (3, 5)] = Ok 5.
Proof.
  assert (Hd : NoDup (map fst [(1, 4); (0, 2); (3, 5)])).
  { simpl. constructor.
    - intros [H | [H | []]]; lra.
    - constructor.
      + intros [H | []]. lra.
      + constructor; [intros [] | constructor]. }
  assert (Hin : In (3, 5) [(1, 4); (0, 2); (3, 5)])
    by (right; right; left; reflexivity).
  assert (Hmax : forall k', In k' (map fst [(1, 4); (0, 2); (3, 5)]) -> k' <= 3).
  { simpl. intros k' [H | [H | [H | []]]]; lra. }
  assert (Hk : 3 <= 7) by lra.
  split; [exact Hd |]. split; [exact Hin |]. split; [exact Hmax |].
  split; [exact Hk |].
  exact (proj2 (X24_curve_clamps 7 3 5 [(1, 4); (0, 2); (3, 5)] Hd Hin)
           Hmax Hk).
Defined.

End CurveProperties.

Module CompositeMore.
Import FreshAirClone.

(** The summing loop reads the right input below [block_len] only. *)
Lemma getitem_app (l tail : list R) (i : nat) :
  (i < length l)%nat -> Py.getitem (l ++ tail) i = Py.getitem l i.
Proof.
  intros Hi. unfold Py.getitem. rewrite nth_error_app1 by exact Hi.
  reflexivity.
Qed.

Lemma sum_loop_right_tail (n : nat) :
  forall i a b c a' b' c' tail,
    (i + n <= length a')%nat ->
    sum_loop a b c (a' ++ tail) b' c' i n = sum_loop a b c a' b' c' i n.
Proof.
  induction n as [| n IH]; intros i a b c a' b' c' tail Hle; [reflexivity |].
  cbn [sum_loop]. rewrite getitem_app by lia.
  rewrite (IH (S i)) by lia. reflexivity.
Qed.

(** The two lanes read the right channel through their filter. *)
Lemma filt_process_tail (f : UnknownFilter.t) (ls rs tail : list R) :
  length rs = length ls ->
  UnknownFilter.process f ls (rs ++ tail) = UnknownFilter.process f ls rs.
Proof.
  intros Hlen. unfold UnknownFilter.process.
  rewrite FilterMore.filt_sample_loop_tail by exact Hlen. reflexivity.
Qed.

Lemma filt_process_short (f : UnknownFilter.t) (ls rs : list R) :
  (length rs < length ls)%nat ->
  UnknownFilter.process f ls rs = Raise IndexError.
Proof.
  intros Hlen. unfold UnknownFilter.process.
  rewrite FilterMore.filt_sample_loop_short by exact Hlen. reflexivity.
Qed.

(** Lane 0 does not look at the High knob. *)
Lemma mid_lane_returns (self : t) (l r : list R) :
  0 < UnknownCompressor.sample_rate (mid_compressor self) ->
  0 <= UnknownCompressor.threshold (mid_compressor self) ->
  length r = length l ->
  exists res, mid_lane self l r = Ok res.
Proof.
  intros Hsr Hth Hlen. unfold mid_lane.
  destruct (FilterFacts.filt_process_ok (mid_filter self) l r Hlen)
    as (mf & fl & fr & Ef & L1 & L2).
  rewrite Ef. cbn [bind].
  destruct (CurveFacts.MID_GAIN_CURVE_total (knob_mid self)) as (raw & Er).
  rewrite Er. cbn [bind].
  destruct (CompressorFacts.comp_process_block_ok (mid_compressor self)
              (map (fun s => s * (raw - 0.05)) fl)
              (map (fun s => s * (raw - 0.05)) fr) Hsr Hth)
    as (mc & ml & mr & Ec & _).
  { rewrite !length_map. lia. }
  rewrite Ec. cbn [bind]. eauto.
Qed.

(** Lane 1 with a negative High knob: the boost raises. *)
Lemma high_lane_negative_knob (self : t) (l r : list R) :
  0 < UnknownCompressor.sample_rate (high_gate self) ->
  0 <= UnknownCompressor.threshold (high_gate self) ->
  knob_high self < 0 ->
  length r = length l ->
  high_lane self l r = Raise ValueError.
Proof.
  intros Hsr Hth Hk Hlen. unfold high_lane.
  destruct (FilterFacts.filt_process_ok (high_filter self) l r Hlen)
    as (hf & fl & fr & Ef & L1 & L2).
  rewrite Ef. cbn [bind].
  destruct (CompressorFacts.comp_process_block_ok (high_gate self) fl fr
              Hsr Hth) as (hg & gl & gr & Eg & _); [lia |].
  rewrite Eg. cbn [bind].
  rewrite CompressorMore.math_pow_negative_base by lra. reflexivity.
Qed.

End CompositeMore.

Module TableMore.

(** The value of a single-precision word of a normal, positive number. *)
Ltac float_word m e n k :=
  unfold Hex.hex_to_float;
  rewrite (TableFacts.ieee_value_normal 23 8 _ m e)
    by (vm_compute; congruence);
  change (2 ^ 23 + m)%Z with n;
  change (e - (2 ^ (8 - 1) - 1) - 23)%Z with k;
  unfold powerRZ; simpl Pos.to_nat; simpl pow; lra.

Lemma five_keys_distinct (v0 v1 v2 v3 v4 : R) :
  NoDup (map fst [(0.00, v0); (0.25, v1); (0.50, v2); (0.75, v3); (1.00, v4)]).
Proof.
  simpl. repeat constructor; simpl; intros H; decompose [or] H; lra.
Qed.

(** The slopes of the limiter shape table lie between 0.49 and 0.74. *)
Lemma HIGH_LIMITER_SHAPE_CURVE_range (k v : R) :
  In (k, v) HIGH_LIMITER_SHAPE_CURVE -> 0.49 <= v <= 0.74.
Proof.
  unfold HIGH_LIMITER_SHAPE_CURVE. cbn [In].
  intros [H | [H | [H | [H | [H | []]]]]]; injection H as _ <-.
  - float_word 4010769%Z 126%Z 12399377%Z (-24)%Z.
  - float_word 2300143%Z 126%Z 10688751%Z (-24)%Z.
  - float_word 1381750%Z 126%Z 9770358%Z (-24)%Z.
  - float_word 630352%Z 126%Z 9018960%Z (-24)%Z.
  - float_word 8329198%Z 125%Z 16717806%Z (-25)%Z.
Qed.

(** The thresholds of the limiter threshold table lie between 0.13 and
    0.51. *)
Lemma HIGH_LIMITER_THRESH_CURVE_range (k v : R) :
  In (k, v) HIGH_LIMITER_THRESH_CURVE -> 0.13 <= v <= 0.51.
Proof.
  unfold HIGH_LIMITER_THRESH_CURVE. cbn [In].
  intros [H | [H | [H | [H | [H | []]]]]]; injection H as _ <-.
  - float_word 16797%Z 126%Z 8405405%Z (-24)%Z.
  - float_word 1408047%Z 125%Z 9796655%Z (-25)%Z.
  - float_word 6273778%Z 124%Z 14662386%Z (-26)%Z.
  - float_word 3177706%Z 124%Z 11566314%Z (-26)%Z.
  - float_word 1002295%Z 124%Z 9390903%Z (-26)%Z.
Qed.

End TableMore.

Section CompositeMoreProperties.
Import FreshAirClone.

(** X25 (channels of different lengths): [process] runs over the left
    channel.  A right channel that is shorter makes it raise [IndexError]
    (in the filter of the mid lane); the samples of the right channel past
    the length of the left one are never read: the call returns what it
    returns on the truncated right channel. *)
Theorem X25_process_channel_lengths (self : t) (l r tail : list R) :
  ((length r < length l)%nat -> process self l r = Raise IndexError)
  /\ (length r = length l -> process self l (r ++ tail) = process self l r).
Proof.
  split; intros Hlen.
  - unfold process, mid_lane.
    rewrite CompositeMore.filt_process_short by exact Hlen. reflexivity.
  - unfold process, mid_lane, high_lane.
    rewrite !CompositeMore.filt_process_tail by exact Hlen.
    destruct (UnknownFilter.process (mid_filter self) l r)
      as [[[mf fl] fr] | e]; [| reflexivity].
    cbn [bind].
    destruct (interpolate_curve (knob_mid self) MID_GAIN_CURVE)
      as [raw | e]; [| reflexivity].
    cbn [bind].
    destruct (UnknownCompressor.process_block (mid_compressor self) _ _)
      as [[[mc ml] mr] | e]; [| reflexivity].
    cbn [bind].
    destruct (UnknownFilter.process (high_filter self) l r)
      as [[[hf hl0] hr0] | e]; [| reflexivity].
    cbn [bind].
    destruct (UnknownCompressor.process_block (high_gate self) hl0 hr0)
      as [[[hg gl] gr] | e]; [| reflexivity].
    cbn [bind].
    destruct (Py.math_pow (knob_high self) 0.8) as [p | e]; [| reflexivity].
    cbn [bind].
    destruct (StereoGainMeter.process_block (high_gain self) gl gr 0 _ 0)
      as [[[hgain bl] br] | e]; [| reflexivity].
    cbn [bind].
    destruct (UnknownCompressor.process_block (high_limiter self) bl br)
      as [[[hlim ll] lr] | e]; [| reflexivity].
    cbn [bind].
    rewrite CompositeMore.sum_loop_right_tail by (simpl; lia).
    reflexivity.
Qed.

Lemma X25_process_channel_lengths_witness :
  (length [1]%R < length [1; 2]%R)%nat
  /\ process (init 44100) [1; 2] [1] = Raise IndexError.
Proof.
  assert (H : (length [1]%R < length [1; 2]%R)%nat) by (simpl; lia).
  split; [exact H |].
  exact (proj1 (X25_process_channel_lengths (init 44100) [1; 2] [1] []) H).
Defined.

(** X26 (a session in range never raises): from a composite constructed
    with a positive sample rate, every sequence of [set_parameters] calls
    with a non-negative High knob and a trim of at most 6000 dB, and of
    [process] calls on non-empty blocks with channels of equal length, runs
    to its end without an exception, and leaves the composite well
    configured (positive sample rates, non-negative thresholds,
    non-negative High knob). *)
Theorem X26_session_never_raises (sample_rate : R) (calls : list call) :
  0 < sample_rate -> Forall in_range calls ->
  exists self',
    run (init sample_rate) calls = Ok self' /\ well_configured self'.
Proof.
  intros Hsr Hall.
  pose proof (ReachFacts.init_well_configured sample_rate Hsr) as Hwc.
  assert (Htrim : knob_trim (init sample_rate) <= 6000) by (simpl; lra).
  revert Hwc Htrim Hall. generalize (init sample_rate).
  induction calls as [| c calls IH]; intros self Hwc Htrim Hall.
  - exists self. split; [reflexivity | exact Hwc].
  - inversion Hall as [| ? ? Hc Hrest]; subst.
    destruct c as [mid_air high_air trim_db | left_in right_in];
      cbn [run]; simpl in Hc.
    + destruct Hc as (Hhigh & Ht).
      destruct (CompositeFacts.set_parameters_ok self mid_air high_air trim_db)
        as (thresh & ratio & E).
      rewrite E. cbn [bind]. apply IH; [| exact Ht | exact Hrest].
      exact (ConfigFacts.set_parameters_well_configured self _ mid_air
               high_air trim_db Hwc Hhigh E).
    + destruct Hc as (HN & Hlen).
      destruct (CompositeFacts.process_returns self left_in right_in Hwc
                  Htrim HN Hlen)
        as (s1 & ol & or & p & E & _ & _ & _ & _ & _ & _ & _ & Hkt).
      rewrite E. cbn [bind]. apply IH; [| lra | exact Hrest].
      exact (ConfigFacts.process_well_configured self s1 left_in right_in
               ol or Hwc Htrim HN Hlen E).
Qed.

Lemma X26_session_never_raises_witness :
  0 < 176400
  /\ Forall in_range
       [SetParameters 0 0.05 0; Process [0.1; -0.1] [0.1; -0.1];
        SetParameters 1 1 (-3); Process [0.2] [0.3]]
  /\ exists self',
       run (init 176400)
         [SetParameters 0 0.05 0; Process [0.1; -0.1] [0.1; -0.1];
          SetParameters 1 1 (-3); Process [0.2] [0.3]] = Ok self'.
Proof.
  assert (Hsr : 0 < 176400) by lra.
  assert (Hall : Forall in_range
                   [SetParameters 0 0.05 0; Process [0.1; -0.1] [0.1; -0.1];
                    SetParameters 1 1 (-3); Process [0.2] [0.3]]).
  { repeat constructor; simpl; lra. }
  split; [exact Hsr |]. split; [exact Hall |].
  destruct (X26_session_never_raises 176400 _ Hsr Hall) as (self' & E & _).
  exists self'. exact E.
Defined.

(** X27 (the output stages as one static gain): on a well-configured
    composite and a non-empty block with channels of equal length, when the
    trim stage and the pad stage are settled (never called yet, or their
    stored target is the target of this call up to 1e-15), the output is the
    sample-wise sum [dry + mid + high] times [10 ** (knob_trim / 20)] times
    0.822, sample by sample; both stages are settled again afterwards, so
    this holds from the first call on for as long as the trim knob is not
    moved. *)
Theorem X27_static_output_gain (self : t) (l r : list R) (trim_lin : R) :
  well_configured self -> (1 <= length l)%nat -> length r = length l ->
  Py.math_pow 10 (knob_trim self / 20) = Ok trim_lin ->
  StereoGainMeter._initialized (trim_gain self) = false
  \/ Rabs (trim_lin - StereoGainMeter._stored_target_gain (trim_gain self))
     < 1e-15 ->
  StereoGainMeter._initialized (static_pad self) = false
  \/ Rabs (pad_val - StereoGainMeter._stored_target_gain (static_pad self))
     < 1e-15 ->
  exists mf mc mid_l mid_r hf hg hgain hl high_l high_r self',
    mid_lane self l r = Ok (mf, mc, mid_l, mid_r)
    /\ high_lane self l r = Ok (hf, hg, hgain, hl, high_l, high_r)
    /\ process self l r
       = Ok (self',
             map (fun x => x * trim_lin * pad_val)
               (samplewise_sum l mid_l high_l),
             map (fun x => x * trim_lin * pad_val)
               (samplewise_sum r mid_r high_r))
    /\ knob_trim self' = knob_trim self
    /\ StereoGainMeter._initialized (trim_gain self') = true
    /\ StereoGainMeter._stored_target_gain (trim_gain self') = trim_lin
    /\ StereoGainMeter._initialized (static_pad self') = true
    /\ StereoGainMeter._stored_target_gain (static_pad self') = pad_val.
Proof.
  intros Hwc HN Hlen Et Htrim Hpad.
  destruct (CompositeFacts.mid_lane_ok self l r Hwc Hlen)
    as (mf & mc & ml & mr & Em & M1 & M2 & _).
  destruct (CompositeFacts.high_lane_ok self l r Hwc HN Hlen)
    as (hf & hg & hgain & hl & hleft & hright & p & Eh & H1 & H2 & _).
  assert (Eq : Py.truediv (knob_trim self) 20 = Ok (knob_trim self / 20))
    by (apply truediv_ok; lra).
  (* the trim stage scales the sum by its target *)
  destruct (GainFacts.gain_process_block_settled (trim_gain self)
              (samplewise_sum l ml hleft) (samplewise_sum r mr hright)
              0 trim_lin 0 Htrim)
    as (trim' & Etr & Ti & Tst).
  { rewrite !CompositeFacts.samplewise_sum_length by lia. exact Hlen. }
  (* the pad stage scales the result by 0.822 *)
  destruct (GainFacts.gain_process_block_settled (static_pad self)
              (map (fun x => x * trim_lin) (samplewise_sum l ml hleft))
              (map (fun x => x * trim_lin) (samplewise_sum r mr hright))
              0 pad_val 0 Hpad)
    as (pad' & Ep & Pi & Pst).
  { rewrite !length_map, !CompositeFacts.samplewise_sum_length by lia.
    exact Hlen. }
  change (StereoGainMeter.target_gain_of 0 trim_lin 0) with trim_lin
    in Etr, Tst.
  change (StereoGainMeter.target_gain_of 0 pad_val 0) with pad_val
    in Ep, Pst.
  rewrite !map_map in Ep.
  eexists mf, mc, ml, mr, hf, hg, hgain, hl, hleft, hright, _.
  split; [exact Em |]. split; [exact Eh |].
  split.
  - eapply CompositeFacts.process_compose; eassumption.
  - cbn [knob_trim trim_gain static_pad]. repeat split; assumption.
Qed.

Lemma X27_static_output_gain_witness :
  well_configured (init 44100)
  /\ (1 <= length [0.1; -0.1]%R)%nat
  /\ length [0.1; 0.1] = length [0.1; -0.1]
  /\ Py.math_pow 10 (knob_trim (init 44100) / 20) = Ok 1
  /\ exists mid_l mid_r high_l high_r self',
       process (init 44100) [0.1; -0.1] [0.1; 0.1]
       = Ok (self',
             map (fun x => x * 1 * pad_val)
               (samplewise_sum [0.1; -0.1] mid_l high_l),
             map (fun x => x * 1 * pad_val)
               (samplewise_sum [0.1; 0.1] mid_r high_r)).
Proof.
  pose proof (ReachFacts.init_well_configured 44100 ltac:(lra)) as Hwc.
  assert (HN : (1 <= length [0.1; -0.1]%R)%nat) by (simpl; lia).
  assert (Et : Py.math_pow 10 (knob_trim (init 44100) / 20) = Ok 1).
  { unfold Py.math_pow. simpl knob_trim.
    destruct (Req_dec_T (0 / 20) 0) as [_ | N]; [reflexivity | lra]. }
  split; [exact Hwc |]. split; [exact HN |]. split; [reflexivity |].
  split; [exact Et |].
  destruct (X27_static_output_gain (init 44100) [0.1; -0.1] [0.1; 0.1] 1
              Hwc HN eq_refl Et (or_introl eq_refl) (or_introl eq_refl))
    as (mf & mc & ml & mr & hf & hg & hgain & hl & hleft & hright & self'
        & _ & _ & E & _).
  exists ml, mr, hleft, hright, self'. exact E.
Defined.

(** X28 (a negative High knob): [set_parameters] accepts a negative High
    knob without complaint; every later [process] call on channels of equal
    length, the empty block included, then raises [ValueError]: the boost
    [math.pow(knob_high, 0.8)] has a negative base and a fractional
    exponent. *)
Theorem X28_negative_high_knob_raises
    (self : t) (mid_air high_air trim_db : R) (l r : list R) :
  well_configured self -> high_air < 0 -> length r = length l ->
  exists self',
    set_parameters self mid_air high_air trim_db = Ok self'
    /\ process self' l r = Raise ValueError.
Proof.
  intros (A1 & A2 & A3 & A4 & _) Hk Hlen.
  destruct (CompositeFacts.set_parameters_ok self mid_air high_air trim_db)
    as (thresh & ratio & E).
  eexists. split; [exact E |].
  unfold process.
  match goal with
  | |- context [mid_lane ?s l r] =>
      destruct (CompositeMore.mid_lane_returns s l r A1 A2 Hlen)
        as ([[[mf mc] ml] mr] & Em);
      rewrite Em; cbn [bind];
      rewrite (CompositeMore.high_lane_negative_knob s l r A3 A4 Hk Hlen)
  end.
  reflexivity.
Qed.

Lemma X28_negative_high_knob_raises_witness :
  well_configured (init 44100) /\ -0.5 < 0
  /\ length [0.1] = length [0.2]
  /\ exists self',
       set_parameters (init 44100) 0 (-0.5) 0 = Ok self'
       /\ process self' [0.2] [0.1] = Raise ValueError.
Proof.
  pose proof (ReachFacts.init_well_configured 44100 ltac:(lra)) as Hwc.
  assert (Hk : -0.5 < 0) by lra.
  split; [exact Hwc |]. split; [exact Hk |]. split; [reflexivity |].
  exact (X28_negative_high_knob_raises (init 44100) 0 (-0.5) 0 [0.2] [0.1]
           Hwc Hk eq_refl).
Defined.

(** X29 (what [set_parameters] gives the limiter): for every High knob
    value, inside [0, 1] or not, the slope read off the shape table lies in
    [0.49, 0.74], so the ratio is [1 / (1 - slope)], between 1.9 and 3.9,
    and the fallback ratio 20.0 is never used; the slope that
    [process_block] of the limiter derives back from this ratio is the slope
    of the table; the threshold lies in [0.13, 0.51]. *)
Theorem X29_limiter_settings (self : t) (mid_air high_air trim_db : R) :
  exists self' slope,
    set_parameters self mid_air high_air trim_db = Ok self'
    /\ interpolate_curve high_air HIGH_LIMITER_SHAPE_CURVE = Ok slope
    /\ 0.49 <= slope <= 0.74
    /\ UnknownCompressor.ratio (high_limiter self') = 1 / (1 - slope)
    /\ 1.9 <= UnknownCompressor.ratio (high_limiter self') <= 3.9
    /\ UnknownCompressor.block_slope (high_limiter self') = Ok slope
    /\ 0.13 <= UnknownCompressor.threshold (high_limiter self') <= 0.51.
Proof.
  destruct (CurveMore.curve_bounded high_air 0.49 0.74
              HIGH_LIMITER_SHAPE_CURVE)
    as (slope & Es & Hs);
    [discriminate | apply TableMore.five_keys_distinct
     | apply TableMore.HIGH_LIMITER_SHAPE_CURVE_range |].
  destruct (CurveMore.curve_bounded high_air 0.13 0.51
              HIGH_LIMITER_THRESH_CURVE)
    as (thresh & Et & Ht);
    [discriminate | apply TableMore.five_keys_distinct
     | apply TableMore.HIGH_LIMITER_THRESH_CURVE_range |].
  unfold set_parameters. rewrite Es. cbn [bind].
  destruct (Rlt_dec slope 1) as [_ | N]; [| lra].
  rewrite truediv_ok by lra. cbn [bind]. rewrite Et. cbn [bind].
  eexists _, slope. split; [reflexivity |]. split; [reflexivity |].
  split; [exact Hs |].
  cbn [high_limiter UnknownCompressor.ratio UnknownCompressor.threshold
       UnknownCompressor.set_ratio UnknownCompressor.set_threshold].
  assert (Hd : 0 < 1 - slope) by lra.
  assert (Hr : 1 / (1 - slope) * (1 - slope) = 1) by (field; lra).
  assert (Hrange : 1.9 <= 1 / (1 - slope) <= 3.9) by (split; nra).
  split; [reflexivity |]. split; [exact Hrange |]. split; [| exact Ht].
  unfold UnknownCompressor.block_slope.
  cbn [UnknownCompressor.ratio UnknownCompressor.set_ratio].
  destruct (Rlt_dec 1 (1 / (1 - slope))) as [_ | N]; [| lra].
  rewrite truediv_ok by lra. cbn [bind]. f_equal. field. lra.
Qed.

End CompositeMoreProperties.
